(** * Telemetry acquisition and persistence pipeline

    A shallow embedding of the two pipeline scripts of the repository,
    [satlen.py] (module [Satlen]) and [satyo.py] (module [Satyo]):
    the binary packet encoder, the ghost-trace vault, the bounded
    telemetry bus, the harvester and storage threads and the startup
    sequence.  Python floats are IEEE-754 binary64 values
    ([spec_float] at precision 53), integers are [Z], byte strings are
    [list byte], dictionaries are [gmap]s and the two worker threads are
    interleaved by an explicit schedule. *)

From Stdlib Require Import ZArith QArith Qabs Qpower List String Ascii Bool Lia Strings.Byte.
From Stdlib Require Import Floats.SpecFloat.
From stdpp Require Import base gmap list strings.
Import ListNotations.
Open Scope Z_scope.

(** ** Python runtime: exceptions and results *)

Module Py.

(** The exceptions that the modelled code can meet.  [KeyboardInterrupt]
    and [SystemExit] derive from [BaseException] only. *)
Inductive exn : Type :=
  | Exception (msg : string)
  | OSError (msg : string)
  | ValueError (msg : string)
  | OverflowError (msg : string)
  | ZeroDivisionError
  | StructError (msg : string)
  | QueueEmpty
  | MalformedRecordError (msg : string)
  | KeyboardInterrupt
  | SystemExit (code : option Z).

(** [isinstance(e, Exception)], the test of [except Exception as e]. *)
Definition is_Exception (e : exn) : bool :=
  match e with
  | KeyboardInterrupt | SystemExit _ => false
  | _ => true
  end.

(** A call either returns a value or raises. *)
Inductive result (A : Type) : Type :=
  | Ok (a : A)
  | Raise (e : exn).
Arguments Ok {A} a.
Arguments Raise {A} e.

Definition bind {A B} (m : result A) (k : A -> result B) : result B :=
  match m with
  | Ok a => k a
  | Raise e => Raise e
  end.

Definition is_Ok {A} (m : result A) : bool :=
  match m with Ok _ => true | Raise _ => false end.

(** Exit status of the interpreter when [SystemExit(code)] reaches the
    top level: [exit()] and [sys.exit()] carry [None], which is status 0;
    an integer is the status itself. *)
Definition exit_status (code : option Z) : Z :=
  match code with
  | None => 0
  | Some n => n
  end.

End Py.

Import Py.

#[global] Instance result_bind : MBind Py.result := fun _ _ k m => Py.bind m k.
#[global] Instance result_ret : MRet Py.result := fun _ a => Py.Ok a.

(** ** Byte strings *)

Module Bytes.

Definition byte_of_Z (z : Z) : byte :=
  match Byte.of_N (Z.to_N (z mod 256)) with
  | Some b => b
  | None => Byte.x00
  end.

Definition Z_of_byte (b : byte) : Z := Z.of_N (Byte.to_N b).

(** [n] bytes of [v], most significant first. *)
Fixpoint be_bytes (n : nat) (v : Z) : list byte :=
  match n with
  | O => []
  | S k => byte_of_Z (Z.shiftr v (8 * Z.of_nat k)) :: be_bytes k v
  end.

(** Least significant first. *)
Definition le_bytes (n : nat) (v : Z) : list byte := rev (be_bytes n v).

(** The unsigned integer a big-endian byte string stands for. *)
Definition be_decode (bs : list byte) : Z :=
  fold_left (fun acc b => acc * 256 + Z_of_byte b) bs 0.

Definition le_decode (bs : list byte) : Z := be_decode (rev bs).

(** [bs[off : off + len]] *)
Definition slice (off len : nat) (bs : list byte) : list byte :=
  take len (drop off bs).

End Bytes.

Import Bytes.

(** ** IEEE-754 interchange formats *)

Module IEEE.

(** A Python float: a binary64 value. *)
Definition pyfloat : Type := spec_float.

Definition valid64 (x : pyfloat) : bool := valid_binary 53 1024 x.
Definition valid32 (x : spec_float) : bool := valid_binary 24 128 x.

Definition is_finite (x : spec_float) : bool :=
  match x with
  | S754_zero _ | S754_finite _ _ _ => true
  | _ => false
  end.

Definition is_infinite (x : spec_float) : bool :=
  match x with
  | S754_infinity _ => true
  | _ => false
  end.

(** Conversion of an integer, and of a decimal literal [num / den]
    (both exactly representable), to the nearest binary64 value. *)
Definition of_Z (z : Z) : pyfloat := binary_normalize 53 1024 z 0 false.
Definition literal (num den : Z) : pyfloat :=
  SFdiv 53 1024 (of_Z num) (of_Z den).

Definition fadd : pyfloat -> pyfloat -> pyfloat := SFadd 53 1024.
Definition fsub : pyfloat -> pyfloat -> pyfloat := SFsub 53 1024.
Definition fmul : pyfloat -> pyfloat -> pyfloat := SFmul 53 1024.
Definition fdiv : pyfloat -> pyfloat -> pyfloat := SFdiv 53 1024.
Definition flt : pyfloat -> pyfloat -> bool := SFltb.
Definition fgt (x y : pyfloat) : bool := SFltb y x.
Definition feq : pyfloat -> pyfloat -> bool := SFeqb.

(** The C cast [(float) x]: round to nearest, ties to even, in binary32. *)
Definition to_f32 (x : pyfloat) : spec_float :=
  match x with
  | S754_finite s m e => binary_round 24 128 s m e
  | _ => x
  end.

(** The same rounding in arithmetic.  [round_mantissa m n] is the
    integer nearest to [m / 2^n], ties to even, for [0 < n]. *)
Definition round_mantissa (m n : Z) : Z :=
  let q := m / 2 ^ n in
  match m mod 2 ^ n ?= 2 ^ (n - 1) with
  | Lt => q
  | Eq => if Z.even q then q else q + 1
  | Gt => q + 1
  end.

(** The float of significand [q] and exponent [e]: zero when [q] is
    zero, infinity when the exponent is beyond the format. *)
Definition finish (prec emax : Z) (s : bool) (q e : Z) : spec_float :=
  match q with
  | Z0 => S754_zero s
  | Z.pos p => if e <=? emax - prec then S754_finite s p e else S754_infinity s
  | Z.neg _ => S754_nan
  end.

(** [round_to prec emax s m e] is [(-1)^s * m * 2^e] rounded to the
    format: with [e1] the exponent the format gives a number of this
    magnitude, the significand is scaled exactly when [e1 <= e] and is
    rounded to [e1 - e] fewer bits otherwise; a significand that rounds
    up to [2^prec] moves to the next exponent. *)
Definition round_to (prec emax : Z) (s : bool) (m : positive) (e : Z) : spec_float :=
  let e1 := fexp prec emax (Z.pos (digits2_pos m) + e) in
  if e1 <=? e then finish prec emax s (Z.pos m * 2 ^ (e - e1)) e1
  else
    let q := round_mantissa (Z.pos m) (e1 - e) in
    if q =? 2 ^ prec then finish prec emax s (2 ^ (prec - 1)) (e1 + 1)
    else finish prec emax s q e1.

(** The rational number a finite float stands for (0 for the others). *)
Definition Qsign (s : bool) : Q := if s then (-1)%Q else 1%Q.

Definition SF2Q (x : spec_float) : Q :=
  match x with
  | S754_finite s m e => (Qsign s * inject_Z (Z.pos m) * 2 ^ e)%Q
  | _ => 0%Q
  end.

(** [y] is [x] within the rounding tolerance of binary32: half a unit
    in the last place, which is at most [2^-24] of the magnitude of [x]
    for a normal result and at most [2^-150] for a subnormal one;
    infinities and NaN are kept. *)
Definition within_f32_tolerance (x : pyfloat) (y : spec_float) : Prop :=
  match x with
  | S754_finite _ _ _ =>
      is_finite y = true /\
      (Qabs (SF2Q y - SF2Q x) <= Qabs (SF2Q x) * 2 ^ (-24) \/
       Qabs (SF2Q y - SF2Q x) <= 2 ^ (-150))%Q
  | _ => y = x
  end.

(** The bit pattern of a value in the format of precision [prec] and
    infinity exponent [emax]: sign, biased exponent, trailing
    significand.  NaN is the positive quiet NaN. *)
Section Bits.
Variables prec emax : Z.

Definition mant_width : Z := prec - 1.
Definition sign_weight : Z := 2 * emax * 2 ^ mant_width.
Definition sign_bits (s : bool) : Z := if s then sign_weight else 0.

Definition bits_of_SF (x : spec_float) : Z :=
  match x with
  | S754_zero s => sign_bits s
  | S754_infinity s => sign_bits s + (2 * emax - 1) * 2 ^ mant_width
  | S754_nan => (2 * emax - 1) * 2 ^ mant_width + 2 ^ (mant_width - 1)
  | S754_finite s m e =>
      if Z.pos m <? 2 ^ mant_width
      then sign_bits s + Z.pos m
      else sign_bits s + (e - emin prec emax + 1) * 2 ^ mant_width
           + (Z.pos m - 2 ^ mant_width)
  end.

Definition SF_of_bits (b : Z) : spec_float :=
  let s := Z.odd (b / sign_weight) in
  let E := (b / 2 ^ mant_width) mod (2 * emax) in
  let M := b mod 2 ^ mant_width in
  if E =? 0 then
    match M with
    | Z.pos m => S754_finite s m (emin prec emax)
    | _ => S754_zero s
    end
  else if E =? 2 * emax - 1 then
    (if M =? 0 then S754_infinity s else S754_nan)
  else
    match M + 2 ^ mant_width with
    | Z.pos m => S754_finite s m (E + emin prec emax - 1)
    | _ => S754_nan
    end.
End Bits.

Definition bits32 : spec_float -> Z := bits_of_SF 24 128.
Definition bits64 : spec_float -> Z := bits_of_SF 53 1024.
Definition of_bits32 : Z -> spec_float := SF_of_bits 24 128.
Definition of_bits64 : Z -> spec_float := SF_of_bits 53 1024.

End IEEE.

Import IEEE.

(** The line feed of the text files. *)
Definition newline : string := String (ascii_of_nat 10) EmptyString.

(** ** The [struct] module *)

Module Struct.

Inductive pyval : Type :=
  | PyInt (z : Z)
  | PyFloat (x : pyfloat).

Inductive byte_order : Type := BigEndian | LittleEndian.

(** The first character of a format: ['!'] and ['>'] are big-endian,
    ['<'] is little-endian, all three with standard sizes and no padding.
    Native mode (['@'], ['='] or no prefix) is not modelled. *)
Definition parse_order (fmt : string) : option (byte_order * string) :=
  match fmt with
  | String "!" rest | String ">" rest => Some (BigEndian, rest)
  | String "<" rest => Some (LittleEndian, rest)
  | _ => None
  end.

Definition emit (o : byte_order) (n : nat) (v : Z) : list byte :=
  match o with
  | BigEndian => be_bytes n v
  | LittleEndian => le_bytes n v
  end.

(** Standard size of one format character. *)
Definition code_size (c : ascii) : option nat :=
  match c with
  | "I"%char => Some 4%nat
  | "f"%char => Some 4%nat
  | "d"%char => Some 8%nat
  | _ => None
  end.

(** [struct.calcsize] *)
Fixpoint calcsize_codes (codes : string) : option nat :=
  match codes with
  | EmptyString => Some O
  | String c rest =>
      match code_size c, calcsize_codes rest with
      | Some n, Some k => Some (n + k)%nat
      | _, _ => None
      end
  end.

Definition calcsize (fmt : string) : option nat :=
  match parse_order fmt with
  | Some (_, codes) => calcsize_codes codes
  | None => None
  end.

(** The double a ['f'] or ['d'] argument stands for: a float is itself,
    an integer is converted and must not be too large. *)
Definition as_double (v : pyval) : result pyfloat :=
  match v with
  | PyFloat x => Ok x
  | PyInt z =>
      let x := of_Z z in
      if is_infinite x
      then Raise (OverflowError "int too large to convert to float")
      else Ok x
  end.

(** Packing one value. ['I'] wants an integer in [0, 2^32); ['f'] rounds
    to binary32 and refuses a finite double that rounds to infinity. *)
Definition pack_one (o : byte_order) (c : ascii) (v : pyval)
  : result (list byte) :=
  match c with
  | "I"%char =>
      match v with
      | PyInt z =>
          if (0 <=? z) && (z <? 2 ^ 32)
          then Ok (emit o 4 z)
          else Raise (StructError "argument out of range")
      | PyFloat _ => Raise (StructError "required argument is not an integer")
      end
  | "f"%char =>
      x ← as_double v;
      let y := to_f32 x in
      if is_finite x && is_infinite y
      then Raise (OverflowError "float too large to pack with f format")
      else Ok (emit o 4 (bits32 y))
  | "d"%char =>
      x ← as_double v;
      Ok (emit o 8 (bits64 x))
  | _ => Raise (StructError "bad char in struct format")
  end.

Fixpoint pack_codes (o : byte_order) (codes : string) (args : list pyval)
  : result (list byte) :=
  match codes, args with
  | EmptyString, [] => Ok []
  | String c rest, v :: args' =>
      b ← pack_one o c v;
      bs ← pack_codes o rest args';
      Ok (b ++ bs)
  | _, _ => Raise (StructError "pack: wrong number of arguments")
  end.

(** [struct.pack(fmt, *args)] *)
Definition pack (fmt : string) (args : list pyval) : result (list byte) :=
  match parse_order fmt with
  | Some (o, codes) => pack_codes o codes args
  | None => Raise (StructError "byte order not modelled")
  end.

End Struct.

Import Struct.

(** ** [queue.Queue] *)

Module Queue.

Record t (A : Type) : Type := mk { maxsize : Z; items : list A }.
Arguments mk {A} maxsize items.
Arguments maxsize {A} _.
Arguments items {A} _.

(** [Queue(maxsize)]; [Queue()] is [Queue(0)], which has no bound. *)
Definition new {A} (maxsize : Z) : t A := mk maxsize [].

Definition qsize {A} (q : t A) : nat := length (items q).

(** [Queue.full]: [0 < maxsize <= qsize]. *)
Definition full {A} (q : t A) : bool :=
  (0 <? maxsize q) && (maxsize q <=? Z.of_nat (qsize q)).

(** [put(x)] without timeout: appends at the tail; on a full queue the
    caller waits, which is [None] here (the call has not returned). *)
Definition put {A} (q : t A) (x : A) : option (t A) :=
  if full q then None else Some (mk (maxsize q) (items q ++ [x])).

(** [get(timeout)]: removes the head; on an empty queue the caller waits
    ([None]) until an item arrives or the timeout raises [Empty]. *)
Definition get {A} (q : t A) : option (A * t A) :=
  match items q with
  | [] => None
  | x :: rest => Some (x, mk (maxsize q) rest)
  end.

End Queue.

(** ** The ephemeris collaborator *)

Module Sky.

(** A catalog entry: [sat.name] and [sat.model.satnum]. *)
Record EarthSatellite : Type := mkSat { name : string; satnum : Z }.

(** A reading of the timescale, [ts.now()]. *)
Definition Time : Type := pyfloat.

(** What the library computes for one satellite at one time: the
    subpoint ([wgs84.subpoint(sat.at(now))]) and the vector to the
    ground station ([sat.at(now) - GROUND_STATION.at(now)]). *)
Record Fix : Type := mkFix {
  latitude_degrees : pyfloat;
  longitude_degrees : pyfloat;
  elevation_km : pyfloat;
  distance_km : pyfloat;
  speed_km_per_s : pyfloat
}.

(** [load.tle_file(url)] either returns the catalog or raises. *)
Definition catalog : Type := result (list EarthSatellite).

End Sky.

Import Sky.

(** ** Two daemon threads around one queue

    [tracking_loop] / [harvester_thread] and [storage_subsystem] /
    [storage_kernel] have the same shape in both scripts:

<<
    while not event.is_set():              <prologue>
        now = ts.now()                     while not event.is_set():
        for sat in swarm:                      try:
            item = measure(sat, now)               item = bus.get(timeout=1)
            bus.put(item)                          <persist item>
        time.sleep(..)                             bus.task_done()
                                               except Empty: continue
>>
    The section is parameterised by what differs: the bound of the queue,
    the measurement (with the harvester's private state), the prologue
    and the writes.  Each thread moves by atomic steps chosen by a
    schedule; a thread that waits (on a full or an empty queue) does not
    move. *)

Module Pipeline.

(** Where the harvesting thread stands. *)
Inductive hpc (T : Type) : Type :=
  | HTest                                             (* at [while not event.is_set()] *)
  | HFor (now : Time) (rest : list EarthSatellite)    (* at the head of [for sat in rest] *)
  | HPut (now : Time) (item : T) (rest : list EarthSatellite) (* in [bus.put(item)] *)
  | HReturned                                         (* the loop was left *)
  | HRaised (e : exn).                                (* an exception ended the thread *)
Arguments HTest {T}.
Arguments HFor {T} now rest.
Arguments HPut {T} now item rest.
Arguments HReturned {T}.
Arguments HRaised {T} e.

(** Where the storage thread stands. *)
Inductive spc : Type :=
  | SStart        (* before the prologue *)
  | STest         (* at [while not event.is_set()] *)
  | SGet          (* in [bus.get(timeout=1)] *)
  | SReturned     (* the loop was left *)
  | SRaised (e : exn).  (* an exception other than [Empty] ended the thread *)

(** What the scheduler lets happen next.  [Harvest] and [Store] carry
    the clock readings the step may take ([ts.now()], [time.time()],
    [datetime.now()]); [Timeout] is the expiry of the storage thread's
    [get]; [Interrupt] is the main thread setting the event on Ctrl+C. *)
Inductive action : Type :=
  | Harvest (now : Time) (clock : pyfloat)
  | Store (clock : pyfloat)
  | Timeout
  | Interrupt.

Section Pipeline.
Context {T K F : Type}.
Variable maxsize : Z.
Variable swarm_of : K -> list EarthSatellite.
Variable measure : K -> EarthSatellite -> Time -> pyfloat -> result (T * K).
Variable prologue : F -> F.
Variable persist : pyfloat -> T -> F -> result F.

Record system : Type := mkSystem {
  bus : Queue.t T;
  event : bool;
  kernel : K;
  files : F;
  harvester : hpc T;
  storage : spc
}.

Definition boot (k : K) (f : F) : system :=
  mkSystem (Queue.new maxsize) false k f HTest SStart.

Definition harvest_step (now : Time) (clock : pyfloat) (st : system) : system :=
  match harvester st with
  | HTest =>
      if event st
      then mkSystem (bus st) (event st) (kernel st) (files st) HReturned (storage st)
      else mkSystem (bus st) (event st) (kernel st) (files st) (HFor now (swarm_of (kernel st))) (storage st)
  | HFor t [] =>
      mkSystem (bus st) (event st) (kernel st) (files st) HTest (storage st)
  | HFor t (sat :: rest) =>
      match measure (kernel st) sat t clock with
      | Ok (item, k') =>
          mkSystem (bus st) (event st) k' (files st) (HPut t item rest) (storage st)
      | Raise e =>
          mkSystem (bus st) (event st) (kernel st) (files st) (HRaised e) (storage st)
      end
  | HPut t item rest =>
      match Queue.put (bus st) item with
      | Some q =>
          mkSystem q (event st) (kernel st) (files st) (HFor t rest) (storage st)
      | None => st
      end
  | HReturned => st
  | HRaised _ => st
  end.

Definition store_step (clock : pyfloat) (st : system) : system :=
  match storage st with
  | SStart =>
      mkSystem (bus st) (event st) (kernel st) (prologue (files st)) (harvester st) STest
  | STest =>
      if event st
      then mkSystem (bus st) (event st) (kernel st) (files st) (harvester st) SReturned
      else mkSystem (bus st) (event st) (kernel st) (files st) (harvester st) SGet
  | SGet =>
      match Queue.get (bus st) with
      | Some (item, q) =>
          match persist clock item (files st) with
          | Ok f => mkSystem q (event st) (kernel st) f (harvester st) STest
          | Raise e =>
              mkSystem q (event st) (kernel st) (files st) (harvester st) (SRaised e)
          end
      | None => st
      end
  | SReturned => st
  | SRaised _ => st
  end.

(** [Empty] is raised in a [get] that found nothing; the handler is
    [continue]. *)
Definition timeout_step (st : system) : system :=
  match storage st, Queue.get (bus st) with
  | SGet, None =>
      mkSystem (bus st) (event st) (kernel st) (files st) (harvester st) STest
  | _, _ => st
  end.

Definition interrupt_step (st : system) : system :=
  mkSystem (bus st) true (kernel st) (files st) (harvester st) (storage st).

Definition step (a : action) (st : system) : system :=
  match a with
  | Harvest now clock => harvest_step now clock st
  | Store clock => store_step clock st
  | Timeout => timeout_step st
  | Interrupt => interrupt_step st
  end.

Definition run (sched : list action) (st : system) : system :=
  fold_left (fun s a => step a s) sched st.

(** The items an execution has handed to [persist], oldest first. *)
Fixpoint persisted (sched : list action) (st : system) : list T :=
  match sched with
  | [] => []
  | a :: sched' =>
      match a, storage st, Queue.get (bus st) with
      | Store _, SGet, Some (item, _) => item :: persisted sched' (step a st)
      | _, _, _ => persisted sched' (step a st)
      end
  end.

(** The items an execution has put on the bus, oldest first, each with
    the value of the event at the time of the [put]. *)
Fixpoint accepted (sched : list action) (st : system) : list (T * bool) :=
  match sched with
  | [] => []
  | a :: sched' =>
      match a, harvester st with
      | Harvest _ _, HPut _ item _ =>
          if Queue.full (bus st) then accepted sched' (step a st)
          else (item, event st) :: accepted sched' (step a st)
      | _, _ => accepted sched' (step a st)
      end
  end.

Definition harvester_ended (st : system) : Prop :=
  match harvester st with
  | HReturned | HRaised _ => True
  | _ => False
  end.

Definition storage_ended (st : system) : Prop :=
  match storage st with
  | SReturned | SRaised _ => True
  | _ => False
  end.

(** Every item in flight or on disk comes from an object of [swarm0]:
    the swarm is [swarm0], the bus and the item being put satisfy
    [from_swarm], the objects still to visit in this cycle are in
    [swarm0] and the files satisfy [files_ok]. *)
Definition provenance (swarm0 : list EarthSatellite) (from_swarm : T -> Prop)
    (files_ok : F -> Prop) (st : system) : Prop :=
  swarm_of (kernel st) = swarm0 /\
  Forall from_swarm (Queue.items (bus st)) /\
  files_ok (files st) /\
  match harvester st with
  | HFor _ rest => rest ⊆ swarm0
  | HPut _ item rest => from_swarm item /\ rest ⊆ swarm0
  | _ => True
  end.

End Pipeline.

Arguments system T K F : clear implicits.

End Pipeline.

(** What becomes of the process at startup: the threads are launched on
    an initial state, or the interpreter terminates with a status. *)
Inductive process (S : Type) : Type :=
  | Launched (st : S)
  | Terminated (status : Z).
Arguments Launched {S} st.
Arguments Terminated {S} status.

(** Status of the interpreter when an exception reaches the top level. *)
Definition uncaught_status (e : exn) : Z :=
  match e with
  | SystemExit code => exit_status code
  | KeyboardInterrupt => 130
  | _ => 1
  end.

(** ** satlen.py *)

Module Satlen.

Definition BASE_FREQ_GHZ : pyfloat := literal 12450 1000.    (* 12.450 *)
Definition LIGHT_SPEED : pyfloat := literal 299792458 1000.  (* 299792.458 *)

(** [telemetry_bus = Queue(maxsize=1000)] *)
Definition telemetry_bus_maxsize : Z := 1000.

(** The dictionary returned by [perform_handshake]. *)
Record telemetry : Type := mkTelemetry {
  node_name : string;
  node_id : Z;
  coords : pyfloat * pyfloat;
  altitude : pyfloat;
  range : pyfloat;
  doppler : pyfloat;
  snr : pyfloat;
  status : string;
  binary_blob : list byte
}.

(** The three output files.  Text is kept as the sequence of pieces
    written: a literal, or the dump of a dictionary. *)
Inductive json_piece : Type :=
  | Text (s : string)
  | Dump (data : telemetry).

(** One line of the audit log: the fields interpolated in
    [[{datetime.now()}] WARN: Node {node_id} Signal Weak ({snr:.2f}dB). Re-routing...]. *)
Record warning : Type := mkWarning {
  warn_at : pyfloat;
  warn_node : Z;
  warn_snr : pyfloat
}.

Record disk : Type := mkDisk {
  BINARY_LOG : list byte;
  JSON_STREAM : list json_piece;
  RECOVERY_LOG : list warning
}.

(** The workspace after [os.remove] of the three files. *)
Definition clean_disk : disk := mkDisk [] [] [].

(** The dictionaries dumped in a JSON file, in order. *)
Definition dumps (pieces : list json_piece) : list telemetry :=
  flat_map (fun p => match p with Dump data => [data] | Text _ => [] end) pieces.

(** [QuantumSignalProcessor.encode_binary_packet]; [time_time] is the
    value [time.time()] returns inside the call. *)
Definition encode_binary_packet (sat_id : Z) (lat lon alt doppler : pyfloat)
    (time_time : pyfloat) : result (list byte) :=
  let packet_format := "!Iffffd"%string in
  pack packet_format
    [PyInt sat_id; PyFloat lat; PyFloat lon; PyFloat alt; PyFloat doppler;
     PyFloat time_time].

Section Collaborators.
(** [math.log10] and the ephemeris. *)
Variable log10 : pyfloat -> result pyfloat.
Variable observe : EarthSatellite -> Time -> result Fix.

(** [QuantumSignalProcessor.calculate_path_loss] *)
Definition calculate_path_loss (distance_km frequency_ghz : pyfloat)
  : result pyfloat :=
  if feq distance_km (of_Z 0) then Ok (of_Z 0)
  else
    ld ← log10 distance_km;
    lf ← log10 frequency_ghz;
    Ok (fadd (fadd (fmul (of_Z 20) ld) (fmul (of_Z 20) lf)) (literal 9245 100)).

(** The doppler shift computed in [perform_handshake]. *)
Definition doppler_shift (range_rate : pyfloat) : pyfloat :=
  fmul (fdiv range_rate LIGHT_SPEED) BASE_FREQ_GHZ.

(** [SatelliteKernel.perform_handshake] *)
Definition perform_handshake (sat : EarthSatellite) (now : Time)
    (time_time : pyfloat) : result telemetry :=
  fx ← observe sat now;
  let range_km := distance_km fx in
  let alt_km := elevation_km fx in
  let range_rate := speed_km_per_s fx in
  let doppler_shift := doppler_shift range_rate in
  path_loss ← calculate_path_loss range_km BASE_FREQ_GHZ;
  let snr := fsub (of_Z 100) (fdiv path_loss (of_Z 2)) in
  blob ← encode_binary_packet (satnum sat) (latitude_degrees fx)
            (longitude_degrees fx) alt_km doppler_shift time_time;
  Ok {| node_name := name sat;
        node_id := satnum sat;
        coords := (latitude_degrees fx, longitude_degrees fx);
        altitude := alt_km;
        range := range_km;
        doppler := doppler_shift;
        snr := snr;
        status := if fgt snr (of_Z 15) then "ACTIVE" else "DEGRADED";
        binary_blob := blob |}.

(** The state of a [SatelliteKernel]. *)
Record SatelliteKernel : Type := mkKernel {
  sats : list EarthSatellite;
  swarm : list EarthSatellite
}.

(** [SatelliteKernel.__init__]: any [Exception] of the download is
    answered by [exit()], which raises [SystemExit(None)]. *)
Definition SatelliteKernel_init (fetch : catalog) : result SatelliteKernel :=
  match fetch with
  | Ok sats => Ok (mkKernel sats (take 100 sats))
  | Raise e => if is_Exception e then Raise (SystemExit None) else Raise e
  end.

(** The body of the [try] in [storage_subsystem], for one item. *)
Definition persist (datetime_now : pyfloat) (data : telemetry) (d : disk)
  : result disk :=
  let d1 := mkDisk (BINARY_LOG d ++ binary_blob data) (JSON_STREAM d) (RECOVERY_LOG d) in
  let d2 := mkDisk (BINARY_LOG d1) (JSON_STREAM d1 ++ [Dump data; Text ("," +:+ newline)]) (RECOVERY_LOG d1) in
  if flt (snr data) (of_Z 20)
  then Ok (mkDisk (BINARY_LOG d2) (JSON_STREAM d2)
             (RECOVERY_LOG d2 ++ [mkWarning datetime_now (node_id data) (snr data)]))
  else Ok d2.

(** [open(JSON_STREAM, 'w')] and the opening bracket. *)
Definition prologue (d : disk) : disk :=
  mkDisk (BINARY_LOG d) [Text ("[" +:+ newline)] (RECOVERY_LOG d).

Definition measure (k : SatelliteKernel) (sat : EarthSatellite) (now : Time)
    (time_time : pyfloat) : result (telemetry * SatelliteKernel) :=
  data ← perform_handshake sat now time_time;
  Ok (data, k).

Definition system : Type := Pipeline.system telemetry SatelliteKernel disk.

(** [tracking_loop] and [storage_subsystem], one atomic step at a time. *)
Definition step : Pipeline.action -> system -> system :=
  Pipeline.step swarm measure prologue persist.

Definition run : list Pipeline.action -> system -> system :=
  Pipeline.run swarm measure prologue persist.

(** The main program up to the start of the two threads. *)
Definition main (fetch : catalog) : process system :=
  match SatelliteKernel_init fetch with
  | Ok kernel =>
      Launched (Pipeline.boot telemetry_bus_maxsize kernel clean_disk)
  | Raise e => Terminated (uncaught_status e)
  end.

(** The state in which the threads are launched on the catalog [sats]. *)
Definition start (sats : list EarthSatellite) : system :=
  Pipeline.boot telemetry_bus_maxsize (mkKernel sats (take 100 sats)) clean_disk.

(** [data] is a sample of one of the first hundred entries of [sats]. *)
Definition tracked (sats : list EarthSatellite) (data : telemetry) : Prop :=
  exists i sat now time_time,
    (i < 100)%nat /\ sats !! i = Some sat /\
    perform_handshake sat now time_time = Ok data.

Definition json_tracked (sats : list EarthSatellite) (p : json_piece) : Prop :=
  match p with
  | Dump data => tracked sats data
  | Text _ => True
  end.

End Collaborators.

End Satlen.

(** ** [bytes.hex] and [bytes.fromhex] *)

Module Hex.

Definition digit (n : Z) : ascii :=
  if n <? 10 then ascii_of_nat (Z.to_nat (48 + n))
  else ascii_of_nat (Z.to_nat (87 + n)).

Definition value (c : ascii) : option Z :=
  let n := Z.of_nat (nat_of_ascii c) in
  if (48 <=? n) && (n <=? 57) then Some (n - 48)
  else if (97 <=? n) && (n <=? 102) then Some (n - 87)
  else if (65 <=? n) && (n <=? 70) then Some (n - 55)
  else None.

(** [bs.hex()]: two lowercase digits per byte. *)
Fixpoint hex (bs : list byte) : string :=
  match bs with
  | [] => EmptyString
  | b :: rest =>
      String (digit (Z_of_byte b / 16)) (String (digit (Z_of_byte b mod 16)) (hex rest))
  end.

(** [bytes.fromhex(s)] on a string of digit pairs. *)
Fixpoint fromhex (s : string) : result (list byte) :=
  match s with
  | EmptyString => Ok []
  | String hi (String lo rest) =>
      match value hi, value lo with
      | Some h, Some l =>
          bs ← fromhex rest;
          Ok (byte_of_Z (16 * h + l) :: bs)
      | _, _ => Raise (ValueError "non-hexadecimal number found in fromhex() arg")
      end
  | String _ EmptyString =>
      Raise (ValueError "non-hexadecimal number found in fromhex() arg")
  end.

End Hex.

(** ** satyo.py *)

Module Satyo.

Definition GHOST_TRACE_BUFFER : nat := 50.
Definition KU_BAND_FREQ : pyfloat := of_Z 12000000000.  (* 12.0e9 *)
Definition C : Z := 299792458.

(** The dictionary returned by [calculate_quantum_metrics]. *)
Record telemetry : Type := mkTelemetry {
  node : string;
  id : Z;
  lat : pyfloat;
  lon : pyfloat;
  alt : pyfloat;
  binary_payload : string;
  ghost_points : nat
}.

(** The two output files; the JSON file holds one dictionary per line. *)
Record disk : Type := mkDisk {
  BINARY_CORE_FILE : list byte;
  DATA_MATRIX_FILE : list telemetry
}.

Definition clean_disk : disk := mkDisk [] [].

(** The attributes of an [IntelligenceKernel] that the threads use;
    [telemetry_queue = Queue()] and [shutdown_event] are the bus and the
    event of the pipeline. *)
Record IntelligenceKernel : Type := mkKernel {
  debug : bool;
  ghost_enabled : bool;
  ghost_vault : gmap string (list (pyfloat * pyfloat));
  active_swarm : list EarthSatellite
}.

(** [Queue()] *)
Definition telemetry_queue_maxsize : Z := 0.

(** [IntelligenceKernel.__init__] *)
Definition IntelligenceKernel_init (debug ghost_trace : bool) : IntelligenceKernel :=
  mkKernel debug ghost_trace ∅ [].

(** [boot_sequence]: any [Exception] of the download is answered by
    [sys.exit(1)]. *)
Definition boot_sequence (self : IntelligenceKernel) (fetch : catalog)
  : result IntelligenceKernel :=
  match fetch with
  | Ok sats =>
      Ok (mkKernel (debug self) (ghost_enabled self) (ghost_vault self) (take 100 sats))
  | Raise e => if is_Exception e then Raise (SystemExit (Some 1)) else Raise e
  end.

(** The ghost-trace block of [calculate_quantum_metrics]: create the
    list on first sight, append, and pop the head when the list has more
    than [GHOST_TRACE_BUFFER] points. *)
Definition ghost_append (vault : gmap string (list (pyfloat * pyfloat)))
    (key : string) (point : pyfloat * pyfloat)
  : gmap string (list (pyfloat * pyfloat)) :=
  let vault1 :=
    match vault !! key with
    | None => <[key := []]> vault
    | Some _ => vault
    end in
  let trace := default [] (vault1 !! key) ++ [point] in
  let vault2 := <[key := trace]> vault1 in
  if (GHOST_TRACE_BUFFER <? length trace)%nat
  then <[key := drop 1 trace]> vault2
  else vault2.

Section Collaborators.
Variable observe : EarthSatellite -> Time -> result Fix.

(** The packet built at the head of [calculate_quantum_metrics]. *)
Definition binary_packet (sat : EarthSatellite) (fx : Fix) (time_time : pyfloat)
  : result (list byte) :=
  pack "!Iffffd"
    [PyInt (satnum sat);
     PyFloat (latitude_degrees fx);
     PyFloat (longitude_degrees fx);
     PyFloat (elevation_km fx);
     PyFloat (S754_zero false);   (* 0.0, "Placeholder for Doppler calc" *)
     PyFloat time_time].

(** [IntelligenceKernel.calculate_quantum_metrics] *)
Definition calculate_quantum_metrics (self : IntelligenceKernel)
    (sat : EarthSatellite) (now : Time) (time_time : pyfloat)
  : result (telemetry * IntelligenceKernel) :=
  fx ← observe sat now;
  packet ← binary_packet sat fx time_time;
  let vault :=
    if ghost_enabled self
    then ghost_append (ghost_vault self) (name sat)
           (latitude_degrees fx, longitude_degrees fx)
    else ghost_vault self in
  Ok ({| node := name sat;
         id := satnum sat;
         lat := latitude_degrees fx;
         lon := longitude_degrees fx;
         alt := elevation_km fx;
         binary_payload := Hex.hex packet;
         ghost_points := length (default [] (vault !! name sat)) |},
      mkKernel (debug self) (ghost_enabled self) vault (active_swarm self)).

(** [open(BINARY_CORE_FILE, "wb")] and the header. *)
Definition prologue (d : disk) : disk :=
  mkDisk (list_byte_of_string "NEXUS-INTEL-V2-START") (DATA_MATRIX_FILE d).

(** The body of the [try] in [storage_kernel], for one item. *)
Definition persist (_ : pyfloat) (packet : telemetry) (d : disk) : result disk :=
  raw ← Hex.fromhex (binary_payload packet);
  let d1 := mkDisk (BINARY_CORE_FILE d ++ raw) (DATA_MATRIX_FILE d) in
  Ok (mkDisk (BINARY_CORE_FILE d1) (DATA_MATRIX_FILE d1 ++ [packet])).

Definition system : Type := Pipeline.system telemetry IntelligenceKernel disk.

(** [harvester_thread] and [storage_kernel], one atomic step at a time. *)
Definition step : Pipeline.action -> system -> system :=
  Pipeline.step active_swarm calculate_quantum_metrics prologue persist.

Definition run : list Pipeline.action -> system -> system :=
  Pipeline.run active_swarm calculate_quantum_metrics prologue persist.

(** The main program up to the start of the two threads. *)
Definition main (debug ghost_trace : bool) (fetch : catalog) : process system :=
  let engine := IntelligenceKernel_init debug ghost_trace in
  match boot_sequence engine fetch with
  | Ok engine' =>
      Launched (Pipeline.boot telemetry_queue_maxsize engine' clean_disk)
  | Raise e => Terminated (uncaught_status e)
  end.

(** The state in which the threads are launched on the catalog [sats]. *)
Definition start (debug ghost_trace : bool) (sats : list EarthSatellite) : system :=
  Pipeline.boot telemetry_queue_maxsize
    (mkKernel debug ghost_trace ∅ (take 100 sats)) clean_disk.

(** [item] is a sample of one of the first hundred entries of [sats]. *)
Definition tracked (sats : list EarthSatellite) (item : telemetry) : Prop :=
  exists i sat now time_time self self',
    (i < 100)%nat /\ sats !! i = Some sat /\
    calculate_quantum_metrics self sat now time_time = Ok (item, self').

End Collaborators.

End Satyo.

(** ** Conditions and scenario *)

(** A double that ['f'] packs without [OverflowError]. *)
Definition packs_f32 (x : pyfloat) : bool :=
  negb (is_finite x && is_infinite (to_f32 x)).

(** The 28 bytes of a record, field by field. *)
Definition record_bytes (ident : Z) (lat lon alt doppler timestamp : pyfloat)
  : list byte :=
  be_bytes 4 ident ++ be_bytes 4 (bits32 (to_f32 lat)) ++
  be_bytes 4 (bits32 (to_f32 lon)) ++ be_bytes 4 (bits32 (to_f32 alt)) ++
  be_bytes 4 (bits32 (to_f32 doppler)) ++ be_bytes 8 (bits64 timestamp).

(** ** BinaryCodec.decode *)

Module BinaryCodec.

(** A decoded record: the identifier, four binary32 values and the
    binary64 timestamp. *)
Record packet : Type := mkPacket {
  identifier : Z;
  latitude : spec_float;
  longitude : spec_float;
  altitude : spec_float;
  doppler : spec_float;
  timestamp : pyfloat
}.

(** Modelled from the spec: the repository has no decoder (neither
    script reads the binary log back), so [decode] follows the words of
    the spec for BinaryCodec: the inverse of [encode] on the fixed
    28-byte big-endian layout uint32, 4 x float32, float64, which
    "fails with MalformedRecordError if input length is not 28 bytes". *)
Definition decode (bs : list byte) : result packet :=
  if (length bs =? 28)%nat
  then Ok {| identifier := be_decode (slice 0 4 bs);
             latitude := of_bits32 (be_decode (slice 4 4 bs));
             longitude := of_bits32 (be_decode (slice 8 4 bs));
             altitude := of_bits32 (be_decode (slice 12 4 bs));
             doppler := of_bits32 (be_decode (slice 16 4 bs));
             timestamp := of_bits64 (be_decode (slice 20 8 bs)) |}
  else Raise (MalformedRecordError "record is not 28 bytes long").

End BinaryCodec.

(** The end-to-end scenario: one object, a constant ephemeris. *)
Module Scenario.

Definition iss : EarthSatellite := mkSat "ISS (ZARYA)" 25544.
Definition hubble : EarthSatellite := mkSat "HST" 20580.
Definition debris : EarthSatellite := mkSat "FENGYUN 1C DEB" 29228.

Definition fix_iss : Fix :=
  mkFix (literal 1242 100) (literal 14412 100) (of_Z 410) (of_Z 800) (literal 45 10).

Definition observe (sat : EarthSatellite) (now : Time) : result Fix :=
  if (satnum sat =? 29228)
  then Raise (ValueError "Satellite has decayed")
  else Ok fix_iss.

(** [math.log10] at the two points the scenario needs, to sixteen
    digits; a domain error elsewhere. *)
Definition log10 (x : pyfloat) : result pyfloat :=
  if feq x (of_Z 800) then Ok (literal 2903089986991944 1000000000000000)
  else if feq x Satlen.BASE_FREQ_GHZ then Ok (literal 1095169351431755 1000000000000000)
  else Raise (ValueError "math domain error").

Definition t0 : Time := literal 24603170 10.
Definition clock0 : pyfloat := literal 17000000005 10.

(** A catalog whose second entry cannot be propagated. *)
Definition catalog3 : list EarthSatellite := [iss; debris; hubble].

(** [n] turns of the harvesting thread alone. *)
Definition harvest_only (n : nat) : list Pipeline.action :=
  repeat (Pipeline.Harvest t0 clock0) n.

(** One sample is put on the bus, then Ctrl+C arrives while the storage
    thread is between two iterations. *)
Definition interrupted : list Pipeline.action :=
  [Pipeline.Store clock0;
   Pipeline.Harvest t0 clock0; Pipeline.Harvest t0 clock0; Pipeline.Harvest t0 clock0;
   Pipeline.Interrupt;
   Pipeline.Store clock0; Pipeline.Store clock0; Pipeline.Timeout;
   Pipeline.Harvest t0 clock0].

End Scenario.

(** ** Derived notions used to describe whole executions *)

Module Cycle.
Import Pipeline.

Section Cycle.
Context {T K : Type}.
Variable measure : K -> EarthSatellite -> Time -> pyfloat -> result (T * K).

(** One pass of [for sat in rest: item = measure(sat, now)], with the
    harvester's state threaded through: the items in order and the final
    state, or the first exception. *)
Fixpoint measure_all (k : K) (rest : list EarthSatellite) (now : Time)
    (clock : pyfloat) : result (list T * K) :=
  match rest with
  | [] => Ok ([], k)
  | sat :: rest' =>
      match measure k sat now clock with
      | Ok (item, k') =>
          match measure_all k' rest' now clock with
          | Ok (items, k'') => Ok (item :: items, k'')
          | Raise e => Raise e
          end
      | Raise e => Raise e
      end
  end.

(** The number of [put]s the harvester can still make in the cycle it
    is in. *)
Definition pending (h : hpc T) : nat :=
  match h with
  | HFor _ rest => length rest
  | HPut _ _ rest => S (length rest)
  | _ => O
  end.

End Cycle.
End Cycle.

Module Views.

(** The text of the JSON file of satlen.py after the samples [taken]. *)
Definition satlen_json (taken : list Satlen.telemetry) : list Satlen.json_piece :=
  Satlen.Text ("[" +:+ newline)
  :: flat_map (fun data => [Satlen.Dump data; Satlen.Text ("," +:+ newline)]) taken.

(** Node and SNR of the warnings of an audit log. *)
Definition warned (log : list Satlen.warning) : list (Z * pyfloat) :=
  map (fun w => (Satlen.warn_node w, Satlen.warn_snr w)) log.

(** Node and SNR of the samples of [taken] that are below the
    threshold of [storage_subsystem]. *)
Definition weak (taken : list Satlen.telemetry) : list (Z * pyfloat) :=
  flat_map (fun data => if flt (Satlen.snr data) (of_Z 20)
                        then [(Satlen.node_id data, Satlen.snr data)] else []) taken.

(** The bytes [storage_kernel] appends for one sample of satyo.py. *)
Definition satyo_raw (packet : Satyo.telemetry) : list byte :=
  match Hex.fromhex (Satyo.binary_payload packet) with
  | Ok raw => raw
  | Raise _ => []
  end.

(** The header [storage_kernel] writes first. *)
Definition satyo_header : list byte := list_byte_of_string "NEXUS-INTEL-V2-START".

(** The last [n] elements of a list. *)
Definition last_n {A} (n : nat) (l : list A) : list A := drop (length l - n) l.

End Views.

(** * Properties *)

(** ** Byte strings *)

Lemma Z_of_byte_of_Z z : Z_of_byte (byte_of_Z z) = z mod 256.
Proof.
  unfold Z_of_byte, byte_of_Z.
  assert (H : 0 <= z mod 256 < 256) by (apply Z.mod_pos_bound; lia).
  pose proof (Byte.to_of_N_option_map (Z.to_N (z mod 256))) as E.
  destruct (Byte.of_N (Z.to_N (z mod 256))) as [b|] eqn:Hb.
  - apply Byte.to_of_N in Hb. rewrite Hb. lia.
  - simpl in E. destruct (N.leb_spec (Z.to_N (z mod 256)) 255); [discriminate | lia].
Qed.

Lemma Z_of_byte_range b : 0 <= Z_of_byte b < 256.
Proof. unfold Z_of_byte. pose proof (Byte.to_N_bounded b). lia. Qed.

Lemma byte_of_Z_of_byte b : byte_of_Z (Z_of_byte b) = b.
Proof.
  unfold byte_of_Z. rewrite Z.mod_small by apply Z_of_byte_range.
  unfold Z_of_byte. rewrite N2Z.id, Byte.of_to_N. reflexivity.
Qed.

Lemma length_be_bytes n v : length (be_bytes n v) = n.
Proof. induction n as [|n IH]; simpl; [reflexivity | now rewrite IH]. Qed.

Lemma be_decode_acc (cs : list byte) (a : Z) :
  fold_left (fun acc b => acc * 256 + Z_of_byte b) cs a =
  a * 256 ^ Z.of_nat (length cs) + be_decode cs.
Proof.
  unfold be_decode. revert a.
  induction cs as [|c cs IH]; intros a.
  - simpl. lia.
  - cbn [fold_left length]. rewrite IH, (IH (0 * 256 + Z_of_byte c)).
    rewrite Nat2Z.inj_succ, Z.pow_succ_r by lia. ring.
Qed.

Lemma be_decode_app bs cs :
  be_decode (bs ++ cs) = be_decode bs * 256 ^ Z.of_nat (length cs) + be_decode cs.
Proof.
  unfold be_decode at 1. rewrite fold_left_app. apply be_decode_acc.
Qed.

Lemma be_decode_be_bytes n v :
  be_decode (be_bytes n v) = v mod 2 ^ (8 * Z.of_nat n).
Proof.
  induction n as [|n IH].
  - simpl. now rewrite Z.mod_1_r.
  - cbn [be_bytes].
    change (byte_of_Z (v ≫ (8 * Z.of_nat n)) :: be_bytes n v)
      with ([byte_of_Z (v ≫ (8 * Z.of_nat n))] ++ be_bytes n v).
    rewrite be_decode_app, IH, length_be_bytes.
    unfold be_decode at 1. cbn [fold_left].
    rewrite Z_of_byte_of_Z, Z.shiftr_div_pow2 by lia.
    replace (8 * Z.of_nat (S n)) with (8 * Z.of_nat n + 8) by lia.
    rewrite Z.pow_add_r by lia.
    replace (256 ^ Z.of_nat n) with (2 ^ (8 * Z.of_nat n))
      by (rewrite Z.pow_mul_r by lia; reflexivity).
    change (2 ^ 8) with 256.
    set (p := 2 ^ (8 * Z.of_nat n)).
    assert (Hp : 0 < p) by (apply Z.pow_pos_nonneg; lia).
    rewrite Z.rem_mul_r by lia. lia.
Qed.

Lemma be_decode_be_bytes_small n v :
  0 <= v < 2 ^ (8 * Z.of_nat n) -> be_decode (be_bytes n v) = v.
Proof. intros H. rewrite be_decode_be_bytes. now apply Z.mod_small. Qed.

Lemma slice_app_at (bs cs ds : list byte) n :
  length cs = n -> slice (length bs) n (bs ++ cs ++ ds) = cs.
Proof.
  intros <-. unfold slice. rewrite drop_app_length. apply take_app_length.
Qed.

(** ** The binary packet *)

Lemma pack_one_I o z :
  0 <= z < 2 ^ 32 -> pack_one o "I" (PyInt z) = Ok (emit o 4 z).
Proof.
  intros [H0 H1]. cbn [pack_one].
  destruct (Z.leb_spec 0 z); [|lia]. destruct (Z.ltb_spec z (2 ^ 32)); [|lia].
  reflexivity.
Qed.

Lemma pack_one_f o x :
  packs_f32 x = true -> pack_one o "f" (PyFloat x) = Ok (emit o 4 (bits32 (to_f32 x))).
Proof.
  unfold packs_f32. intros H. cbn.
  destruct (is_finite x && is_infinite (to_f32 x)); [discriminate | reflexivity].
Qed.

Lemma pack_one_d o x : pack_one o "d" (PyFloat x) = Ok (emit o 8 (bits64 x)).
Proof. reflexivity. Qed.

Lemma packs_f32_zero s : packs_f32 (S754_zero s) = true.
Proof. reflexivity. Qed.

Lemma length_record_bytes ident lat lon alt doppler timestamp :
  length (record_bytes ident lat lon alt doppler timestamp) = 28%nat.
Proof. unfold record_bytes. rewrite !length_app, !length_be_bytes. reflexivity. Qed.

Lemma pack_Iffffd ident lat lon alt doppler timestamp :
  0 <= ident < 2 ^ 32 ->
  packs_f32 lat = true -> packs_f32 lon = true ->
  packs_f32 alt = true -> packs_f32 doppler = true ->
  pack "!Iffffd" [PyInt ident; PyFloat lat; PyFloat lon; PyFloat alt;
                  PyFloat doppler; PyFloat timestamp]
  = Ok (record_bytes ident lat lon alt doppler timestamp).
Proof.
  intros Hid Hlat Hlon Halt Hdop.
  unfold pack. cbn [parse_order pack_codes].
  rewrite (pack_one_I _ _ Hid), !pack_one_f, pack_one_d by assumption.
  cbn [emit]. unfold record_bytes. cbn [mbind result_bind Py.bind]. now rewrite app_nil_r.
Qed.

(** C3. For every sample whose identifier is a uint32 and whose four
    measurements fit binary32, both encoders ([encode_binary_packet] of
    satlen.py and the [struct.pack] of satyo.py) return a record of
    exactly 28 bytes, which is the size of the format; the record is the
    big-endian identifier on 4 bytes, then latitude, longitude, altitude
    and doppler as binary32 on 4 bytes each, then the timestamp as
    binary64 on 8 bytes, and its first four bytes read back as the
    identifier. *)
Theorem binary_packet_layout
    (sat : EarthSatellite) (fx : Fix) (doppler time_time : pyfloat) :
  0 <= satnum sat < 2 ^ 32 ->
  packs_f32 (latitude_degrees fx) = true ->
  packs_f32 (longitude_degrees fx) = true ->
  packs_f32 (elevation_km fx) = true ->
  packs_f32 doppler = true ->
  let lat := latitude_degrees fx in
  let lon := longitude_degrees fx in
  let alt := elevation_km fx in
  Satlen.encode_binary_packet (satnum sat) lat lon alt doppler time_time
    = Ok (record_bytes (satnum sat) lat lon alt doppler time_time)
  /\ Satyo.binary_packet sat fx time_time
    = Ok (record_bytes (satnum sat) lat lon alt (S754_zero false) time_time)
  /\ calcsize "!Iffffd" = Some 28%nat
  /\ (forall d, length (record_bytes (satnum sat) lat lon alt d time_time) = 28%nat)
  /\ (forall d, be_decode (slice 0 4 (record_bytes (satnum sat) lat lon alt d time_time))
                = satnum sat).
Proof.
  intros Hid Hlat Hlon Halt Hdop lat lon alt.
  split; [|split; [|split; [|split]]].
  - unfold Satlen.encode_binary_packet. now apply pack_Iffffd.
  - unfold Satyo.binary_packet. apply pack_Iffffd; auto using packs_f32_zero.
  - reflexivity.
  - intros d. apply length_record_bytes.
  - intros d. unfold record_bytes.
    change 0%nat with (length (@nil byte)).
    rewrite <- (app_nil_l (be_bytes 4 (satnum sat) ++ _)).
    rewrite slice_app_at by apply length_be_bytes.
    apply be_decode_be_bytes_small. exact Hid.
Qed.

Lemma binary_packet_layout_witness :
  Satlen.encode_binary_packet 25544 (literal 1242 100) (literal 14412 100)
    (of_Z 410) (Satlen.doppler_shift (literal 45 10)) Scenario.clock0
  = Ok (record_bytes 25544 (literal 1242 100) (literal 14412 100)
    (of_Z 410) (Satlen.doppler_shift (literal 45 10)) Scenario.clock0).
Proof.
  apply (binary_packet_layout Scenario.iss Scenario.fix_iss
           (Satlen.doppler_shift (literal 45 10)) Scenario.clock0);
    vm_compute; try reflexivity; split; congruence.
Defined.

(** The record of the scenario, as [bytes.hex()] prints it, and the two
    ways [struct.pack] refuses a sample. *)
Example encode_scenario_hex :
  match Satlen.encode_binary_packet 25544 (literal 1242 100) (literal 14412 100)
          (of_Z 410) (S754_zero false) Scenario.clock0 with
  | Ok bs => Hex.hex bs
  | Raise _ => EmptyString
  end = "000063c84146b85243101eb843cd00000000000041d954fc40200000"%string.
Proof. vm_compute. reflexivity. Qed.

Example encode_refuses_large_identifier :
  Satlen.encode_binary_packet (2 ^ 32) (of_Z 0) (of_Z 0) (of_Z 0) (of_Z 0) (of_Z 0)
  = Raise (StructError "argument out of range").
Proof. reflexivity. Qed.

Example encode_refuses_large_float :
  Satlen.encode_binary_packet 1 (of_Z (10 ^ 39)) (of_Z 0) (of_Z 0) (of_Z 0) (of_Z 0)
  = Raise (OverflowError "float too large to pack with f format").
Proof. vm_compute. reflexivity. Qed.

(** ** The two threads *)

Module PipelineFacts.
Import Pipeline.

(** Case analysis on one step: the action, the two program points and
    every test the step makes. *)
Ltac case_inner :=
  match goal with
  | |- context [match ?x with _ => _ end] =>
      lazymatch x with
      | context [match _ with _ => _ end] => fail
      | _ =>
          first [ is_var x; destruct x
                | match type of x with
                  | result (_ * _)%type => destruct x as [[? ?]|?] eqn:?
                  | _ => destruct x eqn:?
                  end ]
      end
  end.

Ltac step_cases st a :=
  destruct st as [[ms its] ev k f h s]; destruct a; cbn;
  unfold harvest_step, store_step, timeout_step, interrupt_step, Queue.put,
    Queue.get, Queue.full, Queue.qsize; cbn;
  repeat (case_inner; cbn).

Section Facts.
Context {T K F : Type}.
Variable swarm_of : K -> list EarthSatellite.
Variable measure : K -> EarthSatellite -> Time -> pyfloat -> result (T * K).
Variable prologue : F -> F.
Variable persist : pyfloat -> T -> F -> result F.

Abbreviation step := (step swarm_of measure prologue persist).
Abbreviation run := (run swarm_of measure prologue persist).
Abbreviation persisted := (persisted swarm_of measure prologue persist).
Abbreviation accepted := (accepted swarm_of measure prologue persist).

Lemma run_nil st : run [] st = st.
Proof. reflexivity. Qed.

Lemma run_cons a sched st : run (a :: sched) st = run sched (step a st).
Proof. reflexivity. Qed.

Lemma run_app s1 s2 st : run (s1 ++ s2) st = run s2 (run s1 st).
Proof. unfold Pipeline.run. apply fold_left_app. Qed.

(** An invariant of every step is an invariant of every execution. *)
Lemma run_invariant (I : system T K F -> Prop) :
  (forall a st, I st -> I (step a st)) ->
  forall sched st, I st -> I (run sched st).
Proof.
  intros Hstep sched. induction sched as [|a sched IH]; intros st Hst.
  - exact Hst.
  - rewrite run_cons. apply IH, Hstep, Hst.
Qed.

(** *** The bound of the queue *)

Lemma step_maxsize a st :
  Queue.maxsize (bus (step a st)) = Queue.maxsize (bus st).
Proof. step_cases st a; reflexivity. Qed.

Lemma step_qsize_bounded a st :
  0 < Queue.maxsize (bus st) ->
  Z.of_nat (Queue.qsize (bus st)) <= Queue.maxsize (bus st) ->
  Z.of_nat (Queue.qsize (bus (step a st))) <= Queue.maxsize (bus st).
Proof.
  step_cases st a; intros H0 H1; cbn in *; try lia.
  rewrite length_app. cbn. lia.
Qed.

Lemma run_qsize_bounded sched st :
  0 < Queue.maxsize (bus st) ->
  Z.of_nat (Queue.qsize (bus st)) <= Queue.maxsize (bus st) ->
  Queue.maxsize (bus (run sched st)) = Queue.maxsize (bus st) /\
  Z.of_nat (Queue.qsize (bus (run sched st))) <= Queue.maxsize (bus st).
Proof.
  intros H0 H1.
  apply (run_invariant (fun s =>
    Queue.maxsize (bus s) = Queue.maxsize (bus st) /\
    Z.of_nat (Queue.qsize (bus s)) <= Queue.maxsize (bus st))); [|auto].
  intros a s [Hm Hq]. rewrite step_maxsize. split; [exact Hm|].
  rewrite <- Hm. apply step_qsize_bounded; rewrite Hm; assumption.
Qed.

(** A [put] on a full queue does not return: the harvester stays where
    it is and nothing changes. *)
Lemma put_blocks_when_full now clock st t item rest :
  harvester st = HPut t item rest ->
  Queue.full (bus st) = true ->
  step (Harvest now clock) st = st.
Proof.
  intros Hh Hfull. cbn. unfold harvest_step, Queue.put. now rewrite Hh, Hfull.
Qed.

(** On a queue that is not full it returns at once. *)
Lemma put_returns_when_not_full now clock st t item rest :
  harvester st = HPut t item rest ->
  Queue.full (bus st) = false ->
  step (Harvest now clock) st =
  mkSystem (Queue.mk (Queue.maxsize (bus st)) (Queue.items (bus st) ++ [item]))
    (event st) (kernel st) (files st) (HFor t rest) (storage st).
Proof.
  intros Hh Hfull. cbn. unfold harvest_step, Queue.put. now rewrite Hh, Hfull.
Qed.

(** A queue without bound is never full. *)
Lemma unbounded_never_full (q : Queue.t T) :
  Queue.maxsize q <= 0 -> Queue.full q = false.
Proof.
  intros H. unfold Queue.full. destruct (Z.ltb_spec 0 (Queue.maxsize q)); [lia|].
  reflexivity.
Qed.

(** *** Threads that have ended *)

Lemma step_harvester_ended a st :
  harvester_ended st ->
  harvester (step a st) = harvester st /\
  kernel (step a st) = kernel st /\
  exists n, Queue.items (bus (step a st)) = drop n (Queue.items (bus st)).
Proof.
  unfold harvester_ended.
  step_cases st a; intros H; try contradiction; cbn;
    repeat split; try reflexivity;
    first [ by exists 0%nat | by exists 1%nat; simplify_eq ].
Qed.

Lemma run_harvester_ended sched st :
  harvester_ended st ->
  harvester (run sched st) = harvester st /\
  kernel (run sched st) = kernel st /\
  exists n, Queue.items (bus (run sched st)) = drop n (Queue.items (bus st)).
Proof.
  revert st. induction sched as [|a sched IH]; intros st H.
  - repeat split; try reflexivity. by exists 0%nat.
  - rewrite run_cons.
    destruct (step_harvester_ended a st H) as (Hh & Hk & n & Hn).
    assert (H' : harvester_ended (step a st))
      by (unfold harvester_ended in *; now rewrite Hh).
    destruct (IH _ H') as (Hh' & Hk' & m & Hm).
    repeat split; [congruence | congruence |].
    exists (n + m)%nat. rewrite Hm, Hn, drop_drop. reflexivity.
Qed.

Lemma step_storage_ended a st :
  storage_ended st ->
  storage (step a st) = storage st /\ files (step a st) = files st /\
  exists l, Queue.items (bus (step a st)) = Queue.items (bus st) ++ l.
Proof.
  unfold storage_ended.
  step_cases st a; intros H; try contradiction; cbn;
    repeat split; try reflexivity;
    first [ by exists []; rewrite app_nil_r | by eexists ].
Qed.

(** Once the storage thread has ended nothing is written any more and
    nothing leaves the bus. *)
Lemma run_storage_ended sched st :
  storage_ended st ->
  storage (run sched st) = storage st /\ files (run sched st) = files st /\
  exists l, Queue.items (bus (run sched st)) = Queue.items (bus st) ++ l.
Proof.
  revert st. induction sched as [|a sched IH]; intros st H.
  - repeat split; try reflexivity. exists []. now rewrite app_nil_r.
  - rewrite run_cons.
    destruct (step_storage_ended a st H) as (Hs & Hf & l & Hl).
    assert (H' : storage_ended (step a st))
      by (unfold storage_ended in *; now rewrite Hs).
    destruct (IH _ H') as (Hs' & Hf' & l' & Hl').
    repeat split; [congruence | congruence |].
    exists (l ++ l'). rewrite Hl', Hl, app_assoc. reflexivity.
Qed.

(** *** Every item is handed to the storage code at most once, in order *)

(** What was on the bus and what was put on it since is what was handed
    to the storage code followed by what is still on the bus. *)
Lemma bus_conservation sched st :
  Queue.items (bus st) ++ map fst (accepted sched st)
  = persisted sched st ++ Queue.items (bus (run sched st)).
Proof.
  revert st. induction sched as [|a sched IH]; intros st.
  - cbn. now rewrite app_nil_r.
  - rewrite run_cons. cbn [Pipeline.accepted Pipeline.persisted].
    specialize (IH (step a st)).
    destruct st as [[ms its] ev k f h s]. destruct a as [now clock | clock | |].
    + cbn [harvester storage bus] in *.
      destruct h as [| t rest | t item rest | |];
        try (revert IH; cbn; unfold harvest_step; cbn;
             repeat (case_inner; cbn); intros IH; exact IH).
      revert IH. cbn. unfold harvest_step, Queue.put, Queue.full, Queue.qsize. cbn.
      destruct ((0 <? ms) && (ms <=? Z.of_nat (length its))); cbn; intros IH.
      * exact IH.
      * rewrite <- IH, <- app_assoc. reflexivity.
    + cbn [harvester storage bus] in *.
      destruct s;
        try (revert IH; cbn; unfold store_step; cbn;
             repeat (case_inner; cbn); intros IH; exact IH).
      revert IH. cbn. unfold store_step, Queue.get. cbn.
      destruct its as [|x its]; cbn; [intros IH; exact IH|].
      destruct (persist clock x f); cbn; intros IH; rewrite <- IH; reflexivity.
    + revert IH. cbn. unfold timeout_step, Queue.get. cbn.
      destruct s, its; cbn; intros IH; exact IH.
    + exact IH.
Qed.

(** *** What the files hold *)

(** A view [content] of the files that the prologue leaves empty and to
    which every item adds [record item] holds the records of the items
    handed to the storage code, once each and in order. *)
Lemma files_of_persisted {X : Type} (content : F -> list X) (record : T -> list X) :
  (forall f, content f = [] -> content (prologue f) = []) ->
  (forall c item f, exists f', persist c item f = Ok f' /\
                               content f' = content f ++ record item) ->
  forall sched st,
    (storage st = SStart -> content (files st) = []) ->
    content (files (run sched st))
    = content (files st) ++ flat_map record (persisted sched st).
Proof.
  intros Hpro Hper sched. induction sched as [|a sched IH]; intros st Hst.
  - cbn. now rewrite app_nil_r.
  - rewrite run_cons. cbn [Pipeline.persisted].
    destruct st as [[ms its] ev k f h s]. cbn [storage files bus] in *.
    destruct a as [now clock | clock | |].
    + rewrite IH.
      * f_equal. cbn. unfold harvest_step; cbn. repeat (case_inner; cbn); reflexivity.
      * cbn. unfold harvest_step; cbn. repeat (case_inner; cbn); exact Hst.
    + destruct s.
      * rewrite IH by (cbn; discriminate). cbn.
        rewrite Hst, Hpro by auto. reflexivity.
      * rewrite IH; cbn; unfold store_step; cbn; destruct ev; cbn;
          try reflexivity; discriminate.
      * unfold Queue.get. cbn [Queue.items].
        destruct its as [|x its].
        -- rewrite IH by (cbn; discriminate). reflexivity.
        -- destruct (Hper clock x f) as (f' & Hf' & Hc).
           rewrite IH; cbn; unfold store_step, Queue.get; cbn; rewrite Hf'; cbn;
             [|discriminate].
           rewrite Hc, <- app_assoc. reflexivity.
      * rewrite IH by (cbn; discriminate). reflexivity.
      * rewrite IH by (cbn; discriminate). reflexivity.
    + rewrite IH.
      * f_equal. cbn. unfold timeout_step, Queue.get; cbn.
        destruct s, its; reflexivity.
      * cbn. unfold timeout_step, Queue.get; cbn. destruct s, its; cbn; auto; discriminate.
    + rewrite IH by exact Hst. reflexivity.
Qed.

(** *** The harvester's private state *)

Lemma run_kernel_invariant (I : K -> Prop) :
  (forall k sat now clock item k',
      I k -> measure k sat now clock = Ok (item, k') -> I k') ->
  forall sched st, I (kernel st) -> I (kernel (run sched st)).
Proof.
  intros Hm. apply (run_invariant (fun st => I (kernel st))).
  intros a st. step_cases st a; intros Hk; eauto.
Qed.

(** *** Where the items come from *)

Section Provenance.
Variable swarm0 : list EarthSatellite.
Variable from_swarm : T -> Prop.
Variable files_ok : F -> Prop.
Hypothesis measure_ok : forall k sat now clock item k',
  sat ∈ swarm0 -> swarm_of k = swarm0 ->
  measure k sat now clock = Ok (item, k') ->
  from_swarm item /\ swarm_of k' = swarm0.
Hypothesis prologue_ok : forall f, files_ok f -> files_ok (prologue f).
Hypothesis persist_ok : forall c item f f',
  from_swarm item -> files_ok f -> persist c item f = Ok f' -> files_ok f'.

Abbreviation provenance := (provenance swarm_of swarm0 from_swarm files_ok).

Lemma step_provenance a st : provenance st -> provenance (step a st).
Proof using measure_ok prologue_ok persist_ok.
  unfold Pipeline.provenance.
  step_cases st a; cbn; intros (Hk & Hbus & Hf & Hh);
    repeat split; auto; simplify_eq; try tauto.
  all: try (apply Forall_app; split; [tauto | constructor; [tauto | constructor]]).
  all: try match goal with
    | H : measure _ _ _ _ = Ok _ |- _ =>
        eapply measure_ok in H; [ | apply Hh; left | reflexivity ]; tauto
    end.
  all: try (inversion Hbus; subst; eauto; fail).
  all: intros x Hx; apply Hh; now right.
Qed.

Lemma run_provenance sched st : provenance st -> provenance (run sched st).
Proof using measure_ok prologue_ok persist_ok.
  apply run_invariant. exact step_provenance.
Qed.

Lemma persisted_provenance sched st :
  provenance st -> Forall from_swarm (persisted sched st).
Proof using measure_ok prologue_ok persist_ok.
  revert st. induction sched as [|a sched IH]; intros st Hst; [constructor|].
  pose proof (IH _ (step_provenance a st Hst)) as IH'.
  cbn [Pipeline.persisted].
  destruct a; try exact IH'.
  destruct (storage st); try exact IH'.
  destruct (Queue.get (bus st)) as [[item q]|] eqn:Hget; [|exact IH'].
  constructor; [|exact IH'].
  destruct Hst as (_ & Hbus & _). unfold Queue.get in Hget.
  destruct (Queue.items (bus st)) as [|x l]; [discriminate|].
  injection Hget as <- _. now inversion Hbus.
Qed.
End Provenance.

End Facts.

End PipelineFacts.

(** ** The anomaly log of satlen.py *)

(** C5. In [storage_subsystem], whatever the step and the state, the
    audit log grows by exactly one warning when the step is the storage
    thread taking a sample whose SNR is strictly below 20 from the bus,
    and does not change otherwise; the warning carries the node
    identifier and the SNR of that sample. *)
Theorem audit_log_iff_weak_signal
    (log10 : pyfloat -> result pyfloat)
    (observe : EarthSatellite -> Time -> result Fix)
    (a : Pipeline.action) (st : Satlen.system) :
  Satlen.RECOVERY_LOG (Pipeline.files (Satlen.step log10 observe a st)) =
  Satlen.RECOVERY_LOG (Pipeline.files st) ++
  match a, Pipeline.storage st, Queue.get (Pipeline.bus st) with
  | Pipeline.Store datetime_now, Pipeline.SGet, Some (data, _) =>
      if flt (Satlen.snr data) (of_Z 20)
      then [Satlen.mkWarning datetime_now (Satlen.node_id data) (Satlen.snr data)]
      else []
  | _, _, _ => []
  end.
Proof.
  unfold Satlen.step.
  destruct st as [[ms its] ev k f h s]. destruct a; cbn.
  - unfold Pipeline.harvest_step; cbn.
    destruct h as [| ? [|? ?] | ? ? ? | |]; cbn; try now rewrite app_nil_r.
    + destruct ev; cbn; now rewrite app_nil_r.
    + destruct (Satlen.measure _ _ _ _ _ _) as [[? ?]|?]; cbn; now rewrite app_nil_r.
    + destruct (Queue.put _ _); cbn; now rewrite app_nil_r.
  - unfold Pipeline.store_step, Queue.get; cbn.
    destruct s; cbn; try now rewrite app_nil_r.
    + destruct ev; cbn; now rewrite app_nil_r.
    + destruct its as [|data its]; cbn; [now rewrite app_nil_r|].
      unfold Satlen.persist. cbn.
      destruct (flt (Satlen.snr data) _); cbn; [reflexivity | now rewrite app_nil_r].
  - unfold Pipeline.timeout_step, Queue.get; cbn.
    destruct s, its; cbn; now rewrite app_nil_r.
  - now rewrite app_nil_r.
Qed.

(** The threshold is strict: 18.5 is below it, 20.0 and 25.0 are not. *)
Example snr_threshold_examples :
  flt (literal 185 10) (of_Z 20) = true /\
  flt (of_Z 20) (of_Z 20) = false /\
  flt (of_Z 25) (of_Z 20) = false.
Proof. vm_compute. auto. Qed.

(** ** The ghost-trace vault of satyo.py *)

Lemma ghost_append_lookup vault key point k :
  Satyo.ghost_append vault key point !! k =
  if decide (k = key)
  then Some (let trace := default [] (vault !! key) ++ [point] in
             if (Satyo.GHOST_TRACE_BUFFER <? length trace)%nat
             then drop 1 trace else trace)
  else vault !! k.
Proof.
  unfold Satyo.ghost_append.
  assert (E : default [] ((match vault !! key with
                           | Some _ => vault
                           | None => <[key:=[]]> vault
                           end) !! key) = default [] (vault !! key)).
  { destruct (vault !! key) eqn:Hk; [now rewrite Hk | now rewrite lookup_insert_eq]. }
  rewrite E. clear E.
  set (trace := default [] (vault !! key) ++ [point]).
  destruct (decide (k = key)) as [->|Hne].
  - destruct (Satyo.GHOST_TRACE_BUFFER <? length trace)%nat;
      now rewrite lookup_insert_eq.
  - assert (forall v w : list (pyfloat * pyfloat),
             <[key:=v]> (match vault !! key with
                         | Some _ => vault
                         | None => <[key:=w]> vault
                         end) !! k = vault !! k) as E.
    { intros v w. rewrite lookup_insert_ne by congruence.
      destruct (vault !! key); [reflexivity|]. now rewrite lookup_insert_ne by congruence. }
    destruct (Satyo.GHOST_TRACE_BUFFER <? length trace)%nat.
    + rewrite lookup_insert_ne by congruence. apply E.
    + apply E.
Qed.

Lemma ghost_append_bounded vault key point :
  (forall k, length (default [] (vault !! k)) <= Satyo.GHOST_TRACE_BUFFER)%nat ->
  forall k,
    (length (default [] (Satyo.ghost_append vault key point !! k))
     <= Satyo.GHOST_TRACE_BUFFER)%nat.
Proof.
  intros Hb k. rewrite ghost_append_lookup.
  destruct (decide (k = key)) as [->|Hne]; [|apply Hb].
  specialize (Hb key). cbv zeta.
  set (l := default [] (vault !! key)) in *.
  destruct (Nat.ltb_spec Satyo.GHOST_TRACE_BUFFER (length (l ++ [point]))) as [Hlt|Hge];
    cbn [default]; unfold id.
  - rewrite length_drop, length_app. cbn [length]. lia.
  - exact Hge.
Qed.

Lemma calculate_quantum_metrics_bounded observe self sat now clock item self' :
  (forall k, length (default [] (Satyo.ghost_vault self !! k))
             <= Satyo.GHOST_TRACE_BUFFER)%nat ->
  Satyo.calculate_quantum_metrics observe self sat now clock = Ok (item, self') ->
  forall k, (length (default [] (Satyo.ghost_vault self' !! k))
             <= Satyo.GHOST_TRACE_BUFFER)%nat.
Proof.
  intros Hb. unfold Satyo.calculate_quantum_metrics.
  destruct (observe sat now) as [fx|e]; cbn [mbind result_bind Py.bind]; [|discriminate].
  destruct (Satyo.binary_packet sat fx clock) as [packet|e];
    cbn [mbind result_bind Py.bind]; [|discriminate].
  intros [= _ <-]. cbn [Satyo.ghost_vault].
  destruct (Satyo.ghost_enabled self); [|exact Hb].
  now apply ghost_append_bounded.
Qed.

(** C6. From the start of satyo.py on and after every step of every
    execution, the ghost trace of every object name holds at most
    [GHOST_TRACE_BUFFER] = 50 points.  An append puts the point at the
    tail of the object's trace and, when that makes more than 50 points,
    removes the head; the other traces are untouched. *)
Theorem ghost_trace_never_exceeds_buffer
    (observe : EarthSatellite -> Time -> result Fix)
    (debug ghost_trace : bool) (sats : list EarthSatellite)
    (sched : list Pipeline.action) (key : string) :
  Satyo.GHOST_TRACE_BUFFER = 50%nat /\
  (exists st0,
     Satyo.main debug ghost_trace (Ok sats) = Launched st0 /\
     (length (default [] (Satyo.ghost_vault
                (Pipeline.kernel (Satyo.run observe sched st0)) !! key))
      <= Satyo.GHOST_TRACE_BUFFER)%nat) /\
  (forall vault point k,
     Satyo.ghost_append vault key point !! k =
     if decide (k = key)
     then Some (let trace := default [] (vault !! key) ++ [point] in
                if (Satyo.GHOST_TRACE_BUFFER <? length trace)%nat
                then drop 1 trace else trace)
     else vault !! k).
Proof.
  split; [reflexivity|]. split.
  - eexists. split; [reflexivity|].
    revert key.
    apply (PipelineFacts.run_kernel_invariant Satyo.active_swarm
             (Satyo.calculate_quantum_metrics observe) Satyo.prologue Satyo.persist
             (fun k => forall key, (length (default [] (Satyo.ghost_vault k !! key))
                                    <= Satyo.GHOST_TRACE_BUFFER)%nat)).
    + intros k sat now clock item k' Hk Hm.
      eapply calculate_quantum_metrics_bounded; eauto.
    + intros key. cbn. rewrite lookup_empty. cbn. lia.
  - intros vault point k. apply ghost_append_lookup.
Qed.

(** Fifty-one appends leave the last fifty points, oldest first. *)
Example ghost_append_evicts_head :
  let point (n : Z) := (of_Z n, of_Z (- n)) in
  let vault :=
    fold_left (fun v n => Satyo.ghost_append v "ISS (ZARYA)" (point n))
              (map Z.of_nat (seq 0 51)) ∅ in
  vault !! "ISS (ZARYA)"%string = Some (map point (map Z.of_nat (seq 1 50))).
Proof. vm_compute. reflexivity. Qed.

(** ** The doppler shift *)

Lemma pack_one_f_inv o x bs :
  pack_one o "f" (PyFloat x) = Ok bs ->
  packs_f32 x = true /\ bs = emit o 4 (bits32 (to_f32 x)).
Proof.
  unfold packs_f32. cbn.
  destruct (is_finite x && is_infinite (to_f32 x)); [discriminate|].
  intros [= <-]. auto.
Qed.

Lemma pack_one_I_inv o z bs :
  pack_one o "I" (PyInt z) = Ok bs -> 0 <= z < 2 ^ 32 /\ bs = emit o 4 z.
Proof.
  cbn [pack_one].
  destruct (Z.leb_spec 0 z); destruct (Z.ltb_spec z (2 ^ 32)); cbn; try discriminate.
  intros [= <-]. auto.
Qed.

(** A packet that was built is the record of its arguments. *)
Lemma pack_Iffffd_inv ident lat lon alt doppler timestamp bs :
  pack "!Iffffd" [PyInt ident; PyFloat lat; PyFloat lon; PyFloat alt;
                  PyFloat doppler; PyFloat timestamp] = Ok bs ->
  (0 <= ident < 2 ^ 32) /\
  packs_f32 lat = true /\ packs_f32 lon = true /\
  packs_f32 alt = true /\ packs_f32 doppler = true /\
  bs = record_bytes ident lat lon alt doppler timestamp.
Proof.
  unfold pack. cbn [parse_order pack_codes].
  destruct (pack_one BigEndian "I" (PyInt ident)) as [b0|] eqn:E0;
    cbn [mbind result_bind Py.bind]; [|discriminate].
  destruct (pack_one BigEndian "f" (PyFloat lat)) as [b1|] eqn:E1;
    cbn [mbind result_bind Py.bind]; [|discriminate].
  destruct (pack_one BigEndian "f" (PyFloat lon)) as [b2|] eqn:E2;
    cbn [mbind result_bind Py.bind]; [|discriminate].
  destruct (pack_one BigEndian "f" (PyFloat alt)) as [b3|] eqn:E3;
    cbn [mbind result_bind Py.bind]; [|discriminate].
  destruct (pack_one BigEndian "f" (PyFloat doppler)) as [b4|] eqn:E4;
    cbn [mbind result_bind Py.bind]; [|discriminate].
  rewrite pack_one_d. cbn [mbind result_bind Py.bind].
  intros [= <-].
  apply pack_one_I_inv in E0 as [? ->].
  apply pack_one_f_inv in E1 as [? ->], E2 as [? ->], E3 as [? ->], E4 as [? ->].
  repeat split; try assumption; lia.
Qed.

Lemma slice_doppler ident lat lon alt doppler timestamp :
  slice 16 4 (record_bytes ident lat lon alt doppler timestamp)
  = be_bytes 4 (bits32 (to_f32 doppler)).
Proof.
  unfold record_bytes.
  rewrite !app_assoc, <- (app_assoc _ _ (be_bytes 8 _)).
  match goal with |- slice _ _ (?pre ++ _ ++ _) = _ =>
    replace 16%nat with (length pre)
      by (rewrite !length_app, !length_be_bytes; reflexivity)
  end.
  apply slice_app_at, length_be_bytes.
Qed.

(** In satlen.py the sample carries the computed shift and the packet
    carries it rounded to binary32. *)
Lemma perform_handshake_doppler log10 observe sat now clock data :
  Satlen.perform_handshake log10 observe sat now clock = Ok data ->
  exists fx, observe sat now = Ok fx /\
    Satlen.doppler data
      = fmul (fdiv (speed_km_per_s fx) Satlen.LIGHT_SPEED) Satlen.BASE_FREQ_GHZ /\
    slice 16 4 (Satlen.binary_blob data)
      = be_bytes 4 (bits32 (to_f32 (Satlen.doppler data))).
Proof.
  unfold Satlen.perform_handshake.
  destruct (observe sat now) as [fx|]; cbn [mbind result_bind Py.bind]; [|discriminate].
  destruct (Satlen.calculate_path_loss _ _ _) as [pl|];
    cbn [mbind result_bind Py.bind]; [|discriminate].
  destruct (Satlen.encode_binary_packet _ _ _ _ _ _) as [blob|] eqn:E;
    cbn [mbind result_bind Py.bind]; [|discriminate].
  apply pack_Iffffd_inv in E as (_ & _ & _ & _ & _ & ->).
  intros [= <-]. exists fx. cbn [Satlen.doppler Satlen.binary_blob].
  split; [reflexivity|]. split; [reflexivity|]. apply slice_doppler.
Qed.

(** The shift of the scenario, 4.5 km/s at 12.0 GHz, is the double
    nearest to 1.8012461140700213e-4. *)
Example doppler_4_5_at_12_GHz :
  fmul (fdiv (literal 45 10) Satlen.LIGHT_SPEED) (of_Z 12)
  = S754_finite false 6645425216002705 (-65)
  /\ flt (literal 1801 10000000) (fmul (fdiv (literal 45 10) Satlen.LIGHT_SPEED) (of_Z 12)) = true
  /\ flt (fmul (fdiv (literal 45 10) Satlen.LIGHT_SPEED) (of_Z 12)) (literal 1802 10000000) = true.
Proof. vm_compute. auto. Qed.

(** C7 (satyo.py). Whatever the object and its range rate, the doppler
    field of the packet built by [calculate_quantum_metrics] is the
    constant 0.0 of the source, and the sample has no doppler entry; in
    the scenario (range rate 4.5 km/s) satlen.py records the computed
    shift, which is not zero. *)
Theorem satyo_doppler_is_placeholder
    (sat : EarthSatellite) (fx : Fix) (time_time : pyfloat) :
  match Satyo.binary_packet sat fx time_time with
  | Ok bs => slice 16 4 bs = be_bytes 4 0
             /\ of_bits32 (be_decode (slice 16 4 bs)) = S754_zero false
  | Raise _ => True
  end
  /\ (exists item k',
        Satyo.calculate_quantum_metrics Scenario.observe
          (Satyo.mkKernel false false ∅ [Scenario.iss])
          Scenario.iss Scenario.t0 Scenario.clock0 = Ok (item, k')
        /\ (exists raw, Hex.fromhex (Satyo.binary_payload item) = Ok raw
                        /\ of_bits32 (be_decode (slice 16 4 raw)) = S754_zero false))
  /\ (exists data,
        Satlen.perform_handshake Scenario.log10 Scenario.observe
          Scenario.iss Scenario.t0 Scenario.clock0 = Ok data
        /\ Satlen.doppler data = S754_finite false 6894628661602806 (-65)
        /\ of_bits32 (be_decode (slice 16 4 (Satlen.binary_blob data)))
           = to_f32 (Satlen.doppler data)).
Proof.
  split; [|split].
  - destruct (Satyo.binary_packet sat fx time_time) as [bs|] eqn:E; [|exact I].
    apply pack_Iffffd_inv in E as (_ & _ & _ & _ & _ & ->).
    rewrite slice_doppler. split; reflexivity.
  - eexists _, _. split; [vm_compute; reflexivity|].
    eexists. split; [vm_compute; reflexivity|]. vm_compute. reflexivity.
  - eexists. split; [vm_compute; reflexivity|].
    split; [vm_compute; reflexivity|]. vm_compute. reflexivity.
Qed.

(** ** Startup *)

(** C9. When [load.tle_file] raises an [Exception], no thread is
    launched: satyo.py ends with status 1 ([sys.exit(1)]) and satlen.py
    ends with status 0 ([exit()] without an argument). *)
Theorem catalog_failure_exit_status (e : exn) (debug ghost_trace : bool) :
  Satyo.main debug ghost_trace (Raise e)
    = Terminated (if is_Exception e then 1 else uncaught_status e)
  /\ Satlen.main (Raise e)
    = Terminated (if is_Exception e then 0 else uncaught_status e).
Proof.
  unfold Satyo.main, Satlen.main. cbn.
  destruct (is_Exception e); auto.
Qed.

Example satlen_exits_zero_on_download_failure :
  Satlen.main (Raise (OSError "cannot download")) = Terminated 0.
Proof. reflexivity. Qed.

(** ** The swarm *)

Lemma elem_of_take_lt {A} (l : list A) (n : nat) (x : A) :
  x ∈ take n l -> exists i, (i < n)%nat /\ l !! i = Some x.
Proof.
  intros H. apply list_elem_of_lookup in H as [i Hi].
  apply lookup_take_Some in Hi as [Hi Hlt]. eauto.
Qed.

Lemma satlen_measure_tracked log10 observe sats k sat now clock item k' :
  sat ∈ take 100 sats -> Satlen.swarm k = take 100 sats ->
  Satlen.measure log10 observe k sat now clock = Ok (item, k') ->
  Satlen.tracked log10 observe sats item /\ Satlen.swarm k' = take 100 sats.
Proof.
  intros Hsat Hk Hm. unfold Satlen.measure in Hm.
  destruct (Satlen.perform_handshake log10 observe sat now clock) as [data|] eqn:E;
    cbn in Hm; [|discriminate].
  injection Hm as <- <-. split; [|exact Hk].
  apply elem_of_take_lt in Hsat as (i & Hi & Hl).
  exists i, sat, now, clock. auto.
Qed.

Lemma satlen_persist_tracked log10 observe sats c item f f' :
  Satlen.tracked log10 observe sats item ->
  Forall (Satlen.json_tracked log10 observe sats) (Satlen.JSON_STREAM f) ->
  Satlen.persist c item f = Ok f' ->
  Forall (Satlen.json_tracked log10 observe sats) (Satlen.JSON_STREAM f').
Proof.
  intros Hitem Hf. unfold Satlen.persist.
  destruct (flt _ _); intros [= <-]; cbn;
    (apply Forall_app; split; [exact Hf | repeat constructor; exact Hitem]).
Qed.

Lemma satlen_prologue_tracked log10 observe sats f :
  Forall (Satlen.json_tracked log10 observe sats) (Satlen.JSON_STREAM f) ->
  Forall (Satlen.json_tracked log10 observe sats) (Satlen.JSON_STREAM (Satlen.prologue f)).
Proof. intros _. cbn. repeat constructor. Qed.

Lemma satlen_start_provenance log10 observe sats :
  Pipeline.provenance Satlen.swarm (take 100 sats)
    (Satlen.tracked log10 observe sats)
    (fun d => Forall (Satlen.json_tracked log10 observe sats) (Satlen.JSON_STREAM d))
    (Satlen.start sats).
Proof. cbn. repeat split; constructor. Qed.

Lemma satyo_measure_tracked observe sats k sat now clock item k' :
  sat ∈ take 100 sats -> Satyo.active_swarm k = take 100 sats ->
  Satyo.calculate_quantum_metrics observe k sat now clock = Ok (item, k') ->
  Satyo.tracked observe sats item /\ Satyo.active_swarm k' = take 100 sats.
Proof.
  intros Hsat Hk Hm. split.
  - apply elem_of_take_lt in Hsat as (i & Hi & Hl).
    exists i, sat, now, clock, k, k'. auto.
  - unfold Satyo.calculate_quantum_metrics in Hm.
    destruct (observe sat now); cbn [mbind result_bind Py.bind] in Hm; [|discriminate].
    destruct (Satyo.binary_packet _ _ _); cbn [mbind result_bind Py.bind] in Hm;
      [|discriminate].
    injection Hm as _ <-. exact Hk.
Qed.

Lemma satyo_persist_tracked observe sats (c : pyfloat) item f f' :
  Satyo.tracked observe sats item ->
  Forall (Satyo.tracked observe sats) (Satyo.DATA_MATRIX_FILE f) ->
  Satyo.persist c item f = Ok f' ->
  Forall (Satyo.tracked observe sats) (Satyo.DATA_MATRIX_FILE f').
Proof.
  intros Hitem Hf. unfold Satyo.persist.
  destruct (Hex.fromhex _); cbn [mbind result_bind Py.bind]; [|discriminate].
  intros [= <-]. cbn. apply Forall_app. split; [exact Hf | repeat constructor; exact Hitem].
Qed.

Lemma satyo_prologue_tracked observe sats f :
  Forall (Satyo.tracked observe sats) (Satyo.DATA_MATRIX_FILE f) ->
  Forall (Satyo.tracked observe sats) (Satyo.DATA_MATRIX_FILE (Satyo.prologue f)).
Proof. intros H. exact H. Qed.

Lemma satyo_start_provenance observe debug ghost sats :
  Pipeline.provenance Satyo.active_swarm (take 100 sats)
    (Satyo.tracked observe sats)
    (fun d => Forall (Satyo.tracked observe sats) (Satyo.DATA_MATRIX_FILE d))
    (Satyo.start debug ghost sats).
Proof. cbn. repeat split; constructor. Qed.

(** C10. Whatever the catalog that was fetched, in both scripts and
    after every step of every execution: the swarm is the first hundred
    entries of the catalog (all of it when it is shorter); the objects
    the harvester still has to visit in the current cycle are among
    them; every sample on the bus, every sample handed to the storage
    code and every sample in the JSON file is a sample of a catalog
    entry at a position below 100. *)
Theorem only_first_hundred_tracked
    (log10 : pyfloat -> result pyfloat)
    (observe : EarthSatellite -> Time -> result Fix)
    (debug ghost_trace : bool)
    (sats : list EarthSatellite) (sched : list Pipeline.action) :
  let st := Satlen.run log10 observe sched (Satlen.start sats) in
  let st' := Satyo.run observe sched (Satyo.start debug ghost_trace sats) in
  Satlen.main (Ok sats) = Launched (Satlen.start sats)
  /\ Satyo.main debug ghost_trace (Ok sats) = Launched (Satyo.start debug ghost_trace sats)
  /\ Satlen.swarm (Pipeline.kernel st) = take 100 sats
  /\ Satyo.active_swarm (Pipeline.kernel st') = take 100 sats
  /\ (length (take 100 sats) <= 100)%nat
  /\ match Pipeline.harvester st with
     | Pipeline.HFor _ rest | Pipeline.HPut _ _ rest => rest ⊆ take 100 sats
     | _ => True
     end
  /\ match Pipeline.harvester st' with
     | Pipeline.HFor _ rest | Pipeline.HPut _ _ rest => rest ⊆ take 100 sats
     | _ => True
     end
  /\ Forall (Satlen.tracked log10 observe sats) (Queue.items (Pipeline.bus st))
  /\ Forall (Satlen.tracked log10 observe sats)
       (Pipeline.persisted Satlen.swarm (Satlen.measure log10 observe)
          Satlen.prologue Satlen.persist sched (Satlen.start sats))
  /\ Forall (Satlen.json_tracked log10 observe sats)
       (Satlen.JSON_STREAM (Pipeline.files st))
  /\ Forall (Satyo.tracked observe sats) (Queue.items (Pipeline.bus st'))
  /\ Forall (Satyo.tracked observe sats)
       (Pipeline.persisted Satyo.active_swarm (Satyo.calculate_quantum_metrics observe)
          Satyo.prologue Satyo.persist sched (Satyo.start debug ghost_trace sats))
  /\ Forall (Satyo.tracked observe sats) (Satyo.DATA_MATRIX_FILE (Pipeline.files st')).
Proof.
  intros st st'.
  pose proof (satlen_start_provenance log10 observe sats) as H0.
  pose proof (satyo_start_provenance observe debug ghost_trace sats) as H0'.
  pose proof (PipelineFacts.run_provenance _ _ _ _ _ _ _
    (satlen_measure_tracked log10 observe sats)
    (satlen_prologue_tracked log10 observe sats)
    (satlen_persist_tracked log10 observe sats) sched _ H0) as (Hk & Hbus & Hf & Hh).
  pose proof (PipelineFacts.persisted_provenance _ _ _ _ _ _ _
    (satlen_measure_tracked log10 observe sats)
    (satlen_prologue_tracked log10 observe sats)
    (satlen_persist_tracked log10 observe sats) sched _ H0) as Hp.
  pose proof (PipelineFacts.run_provenance _ _ _ _ _ _ _
    (satyo_measure_tracked observe sats) (satyo_prologue_tracked observe sats)
    (satyo_persist_tracked observe sats) sched _ H0') as (Hk' & Hbus' & Hf' & Hh').
  pose proof (PipelineFacts.persisted_provenance _ _ _ _ _ _ _
    (satyo_measure_tracked observe sats) (satyo_prologue_tracked observe sats)
    (satyo_persist_tracked observe sats) sched _ H0') as Hp'.
  split; [reflexivity|]. split; [reflexivity|].
  split; [exact Hk|]. split; [exact Hk'|].
  split; [rewrite length_take; lia|].
  split.
  { fold (Satlen.run log10 observe) in Hh. fold st in Hh.
    destruct (Pipeline.harvester st); tauto. }
  split.
  { fold (Satyo.run observe) in Hh'. fold st' in Hh'.
    destruct (Pipeline.harvester st'); tauto. }
  repeat split; assumption.
Qed.

(** ** A failing object *)

Lemma perform_handshake_raises log10 observe sat now clock e :
  observe sat now = Raise e ->
  Satlen.perform_handshake log10 observe sat now clock = Raise e.
Proof. intros H. unfold Satlen.perform_handshake. now rewrite H. Qed.

Lemma calculate_quantum_metrics_raises observe self sat now clock e :
  observe sat now = Raise e ->
  Satyo.calculate_quantum_metrics observe self sat now clock = Raise e.
Proof. intros H. unfold Satyo.calculate_quantum_metrics. now rewrite H. Qed.

(** In the scenario the second of three objects fails: the first sample
    is on the bus, the thread has ended with the exception, and the third
    object, whose computation would succeed, is never sampled. *)
Lemma failing_object_aborts_cycle :
  let st := Satlen.run Scenario.log10 Scenario.observe
              (Scenario.harvest_only 12) (Satlen.start Scenario.catalog3) in
  Scenario.observe Scenario.hubble Scenario.t0 = Ok Scenario.fix_iss /\
  Pipeline.harvester st = Pipeline.HRaised (ValueError "Satellite has decayed") /\
  map Satlen.node_id (Queue.items (Pipeline.bus st)) = [25544].
Proof. vm_compute. auto. Qed.

(** C8, as the code has it. In both scripts, when the ephemeris raises
    for the object the harvester is about to sample, the exception ends
    the harvester thread there: the bus is as it was, and in every
    continuation the thread stays ended and the bus only loses items, so
    neither the remaining objects of the cycle nor any later cycle is
    sampled. *)
Theorem failing_object_ends_harvester
    (log10 : pyfloat -> result pyfloat)
    (observe : EarthSatellite -> Time -> result Fix)
    (st : Satlen.system) (st' : Satyo.system)
    (t : Time) (sat : EarthSatellite) (rest rest' : list EarthSatellite)
    (e : exn) (now : Time) (clock : pyfloat) (sched : list Pipeline.action) :
  observe sat t = Raise e ->
  Pipeline.harvester st = Pipeline.HFor t (sat :: rest) ->
  Pipeline.harvester st' = Pipeline.HFor t (sat :: rest') ->
  let st1 := Satlen.step log10 observe (Pipeline.Harvest now clock) st in
  let st1' := Satyo.step observe (Pipeline.Harvest now clock) st' in
  (Pipeline.harvester st1 = Pipeline.HRaised e /\
   Pipeline.bus st1 = Pipeline.bus st /\
   Pipeline.harvester (Satlen.run log10 observe sched st1) = Pipeline.HRaised e /\
   exists n, Queue.items (Pipeline.bus (Satlen.run log10 observe sched st1))
             = drop n (Queue.items (Pipeline.bus st)))
  /\
  (Pipeline.harvester st1' = Pipeline.HRaised e /\
   Pipeline.bus st1' = Pipeline.bus st' /\
   Pipeline.harvester (Satyo.run observe sched st1') = Pipeline.HRaised e /\
   exists n, Queue.items (Pipeline.bus (Satyo.run observe sched st1'))
             = drop n (Queue.items (Pipeline.bus st'))).
Proof.
  intros Hobs Hh Hh' st1 st1'.
  assert (E1 : st1 = Pipeline.mkSystem (Pipeline.bus st) (Pipeline.event st)
                 (Pipeline.kernel st) (Pipeline.files st) (Pipeline.HRaised e)
                 (Pipeline.storage st)).
  { unfold st1, Satlen.step. cbn. unfold Pipeline.harvest_step. rewrite Hh.
    unfold Satlen.measure. now rewrite (perform_handshake_raises _ _ _ _ _ _ Hobs). }
  assert (E1' : st1' = Pipeline.mkSystem (Pipeline.bus st') (Pipeline.event st')
                 (Pipeline.kernel st') (Pipeline.files st') (Pipeline.HRaised e)
                 (Pipeline.storage st')).
  { unfold st1', Satyo.step. cbn. unfold Pipeline.harvest_step. rewrite Hh'.
    now rewrite (calculate_quantum_metrics_raises _ _ _ _ _ _ Hobs). }
  split.
  - destruct (PipelineFacts.run_harvester_ended Satlen.swarm
                (Satlen.measure log10 observe) Satlen.prologue Satlen.persist
                sched st1) as (H1 & _ & n & Hn).
    { rewrite E1. exact I. }
    rewrite E1 in *. cbn in *. repeat split; try assumption. now exists n.
  - destruct (PipelineFacts.run_harvester_ended Satyo.active_swarm
                (Satyo.calculate_quantum_metrics observe) Satyo.prologue Satyo.persist
                sched st1') as (H1 & _ & n & Hn).
    { rewrite E1'. exact I. }
    rewrite E1' in *. cbn in *. repeat split; try assumption. now exists n.
Qed.

Lemma failing_object_ends_harvester_witness :
  let st := Satlen.run Scenario.log10 Scenario.observe
              (Scenario.harvest_only 3) (Satlen.start Scenario.catalog3) in
  let st1 := Satlen.step Scenario.log10 Scenario.observe
               (Pipeline.Harvest Scenario.t0 Scenario.clock0) st in
  Pipeline.harvester st1 = Pipeline.HRaised (ValueError "Satellite has decayed") /\
  Pipeline.bus st1 = Pipeline.bus st.
Proof.
  intros st st1.
  pose proof (failing_object_ends_harvester Scenario.log10 Scenario.observe
    st (Satyo.run Scenario.observe (Scenario.harvest_only 3)
          (Satyo.start false true Scenario.catalog3))
    Scenario.t0 Scenario.debris [Scenario.hubble] [Scenario.hubble]
    (ValueError "Satellite has decayed") Scenario.t0 Scenario.clock0 []
    eq_refl) as H.
  destruct H as [(H1 & H2 & _) _].
  - vm_compute. reflexivity.
  - vm_compute. reflexivity.
  - split; [exact H1 | exact H2].
Defined.

(** ** Shutdown *)

(** In satlen.py the binary log is the concatenation of the packets of
    the samples the storage thread has taken from the bus, and the JSON
    file holds exactly their dumps: one record of each kind per sample
    taken, in the order of the bus.  The samples that were put on the
    bus and not taken are still on it. *)
Lemma satlen_one_record_per_sample_taken log10 observe sats sched :
  let st := Satlen.run log10 observe sched (Satlen.start sats) in
  let taken := Pipeline.persisted Satlen.swarm (Satlen.measure log10 observe)
                 Satlen.prologue Satlen.persist sched (Satlen.start sats) in
  let put := Pipeline.accepted Satlen.swarm (Satlen.measure log10 observe)
                 Satlen.prologue Satlen.persist sched (Satlen.start sats) in
  Satlen.BINARY_LOG (Pipeline.files st) = flat_map Satlen.binary_blob taken /\
  Satlen.dumps (Satlen.JSON_STREAM (Pipeline.files st)) = taken /\
  map fst put = taken ++ Queue.items (Pipeline.bus st).
Proof.
  intros st taken put. split; [|split].
  - apply (PipelineFacts.files_of_persisted Satlen.swarm (Satlen.measure log10 observe)
             Satlen.prologue Satlen.persist Satlen.BINARY_LOG Satlen.binary_blob).
    + intros f Hf. exact Hf.
    + intros c item f. unfold Satlen.persist.
      destruct (flt _ _); eexists; split; reflexivity.
    + reflexivity.
  - unfold st, taken, Satlen.run.
    rewrite (PipelineFacts.files_of_persisted Satlen.swarm (Satlen.measure log10 observe)
               Satlen.prologue Satlen.persist
               (fun d => Satlen.dumps (Satlen.JSON_STREAM d)) (fun data => [data])).
    + cbn. induction (Pipeline.persisted _ _ _ _ _ _) as [|x l IH]; cbn; congruence.
    + reflexivity.
    + intros c item f. unfold Satlen.persist, Satlen.dumps.
      destruct (flt _ _); eexists; (split; [reflexivity|]); cbn;
        rewrite flat_map_app; reflexivity.
    + reflexivity.
  - exact (PipelineFacts.bus_conservation Satlen.swarm (Satlen.measure log10 observe)
             Satlen.prologue Satlen.persist sched (Satlen.start sats)).
Qed.

(** C1 (both scripts). When the storage thread reaches its loop test
    with the event set, it returns: whatever is on the bus stays there,
    nothing is written then or later.  In the scenario a sample is put on
    the bus while the event is clear, Ctrl+C arrives, and the storage
    thread returns with the sample still on the bus, no binary record
    and no JSON record written. *)
Theorem storage_returns_without_draining
    (log10 : pyfloat -> result pyfloat)
    (observe : EarthSatellite -> Time -> result Fix)
    (q : Queue.t Satlen.telemetry) (k : Satlen.SatelliteKernel) (f : Satlen.disk)
    (h : Pipeline.hpc Satlen.telemetry)
    (q' : Queue.t Satyo.telemetry) (k' : Satyo.IntelligenceKernel) (f' : Satyo.disk)
    (h' : Pipeline.hpc Satyo.telemetry)
    (clock : pyfloat) (sched : list Pipeline.action) :
  let st1 := Satlen.step log10 observe (Pipeline.Store clock)
               (Pipeline.mkSystem q true k f h Pipeline.STest) in
  let st1' := Satyo.step observe (Pipeline.Store clock)
               (Pipeline.mkSystem q' true k' f' h' Pipeline.STest) in
  let final := Satlen.run Scenario.log10 Scenario.observe Scenario.interrupted
                 (Satlen.start [Scenario.iss]) in
  let final' := Satyo.run Scenario.observe Scenario.interrupted
                 (Satyo.start false false [Scenario.iss]) in
  (Pipeline.storage st1 = Pipeline.SReturned /\ Pipeline.bus st1 = q /\
   Pipeline.files (Satlen.run log10 observe sched st1) = f /\
   exists l, Queue.items (Pipeline.bus (Satlen.run log10 observe sched st1))
             = Queue.items q ++ l)
  /\
  (Pipeline.storage st1' = Pipeline.SReturned /\ Pipeline.bus st1' = q' /\
   Pipeline.files (Satyo.run observe sched st1') = f' /\
   exists l, Queue.items (Pipeline.bus (Satyo.run observe sched st1'))
             = Queue.items q' ++ l)
  /\
  (map (fun p => (Satlen.node_id (fst p), snd p))
     (Pipeline.accepted Satlen.swarm (Satlen.measure Scenario.log10 Scenario.observe)
        Satlen.prologue Satlen.persist Scenario.interrupted
        (Satlen.start [Scenario.iss])) = [(25544, false)] /\
   Pipeline.storage final = Pipeline.SReturned /\
   map Satlen.node_id (Queue.items (Pipeline.bus final)) = [25544] /\
   Satlen.BINARY_LOG (Pipeline.files final) = [] /\
   Satlen.JSON_STREAM (Pipeline.files final) = [Satlen.Text ("[" +:+ newline)])
  /\
  (Pipeline.storage final' = Pipeline.SReturned /\
   map Satyo.id (Queue.items (Pipeline.bus final')) = [25544] /\
   Satyo.BINARY_CORE_FILE (Pipeline.files final')
     = list_byte_of_string "NEXUS-INTEL-V2-START" /\
   Satyo.DATA_MATRIX_FILE (Pipeline.files final') = []).
Proof.
  intros st1 st1' final final'.
  split; [|split; [|split]].
  - destruct (PipelineFacts.run_storage_ended Satlen.swarm
                (Satlen.measure log10 observe) Satlen.prologue Satlen.persist
                sched st1 I) as (_ & Hf & l & Hl).
    repeat split; try assumption. now exists l.
  - destruct (PipelineFacts.run_storage_ended Satyo.active_swarm
                (Satyo.calculate_quantum_metrics observe) Satyo.prologue Satyo.persist
                sched st1' I) as (_ & Hf & l & Hl).
    repeat split; try assumption. now exists l.
  - vm_compute. auto.
  - vm_compute. auto.
Qed.

(** ** The bound of the bus *)

(** In satyo.py, 1001 samples of one object are on the bus after 1001
    cycles that no storage step interleaves, and the bus is still not
    full. *)
Lemma satyo_bus_exceeds_capacity :
  let st := Satyo.run Scenario.observe (Scenario.harvest_only 4004)
              (Satyo.start false false [Scenario.iss]) in
  Queue.qsize (Pipeline.bus st) = 1001%nat /\ Queue.full (Pipeline.bus st) = false.
Proof. vm_compute. auto. Qed.

Lemma satlen_persist_Ok clock data d : exists d', Satlen.persist clock data d = Ok d'.
Proof. unfold Satlen.persist. destruct (flt _ _); eauto. Qed.

(** C2, as the code has it. In satlen.py the bus is [Queue(maxsize=1000)]:
    in every execution it holds at most 1000 items; a [put] on the full
    bus leaves the harvester where it is, and the next sample taken by
    the storage thread makes room.  In satyo.py the bus is [Queue()]: it
    has no bound, is never full, and a [put] always returns with the
    item appended. *)
Theorem bus_bound_by_variant
    (log10 : pyfloat -> result pyfloat)
    (observe : EarthSatellite -> Time -> result Fix)
    (debug ghost_trace : bool) (sats : list EarthSatellite)
    (sched : list Pipeline.action)
    (t : Time) (item : Satlen.telemetry) (item' : Satyo.telemetry)
    (rest : list EarthSatellite) (now : Time) (clock : pyfloat) :
  let st := Satlen.run log10 observe sched (Satlen.start sats) in
  let st' := Satyo.run observe sched (Satyo.start debug ghost_trace sats) in
  (Queue.maxsize (Pipeline.bus st) = 1000 /\
   (Queue.qsize (Pipeline.bus st) <= 1000)%nat /\
   (Pipeline.harvester st = Pipeline.HPut t item rest ->
    Queue.full (Pipeline.bus st) = true ->
    Satlen.step log10 observe (Pipeline.Harvest now clock) st = st /\
    (Pipeline.storage st = Pipeline.SGet ->
     Queue.full (Pipeline.bus (Satlen.step log10 observe (Pipeline.Store clock) st))
     = false)) /\
   (Pipeline.harvester st = Pipeline.HPut t item rest ->
    Queue.full (Pipeline.bus st) = false ->
    Pipeline.bus (Satlen.step log10 observe (Pipeline.Harvest now clock) st)
    = Queue.mk 1000 (Queue.items (Pipeline.bus st) ++ [item])))
  /\
  (Queue.maxsize (Pipeline.bus st') = 0 /\
   Queue.full (Pipeline.bus st') = false /\
   (Pipeline.harvester st' = Pipeline.HPut t item' rest ->
    Pipeline.bus (Satyo.step observe (Pipeline.Harvest now clock) st')
    = Queue.mk 0 (Queue.items (Pipeline.bus st') ++ [item']))).
Proof.
  intros st st'.
  assert (Hb : Queue.maxsize (Pipeline.bus st) = 1000 /\
               Z.of_nat (Queue.qsize (Pipeline.bus st)) <= 1000).
  { apply (PipelineFacts.run_qsize_bounded Satlen.swarm
             (Satlen.measure log10 observe) Satlen.prologue Satlen.persist
             sched (Satlen.start sats)); cbn; unfold Satlen.telemetry_bus_maxsize; lia. }
  destruct Hb as [Hm Hq].
  assert (Hm' : Queue.maxsize (Pipeline.bus st') = 0).
  { unfold st'. apply (PipelineFacts.run_invariant Satyo.active_swarm
      (Satyo.calculate_quantum_metrics observe) Satyo.prologue Satyo.persist
      (fun s => Queue.maxsize (Pipeline.bus s) = 0)); [|reflexivity].
    intros a s Hs. unfold Satyo.step. now rewrite PipelineFacts.step_maxsize. }
  assert (Hfull' : Queue.full (Pipeline.bus st') = false)
    by (apply PipelineFacts.unbounded_never_full; lia).
  split; [|split; [exact Hm' | split; [exact Hfull'|]]].
  - split; [exact Hm|]. split; [unfold Queue.qsize in *; lia|].
    split.
    2:{ intros Hh Hfull. unfold Satlen.step.
        erewrite PipelineFacts.put_returns_when_not_full by eauto.
        cbn. now rewrite Hm. }
    intros Hh Hfull. split.
    + eapply PipelineFacts.put_blocks_when_full; eauto.
    + intros Hs. unfold Satlen.step. cbn. unfold Pipeline.store_step. rewrite Hs.
      unfold Queue.full, Queue.qsize in Hfull.
      unfold Queue.get.
      destruct (Queue.items (Pipeline.bus st)) as [|x l] eqn:Hits.
      * rewrite Hm in Hfull. cbn in Hfull. discriminate.
      * destruct (satlen_persist_Ok clock x (Pipeline.files st)) as [d' ->].
        cbn. unfold Queue.full, Queue.qsize. cbn. rewrite Hm.
        unfold Queue.qsize in Hq. rewrite Hits in Hq. cbn [length] in Hq.
        destruct (Z.leb_spec 1000 (Z.of_nat (length l))); [lia|]. reflexivity.
  - intros Hh.
    unfold Satyo.step.
    erewrite PipelineFacts.put_returns_when_not_full by eauto.
    cbn. now rewrite Hm'.
Qed.

Lemma bus_bound_by_variant_witness :
  let st := Satlen.run Scenario.log10 Scenario.observe
              (Pipeline.Store Scenario.clock0 :: Pipeline.Store Scenario.clock0
               :: Scenario.harvest_only 4003)
              (Satlen.start [Scenario.iss]) in
  Queue.qsize (Pipeline.bus st) = 1000%nat /\
  Satlen.step Scenario.log10 Scenario.observe
    (Pipeline.Harvest Scenario.t0 Scenario.clock0) st = st /\
  Queue.full (Pipeline.bus (Satlen.step Scenario.log10 Scenario.observe
    (Pipeline.Store Scenario.clock0) st)) = false.
Proof.
  intros st.
  assert (Hput : exists item, Pipeline.harvester st
                   = Pipeline.HPut Scenario.t0 item []).
  { eexists. vm_compute. reflexivity. }
  destruct Hput as [item Hput].
  destruct (bus_bound_by_variant Scenario.log10 Scenario.observe false false
              [Scenario.iss]
              (Pipeline.Store Scenario.clock0 :: Pipeline.Store Scenario.clock0
               :: Scenario.harvest_only 4003)
              Scenario.t0 item
              (Satyo.mkTelemetry "" 0 (S754_zero false) (S754_zero false)
                 (S754_zero false) "" 0)
              [] Scenario.t0 Scenario.clock0) as [(_ & _ & H & _) _].
  split; [vm_compute; reflexivity|].
  destruct H as [H1 H2].
  - exact Hput.
  - vm_compute. reflexivity.
  - split; [exact H1|]. apply H2. vm_compute. reflexivity.
Defined.

(** ** IEEE-754 rounding and bit patterns *)

Lemma digits2_pos_bounds (m : positive) :
  2 ^ (Z.pos (digits2_pos m) - 1) <= Z.pos m < 2 ^ Z.pos (digits2_pos m).
Proof.
  induction m as [m IH | m IH |]; cbn [digits2_pos].
  - rewrite Pos2Z.inj_succ.
    replace (Z.succ (Z.pos (digits2_pos m)) - 1) with (Z.succ (Z.pos (digits2_pos m) - 1)) by lia.
    rewrite !Z.pow_succ_r by lia. lia.
  - rewrite Pos2Z.inj_succ.
    replace (Z.succ (Z.pos (digits2_pos m)) - 1) with (Z.succ (Z.pos (digits2_pos m) - 1)) by lia.
    rewrite !Z.pow_succ_r by lia. lia.
  - cbn. lia.
Qed.

Lemma digits2_pos_unique (m : positive) (d : Z) :
  2 ^ (d - 1) <= Z.pos m < 2 ^ d -> Z.pos (digits2_pos m) = d.
Proof.
  intros [Hlo Hhi]. pose proof (digits2_pos_bounds m) as [Dlo Dhi].
  set (D := Z.pos (digits2_pos m)) in *.
  assert (0 < d).
  { destruct (Z.lt_trichotomy d 0) as [Hn | [-> | Hp]]; [| cbn in Hhi; lia | assumption].
    rewrite Z.pow_neg_r in Hhi by assumption. lia. }
  destruct (Z.lt_trichotomy D d) as [Hlt | [Heq | Hgt]]; [|assumption|].
  - assert (2 ^ D <= 2 ^ (d - 1)) by (apply Z.pow_le_mono_r; lia). lia.
  - assert (2 ^ d <= 2 ^ (D - 1)) by (apply Z.pow_le_mono_r; lia). lia.
Qed.

Lemma Pos_iter_xO (m d : positive) :
  Z.pos (Pos.iter xO m d) = Z.pos m * 2 ^ Z.pos d.
Proof.
  induction d as [|d IH] using Pos.peano_ind.
  - cbn. lia.
  - rewrite Pos.iter_succ, Pos2Z.inj_succ, Z.pow_succ_r by lia.
    rewrite Pos2Z.inj_xO, IH. ring.
Qed.

Lemma iter_pos_nat {A} (f : A -> A) (p : positive) (x : A) :
  SpecFloat.iter_pos f p x = Nat.iter (Pos.to_nat p) f x.
Proof.
  revert x. induction p as [p IH | p IH |]; intros x; cbn [SpecFloat.iter_pos].
  - rewrite !IH, Pos2Nat.inj_xI. set (n := Pos.to_nat p).
    replace (S (2 * n)) with (n + (n + 1))%nat by lia.
    rewrite !Nat.iter_add. reflexivity.
  - rewrite !IH, Pos2Nat.inj_xO. set (n := Pos.to_nat p).
    replace (2 * n)%nat with (n + n)%nat by lia.
    rewrite Nat.iter_add. reflexivity.
  - reflexivity.
Qed.

Lemma shr_1_spec m r s :
  0 <= m -> shr_1 (Build_shr_record m r s) = Build_shr_record (m / 2) (Z.odd m) (r || s).
Proof.
  intros Hm. destruct m as [|p|p]; [reflexivity | | lia].
  destruct p as [p|p|]; cbn [shr_1 Z.odd].
  - f_equal. rewrite Pos2Z.inj_xI. apply Z.div_unique with 1; lia.
  - f_equal. rewrite Pos2Z.inj_xO. apply Z.div_unique with 0; lia.
  - reflexivity.
Qed.
Section BitsFacts.
Variables prec emax : Z.
Hypothesis prec_gt_1 : 1 < prec.
Hypothesis emax_gt_0 : 0 < emax.

Lemma valid_finite_cases s m e :
  valid_binary prec emax (S754_finite s m e) = true ->
  e <= emax - prec /\ Z.pos m < 2 ^ prec /\
  ((Z.pos m < 2 ^ (prec - 1) /\ e = emin prec emax) \/
   (2 ^ (prec - 1) <= Z.pos m /\ emin prec emax <= e)).
Proof using prec_gt_1.
  cbn [valid_binary]. unfold bounded, canonical_mantissa, fexp.
  intros H. apply andb_true_iff in H as [Hc He].
  apply Z.eqb_eq in Hc. apply Z.leb_le in He.
  pose proof (digits2_pos_bounds m) as [Dlo Dhi].
  set (d := Z.pos (digits2_pos m)) in *.
  assert (Hd : d <= prec) by lia.
  assert (Hm : Z.pos m < 2 ^ prec).
  { assert (2 ^ d <= 2 ^ prec) by (apply Z.pow_le_mono_r; lia). lia. }
  split; [exact He|]. split; [exact Hm|].
  destruct (Z.ltb_spec (Z.pos m) (2 ^ (prec - 1))) as [Hsub | Hnorm].
  - left. split; [exact Hsub|].
    assert (d < prec).
    { destruct (Z.eq_dec d prec) as [->|]; lia. }
    lia.
  - right. split; [exact Hnorm | lia].
Qed.

Lemma bits_of_SF_range x :
  valid_binary prec emax x = true ->
  0 <= bits_of_SF prec emax x < 2 * sign_weight prec emax.
Proof using prec_gt_1 emax_gt_0.
  set (p := 2 ^ (prec - 1)).
  unfold sign_weight, mant_width. fold p.
  assert (Hp : 0 < p) by (apply Z.pow_pos_nonneg; lia).
  assert (Hp2 : 2 ^ (prec - 1 - 1) < p).
  { unfold p. apply Z.pow_lt_mono_r; lia. }
  assert (0 <= 2 ^ (prec - 1 - 1)) by (apply Z.pow_nonneg; lia).
  destruct x as [s | s | | s m e]; intros Hv; unfold bits_of_SF, sign_bits, sign_weight,
    mant_width; fold p.
  - destruct s; nia.
  - destruct s; nia.
  - nia.
  - apply valid_finite_cases in Hv as (He & Hm & Hc).
    replace (2 ^ prec) with (2 * p) in Hm
      by (unfold p; rewrite <- Z.pow_succ_r by lia; f_equal; lia).
    unfold emin in *.
    destruct (Z.ltb_spec (Z.pos m) p); destruct s; destruct Hc as [[? ?]|[? ?]]; nia.
Qed.

Lemma SF_of_bits_of_SF x :
  valid_binary prec emax x = true ->
  SF_of_bits prec emax (bits_of_SF prec emax x) = x.
Proof using prec_gt_1 emax_gt_0.
  set (p := 2 ^ (prec - 1)).
  assert (Hp : 0 < p) by (apply Z.pow_pos_nonneg; lia).
  assert (Hq : 0 < 2 ^ (prec - 1 - 1) < p).
  { split; [apply Z.pow_pos_nonneg; lia | unfold p; apply Z.pow_lt_mono_r; lia]. }
  assert (Hdec : forall (s : bool) (E M : Z),
    0 <= E < 2 * emax -> 0 <= M < p ->
    let b := sign_bits prec emax s + E * p + M in
    Z.odd (b / sign_weight prec emax) = s /\
    (b / p) mod (2 * emax) = E /\ b mod p = M).
  { intros s E M HE HM b. unfold b, sign_bits, sign_weight, mant_width. fold p.
    assert (Hb : (if s then 2 * emax * p else 0) + E * p + M
                 = ((if s then 1 else 0) * (2 * emax) + E) * p + M) by (destruct s; ring).
    rewrite Hb. split; [|split].
    - replace (((if s then 1 else 0) * (2 * emax) + E) * p + M)
        with ((if s then 1 else 0) * (2 * emax * p) + (E * p + M)) by ring.
      rewrite Z.div_add_l by nia. rewrite Z.div_small by nia. destruct s; reflexivity.
    - rewrite Z.div_add_l by lia. rewrite (Z.div_small M p) by lia.
      rewrite Z.add_0_r, Z.add_comm, Z.mod_add by lia. apply Z.mod_small; lia.
    - rewrite Z.add_comm, Z.mod_add by lia. apply Z.mod_small; lia. }
  destruct x as [s | s | | s m e]; intros Hv; unfold SF_of_bits, bits_of_SF; fold p.
  - destruct (Hdec s 0 0) as (H1 & H2 & H3); [lia | lia |].
    replace (sign_bits prec emax s) with (sign_bits prec emax s + 0 * p + 0) by ring.
    unfold mant_width. fold p. rewrite H1, H2, H3. reflexivity.
  - destruct (Hdec s (2 * emax - 1) 0) as (H1 & H2 & H3); [lia | lia |].
    replace (sign_bits prec emax s + (2 * emax - 1) * 2 ^ mant_width prec)
      with (sign_bits prec emax s + (2 * emax - 1) * p + 0) by (unfold mant_width, p; ring).
    unfold mant_width. fold p. rewrite H1, H2, H3.
    destruct (Z.eqb_spec (2 * emax - 1) 0); [lia|].
    now rewrite Z.eqb_refl.
  - destruct (Hdec false (2 * emax - 1) (2 ^ (prec - 1 - 1))) as (H1 & H2 & H3); [lia | lia |].
    replace ((2 * emax - 1) * 2 ^ mant_width prec + 2 ^ (mant_width prec - 1))
      with (sign_bits prec emax false + (2 * emax - 1) * p + 2 ^ (prec - 1 - 1))
      by (unfold mant_width, p, sign_bits; ring).
    unfold mant_width. fold p. rewrite H2, H3.
    destruct (Z.eqb_spec (2 * emax - 1) 0); [lia|].
    rewrite Z.eqb_refl.
    destruct (Z.eqb_spec (2 ^ (prec - 1 - 1)) 0); [lia | reflexivity].
  - apply valid_finite_cases in Hv as (He & Hm & Hc).
    replace (2 ^ prec) with (2 * p) in Hm
      by (unfold p; rewrite <- Z.pow_succ_r by lia; f_equal; lia).
    unfold mant_width. fold p.
    destruct (Z.ltb_spec (Z.pos m) p) as [Hsub | Hnorm].
    + destruct Hc as [[_ ->] | [? _]]; [|lia].
      destruct (Hdec s 0 (Z.pos m)) as (H1 & H2 & H3); [lia | lia |].
      replace (sign_bits prec emax s + Z.pos m)
        with (sign_bits prec emax s + 0 * p + Z.pos m) by ring.
      rewrite H1, H2, H3. reflexivity.
    + destruct Hc as [[? _] | [_ Hemin]]; [lia|].
      unfold emin in *.
      destruct (Hdec s (e - (3 - emax - prec) + 1) (Z.pos m - p)) as (H1 & H2 & H3);
        [lia | lia |].
      rewrite H1, H2, H3.
      destruct (Z.eqb_spec (e - (3 - emax - prec) + 1) 0); [lia|].
      destruct (Z.eqb_spec (e - (3 - emax - prec) + 1) (2 * emax - 1)); [lia|].
      replace (Z.pos m - p + p) with (Z.pos m) by ring.
      f_equal. lia.
Qed.

End BitsFacts.
Lemma pow2_split (k : Z) : 0 < k -> 2 ^ k = 2 ^ (k - 1) * 2.
Proof.
  intros Hk. replace k with (k - 1 + 1) at 1 by lia.
  rewrite Z.pow_add_r by lia. reflexivity.
Qed.

Lemma shr_iter (m0 : Z) (n : nat) :
  0 <= m0 -> (0 < n)%nat ->
  Nat.iter n shr_1 (Build_shr_record m0 false false) =
  Build_shr_record (m0 / 2 ^ Z.of_nat n)
    (Z.odd (m0 / 2 ^ (Z.of_nat n - 1)))
    (negb (m0 mod 2 ^ (Z.of_nat n - 1) =? 0)).
Proof.
  intros Hm Hn. induction n as [|n IH]; [lia|].
  destruct n as [|n].
  - cbn [Nat.iter]. rewrite shr_1_spec by assumption.
    change (Z.of_nat 1 - 1) with 0. change (Z.of_nat 1) with 1.
    rewrite Z.pow_0_r, Z.pow_1_r, Z.div_1_r, Z.mod_1_r. reflexivity.
  - change (Nat.iter (S (S n)) shr_1 ?x) with (shr_1 (Nat.iter (S n) shr_1 x)).
    rewrite IH by lia. clear IH.
    set (k := Z.of_nat (S n)).
    replace (Z.of_nat (S (S n))) with (k + 1) by lia.
    replace (k + 1 - 1) with k by lia.
    assert (Hk : 1 <= k) by lia.
    assert (Hpk : 0 < 2 ^ (k - 1)) by (apply Z.pow_pos_nonneg; lia).
    assert (Hp : 2 ^ k = 2 ^ (k - 1) * 2).
    { apply pow2_split. lia. }
    rewrite shr_1_spec by (apply Z.div_pos; [lia | apply Z.pow_pos_nonneg; lia]).
    f_equal.
    + rewrite Z.pow_add_r, Z.pow_1_r by lia.
      rewrite Z.div_div by (try apply Z.pow_pos_nonneg; lia). reflexivity.
    + rewrite Hp, Z.rem_mul_r by lia.
      rewrite Zmod_odd.
      pose proof (Z.mod_pos_bound m0 (2 ^ (k - 1)) Hpk) as Hb.
      destruct (Z.odd (m0 / 2 ^ (k - 1))); cbn [orb].
      * destruct (Z.eqb_spec (m0 mod 2 ^ (k - 1) + 2 ^ (k - 1) * 1) 0); [lia | reflexivity].
      * rewrite Z.mul_0_r, Z.add_0_r. reflexivity.
Qed.

Lemma round_shr (m0 : Z) (n : positive) :
  0 <= m0 ->
  let mrs := SpecFloat.iter_pos shr_1 n (Build_shr_record m0 false false) in
  round_nearest_even (shr_m mrs) (loc_of_shr_record mrs) = round_mantissa m0 (Z.pos n).
Proof.
  intros Hm mrs. unfold mrs. rewrite iter_pos_nat, shr_iter by lia.
  rewrite positive_nat_Z. unfold round_mantissa.
  set (k := Z.pos n).
  assert (Hpk : 0 < 2 ^ (k - 1)) by (apply Z.pow_pos_nonneg; lia).
  assert (Hp : 2 ^ k = 2 ^ (k - 1) * 2).
  { apply pow2_split. lia. }
  assert (Hmod : m0 mod 2 ^ k = m0 mod 2 ^ (k - 1)
            + 2 ^ (k - 1) * (if Z.odd (m0 / 2 ^ (k - 1)) then 1 else 0)).
  { rewrite Hp, Z.rem_mul_r by lia. now rewrite Zmod_odd. }
  rewrite Hmod.
  pose proof (Z.mod_pos_bound m0 (2 ^ (k - 1)) Hpk) as Hb.
  cbn [shr_m loc_of_shr_record].
  destruct (Z.odd (m0 / 2 ^ (k - 1))).
  - destruct (Z.eqb_spec (m0 mod 2 ^ (k - 1)) 0) as [E|E]; cbn [negb].
    + rewrite E, Z.add_0_l, Z.mul_1_r, Z.compare_refl. reflexivity.
    + destruct (Z.compare_spec (m0 mod 2 ^ (k - 1) + 2 ^ (k - 1) * 1) (2 ^ (k - 1)));
        [lia | lia | reflexivity].
  - rewrite Z.mul_0_r, Z.add_0_r.
    destruct (Z.compare_spec (m0 mod 2 ^ (k - 1)) (2 ^ (k - 1))); [lia | | lia].
    destruct (Z.eqb_spec (m0 mod 2 ^ (k - 1)) 0); reflexivity.
Qed.

(** The rounded significand is within half a unit of the exact one. *)
Lemma round_mantissa_error (m n : Z) :
  0 <= m -> 0 < n ->
  m / 2 ^ n <= round_mantissa m n <= m / 2 ^ n + 1 /\
  2 * Z.abs (round_mantissa m n * 2 ^ n - m) <= 2 ^ n.
Proof.
  intros Hm Hn. unfold round_mantissa.
  assert (Hpk : 0 < 2 ^ (n - 1)) by (apply Z.pow_pos_nonneg; lia).
  assert (Hp : 2 ^ n = 2 ^ (n - 1) * 2).
  { apply pow2_split. lia. }
  assert (Hpn : 0 < 2 ^ n) by lia.
  pose proof (Z.div_mod m (2 ^ n) ltac:(lia)) as Hdm.
  pose proof (Z.mod_pos_bound m (2 ^ n) Hpn) as Hb.
  set (q := m / 2 ^ n) in *. set (r := m mod 2 ^ n) in *.
  set (h := 2 ^ (n - 1)) in *.
  destruct (Z.compare_spec r h); [destruct (Z.even q)| |]; split; nia.
Qed.
Section RoundFacts.
Variables prec emax : Z.
Hypothesis prec_gt_0 : 0 < prec.

Lemma fexp_ge_emin z : emin prec emax <= fexp prec emax z.
Proof. unfold fexp. lia. Qed.

Lemma binary_round_aux_exact s mz ez :
  fexp prec emax (Z.pos (digits2_pos mz) + ez) = ez ->
  binary_round_aux prec emax s (Z.pos mz) ez loc_Exact
  = finish prec emax s (Z.pos mz) ez.
Proof.
  intros H. unfold binary_round_aux, shr_fexp. cbn [Zdigits2 shr_record_of_loc].
  rewrite H, Z.sub_diag. cbn [shr shr_m loc_of_shr_record round_nearest_even].
  cbn [Zdigits2]. rewrite H, Z.sub_diag. reflexivity.
Qed.

Lemma shr_fexp_small s q e1 :
  0 <= q < 2 ^ prec -> emin prec emax <= e1 ->
  (let '(mrs, e') := shr_fexp prec emax q e1 loc_Exact in
   match shr_m mrs with
   | Z0 => S754_zero s
   | Z.pos m => if e' <=? emax - prec then S754_finite s m e' else S754_infinity s
   | Z.neg _ => S754_nan
   end) = finish prec emax s q e1.
Proof using prec_gt_0.
  intros Hq He1. unfold shr_fexp.
  assert (Hn : fexp prec emax (Zdigits2 q + e1) - e1 <= 0).
  { unfold fexp. destruct q as [|p|p]; cbn [Zdigits2]; [lia | | lia].
    pose proof (digits2_pos_bounds p) as [Dlo _].
    assert (Z.pos (digits2_pos p) <= prec); [|lia].
    destruct (Z.leb_spec (Z.pos (digits2_pos p)) prec) as [|Hgt]; [assumption|].
    assert (2 ^ prec <= 2 ^ (Z.pos (digits2_pos p) - 1))
      by (apply Z.pow_le_mono_r; lia).
    lia. }
  destruct (fexp prec emax (Zdigits2 q + e1) - e1) as [|n|n] eqn:E; [| lia |];
    cbn [shr shr_record_of_loc shr_m]; reflexivity.
Qed.

Lemma digits2_pow2 (k : Z) p : 0 <= k -> Z.pos p = 2 ^ k -> Z.pos (digits2_pos p) = k + 1.
Proof.
  intros Hk Hp. apply digits2_pos_unique. rewrite Hp.
  replace (k + 1 - 1) with k by lia.
  split; [lia | apply Z.pow_lt_mono_r; lia].
Qed.

Lemma shr_fexp_carry s e1 :
  emin prec emax <= e1 ->
  (let '(mrs, e') := shr_fexp prec emax (2 ^ prec) e1 loc_Exact in
   match shr_m mrs with
   | Z0 => S754_zero s
   | Z.pos m => if e' <=? emax - prec then S754_finite s m e' else S754_infinity s
   | Z.neg _ => S754_nan
   end) = finish prec emax s (2 ^ (prec - 1)) (e1 + 1).
Proof using prec_gt_0.
  intros He1. unfold shr_fexp.
  assert (Hpos : 0 < 2 ^ prec) by (apply Z.pow_pos_nonneg; lia).
  destruct (2 ^ prec) as [|p|p] eqn:Ep; [lia | | lia].
  cbn [Zdigits2]. rewrite (digits2_pow2 prec p) by lia.
  assert (Hn : fexp prec emax (prec + 1 + e1) - e1 = 1) by (unfold fexp; lia).
  rewrite Hn. cbn [shr shr_record_of_loc SpecFloat.iter_pos].
  rewrite shr_1_spec by lia. cbn [shr_m].
  rewrite <- Ep. rewrite (pow2_split prec) by lia.
  rewrite Z.div_mul by lia. reflexivity.
Qed.

Lemma round_mantissa_le_pow m e :
  let d := Z.pos (digits2_pos m) in
  let e1 := fexp prec emax (d + e) in
  e < e1 -> 0 <= round_mantissa (Z.pos m) (e1 - e) <= 2 ^ prec.
Proof using prec_gt_0.
  intros d e1 Hlt.
  destruct (round_mantissa_error (Z.pos m) (e1 - e)) as [[Hlo Hhi] _]; [lia | lia |].
  pose proof (digits2_pos_bounds m) as [_ Dhi]. fold d in Dhi.
  assert (Hn : d - prec <= e1 - e) by (unfold e1, fexp; lia).
  assert (Hq0 : 0 <= Z.pos m / 2 ^ (e1 - e)) by (apply Z.div_pos; [lia | apply Z.pow_pos_nonneg; lia]).
  assert (Hq : Z.pos m / 2 ^ (e1 - e) < 2 ^ prec).
  { apply Z.div_lt_upper_bound; [apply Z.pow_pos_nonneg; lia|].
    rewrite <- Z.pow_add_r by lia.
    assert (2 ^ d <= 2 ^ (e1 - e + prec)) by (apply Z.pow_le_mono_r; lia). lia. }
  lia.
Qed.

Theorem binary_round_round_to s m e :
  binary_round prec emax s m e = round_to prec emax s m e.
Proof using prec_gt_0.
  unfold binary_round, round_to.
  set (d := Z.pos (digits2_pos m)). set (e1 := fexp prec emax (d + e)).
  destruct (Z.leb_spec e1 e) as [Hle | Hlt].
  - unfold shl_align.
    destruct (e1 - e) as [|n|n] eqn:En; [ | lia | ].
    + assert (e1 = e) by lia. subst e1.
      replace (e - fexp prec emax (d + e)) with 0 by lia.
      rewrite Z.pow_0_r, Z.mul_1_r.
      rewrite binary_round_aux_exact by (fold d; lia).
      now replace (fexp prec emax (d + e)) with e by lia.
    + assert (Hn : e - e1 = Z.pos n) by lia. rewrite Hn.
      rewrite <- Pos_iter_xO.
      apply binary_round_aux_exact.
      assert (Hd : Z.pos (digits2_pos (Pos.iter xO m n)) = d + Z.pos n).
      { apply digits2_pos_unique. rewrite Pos_iter_xO.
        pose proof (digits2_pos_bounds m) as [Dlo Dhi]. fold d in Dlo, Dhi.
        replace (d + Z.pos n - 1) with (d - 1 + Z.pos n) by lia.
        rewrite !Z.pow_add_r by lia.
        assert (0 < 2 ^ Z.pos n) by (apply Z.pow_pos_nonneg; lia). nia. }
      rewrite Hd. replace (d + Z.pos n + e1) with (d + e) by lia. reflexivity.
  - unfold shl_align.
    destruct (e1 - e) as [|n|n] eqn:En; [lia | | lia].
    unfold binary_round_aux.
    unfold shr_fexp at 1. cbn [Zdigits2]. fold d. fold e1. rewrite En.
    cbn [shr shr_record_of_loc]. rewrite round_shr by lia.
    replace (e + Z.pos n) with e1 by lia.
    pose proof (round_mantissa_le_pow m e Hlt) as Hq. fold d e1 in Hq. rewrite En in Hq.
    pose proof (fexp_ge_emin (d + e)) as Hemin. fold e1 in Hemin.
    destruct (Z.eqb_spec (round_mantissa (Z.pos m) (Z.pos n)) (2 ^ prec)) as [Eq | Ne].
    + rewrite Eq. now apply shr_fexp_carry.
    + apply shr_fexp_small; lia.
Qed.

Lemma finish_valid s q e' :
  (forall p, q = Z.pos p -> fexp prec emax (Z.pos (digits2_pos p) + e') = e') ->
  valid_binary prec emax (finish prec emax s q e') = true.
Proof.
  intros H. unfold finish. destruct q as [|p|p]; [reflexivity | | reflexivity].
  destruct (Z.leb_spec e' (emax - prec)) as [Hle|]; [|reflexivity].
  cbn [valid_binary]. unfold bounded, canonical_mantissa.
  rewrite (H p eq_refl), Z.eqb_refl. cbn [andb]. now apply Z.leb_le.
Qed.

Lemma digits2_pos_le p k : Z.pos p < 2 ^ k -> Z.pos (digits2_pos p) <= k.
Proof.
  intros Hp. pose proof (digits2_pos_bounds p) as [Dlo _].
  destruct (Z.leb_spec (Z.pos (digits2_pos p)) k) as [|Hgt]; [assumption|].
  assert (2 ^ k <= 2 ^ (Z.pos (digits2_pos p) - 1)) by (apply Z.pow_le_mono_r; lia).
  lia.
Qed.

Lemma digits2_pos_ge p k : 2 ^ (k - 1) <= Z.pos p -> k <= Z.pos (digits2_pos p).
Proof.
  intros Hp. pose proof (digits2_pos_bounds p) as [_ Dhi].
  destruct (Z.leb_spec k (Z.pos (digits2_pos p))) as [|Hgt]; [assumption|].
  assert (2 ^ Z.pos (digits2_pos p) <= 2 ^ (k - 1)) by (apply Z.pow_le_mono_r; lia).
  lia.
Qed.

(** In the normal range the rounded significand keeps [prec] digits. *)
Lemma round_mantissa_ge_pow m e :
  let d := Z.pos (digits2_pos m) in
  let e1 := fexp prec emax (d + e) in
  e < e1 -> emin prec emax < e1 ->
  2 ^ (prec - 1) <= round_mantissa (Z.pos m) (e1 - e).
Proof using prec_gt_0.
  intros d e1 Hlt Hnorm.
  destruct (round_mantissa_error (Z.pos m) (e1 - e)) as [[Hlo Hhi] _]; [lia | lia |].
  pose proof (digits2_pos_bounds m) as [Dlo _]. fold d in Dlo.
  assert (Hn : e1 - e = d - prec) by (unfold e1, fexp in *; lia).
  rewrite Hn in *.
  assert (2 ^ (prec - 1) <= Z.pos m / 2 ^ (d - prec)); [|lia].
  apply Z.div_le_lower_bound; [apply Z.pow_pos_nonneg; lia|].
  rewrite <- Z.pow_add_r by lia.
  now replace (d - prec + (prec - 1)) with (d - 1) by lia.
Qed.

Theorem round_to_valid s m e :
  valid_binary prec emax (round_to prec emax s m e) = true.
Proof using prec_gt_0.
  unfold round_to.
  set (d := Z.pos (digits2_pos m)). set (e1 := fexp prec emax (d + e)).
  pose proof (fexp_ge_emin (d + e)) as Hemin. fold e1 in Hemin.
  pose proof (digits2_pos_bounds m) as [Dlo Dhi]. fold d in Dlo, Dhi.
  destruct (Z.leb_spec e1 e) as [Hle | Hlt].
  - apply finish_valid. intros p Hp.
    assert (Hd : Z.pos (digits2_pos p) = d + (e - e1)).
    { apply digits2_pos_unique. rewrite <- Hp.
      replace (d + (e - e1) - 1) with (d - 1 + (e - e1)) by lia.
      rewrite !Z.pow_add_r by lia.
      assert (0 < 2 ^ (e - e1)) by (apply Z.pow_pos_nonneg; lia). nia. }
    rewrite Hd. now replace (d + (e - e1) + e1) with (d + e) by lia.
  - pose proof (round_mantissa_le_pow m e Hlt) as Hq. fold d e1 in Hq.
    destruct (Z.eqb_spec (round_mantissa (Z.pos m) (e1 - e)) (2 ^ prec)) as [Eq | Ne].
    + apply finish_valid. intros p Hp.
      rewrite (digits2_pow2 (prec - 1) p) by lia. unfold fexp. lia.
    + apply finish_valid. intros p Hp.
      assert (Hle : Z.pos (digits2_pos p) <= prec)
        by (apply digits2_pos_le; rewrite <- Hp; lia).
      destruct (Z.eq_dec e1 (emin prec emax)) as [Esub | Enorm].
      * unfold fexp. lia.
      * pose proof (round_mantissa_ge_pow m e Hlt) as Hge. fold d e1 in Hge.
        assert (prec <= Z.pos (digits2_pos p))
          by (apply digits2_pos_ge; rewrite <- Hp; apply Hge; lia).
        unfold fexp. lia.
Qed.

End RoundFacts.
(** *** The value of a rounded float *)

Lemma Q2_neq_0 : ~ (2 == 0)%Q.
Proof. discriminate. Qed.

Lemma Q2_pow_pos (e : Z) : (0 < 2 ^ e)%Q.
Proof. apply Qpower_0_lt. reflexivity. Qed.

Lemma inject_Z_pow2 (k : Z) : 0 <= k -> (inject_Z (2 ^ k) == 2 ^ k)%Q.
Proof. intros Hk. now rewrite Zpower_Qpower. Qed.

Lemma Qscaled_le (a b e : Z) :
  a <= b -> (inject_Z a * 2 ^ e <= inject_Z b * 2 ^ e)%Q.
Proof.
  intros H. apply Qmult_le_compat_r.
  - now rewrite <- Zle_Qle.
  - apply Qlt_le_weak, Q2_pow_pos.
Qed.

Lemma Qscaled_shift (a n e : Z) :
  0 <= n -> (inject_Z (a * 2 ^ n) * 2 ^ e == inject_Z a * 2 ^ (e + n))%Q.
Proof.
  intros Hn. rewrite inject_Z_mult, inject_Z_pow2 by assumption.
  rewrite Qpower_plus by apply Q2_neq_0. ring.
Qed.

Lemma Qabs_signed (s : bool) (a e : Z) :
  (Qabs (Qsign s * inject_Z a * 2 ^ e) == inject_Z (Z.abs a) * 2 ^ e)%Q.
Proof.
  rewrite !Qabs_Qmult.
  rewrite (Qabs_pos (2 ^ e)) by apply Qlt_le_weak, Q2_pow_pos.
  assert (Hs : (Qabs (Qsign s) == 1)%Q) by (destruct s; reflexivity).
  rewrite Hs, Qmult_1_l. reflexivity.
Qed.

Lemma SF2Q_finite s m e :
  (SF2Q (S754_finite s m e) == Qsign s * inject_Z (Z.pos m) * 2 ^ e)%Q.
Proof. reflexivity. Qed.

Lemma SF2Q_finish prec emax s q e' :
  0 <= q -> is_finite (finish prec emax s q e') = true ->
  (SF2Q (finish prec emax s q e') == Qsign s * inject_Z q * 2 ^ e')%Q.
Proof.
  intros Hq. unfold finish. destruct q as [|p|p]; [| | lia].
  - intros _. cbn [SF2Q]. unfold inject_Z. ring.
  - destruct (e' <=? emax - prec); [reflexivity | discriminate].
Qed.
Section RoundError.
Variables prec emax : Z.
Hypothesis prec_gt_0 : 0 < prec.

(** The value of the rounded float, in the unit of the argument. *)
Lemma round_to_value s m e :
  is_finite (round_to prec emax s m e) = true ->
  exists N : Z,
    (SF2Q (round_to prec emax s m e) == Qsign s * inject_Z N * 2 ^ e)%Q /\
    let e1 := fexp prec emax (Z.pos (digits2_pos m) + e) in
    (e1 <= e -> N = Z.pos m) /\
    (e < e1 -> 2 * Z.abs (N - Z.pos m) <= 2 ^ (e1 - e)).
Proof using prec_gt_0.
  unfold round_to.
  set (d := Z.pos (digits2_pos m)). set (e1 := fexp prec emax (d + e)).
  destruct (Z.leb_spec e1 e) as [Hle | Hlt]; cbv beta iota; intros Hfin.
  - exists (Z.pos m). split; [|cbv zeta; split; [reflexivity | lia]].
    rewrite SF2Q_finish;
      [ | apply Z.mul_nonneg_nonneg; [lia | apply Z.pow_nonneg; lia] | assumption ].
    rewrite <- !Qmult_assoc, Qscaled_shift by lia.
    now replace (e1 + (e - e1)) with e by lia.
  - pose proof (round_mantissa_le_pow prec emax prec_gt_0 m e Hlt) as Hq.
    fold d e1 in Hq.
    destruct (round_mantissa_error (Z.pos m) (e1 - e)) as [_ Herr]; [lia | lia |].
    set (q := round_mantissa (Z.pos m) (e1 - e)) in *.
    exists (q * 2 ^ (e1 - e)). split; [|cbv zeta; split; [lia | intros _; exact Herr]].
    rewrite <- (Qmult_assoc (Qsign s) (inject_Z (q * 2 ^ (e1 - e)))).
    rewrite Qscaled_shift by lia. replace (e + (e1 - e)) with e1 by lia.
    destruct (Z.eqb_spec q (2 ^ prec)) as [Eq | Ne]; cbv beta iota in Hfin |- *.
    + rewrite SF2Q_finish; [ | apply Z.pow_nonneg; lia | assumption ].
      rewrite Eq, !inject_Z_pow2 by lia.
      rewrite <- !Qmult_assoc, <- !Qpower_plus by apply Q2_neq_0.
      now replace (prec - 1 + (e1 + 1)) with (prec + e1) by lia.
    + rewrite SF2Q_finish; [ | lia | assumption ].
      now rewrite Qmult_assoc.
Qed.

Theorem round_to_error s m e :
  is_finite (round_to prec emax s m e) = true ->
  (Qabs (SF2Q (round_to prec emax s m e) - SF2Q (S754_finite s m e))
     <= Qabs (SF2Q (S754_finite s m e)) * 2 ^ (- prec)
   \/
   Qabs (SF2Q (round_to prec emax s m e) - SF2Q (S754_finite s m e))
     <= 2 ^ (emin prec emax - 1))%Q.
Proof using prec_gt_0.
  intros Hfin.
  destruct (round_to_value s m e Hfin) as (N & HN & Hexact & Hinexact).
  set (d := Z.pos (digits2_pos m)) in *. set (e1 := fexp prec emax (d + e)) in *.
  assert (Hdiff : (Qabs (SF2Q (round_to prec emax s m e) - SF2Q (S754_finite s m e))
                   == inject_Z (Z.abs (N - Z.pos m)) * 2 ^ e)%Q).
  { rewrite HN, SF2Q_finite, <- Qabs_signed with (s := s).
    unfold Z.sub. rewrite inject_Z_plus, inject_Z_opp.
    apply Qabs_wd. ring. }
  rewrite Hdiff.
  destruct (Z.leb_spec e1 e) as [Hle | Hlt].
  - right. rewrite (Hexact Hle), Z.sub_diag. cbn [Z.abs].
    unfold inject_Z. rewrite Qmult_0_l. apply Qlt_le_weak, Q2_pow_pos.
  - specialize (Hinexact Hlt).
    pose proof (pow2_split (e1 - e) ltac:(lia)) as Hsplit.
    assert (Hhalf : Z.abs (N - Z.pos m) <= 2 ^ (e1 - e - 1)) by lia.
    pose proof (fexp_ge_emin prec emax (d + e)) as Hemin. fold e1 in Hemin.
    destruct (Z.eq_dec e1 (emin prec emax)) as [Esub | Enorm].
    + right.
      eapply Qle_trans; [apply Qscaled_le, Hhalf|].
      rewrite inject_Z_pow2 by lia.
      rewrite <- Qpower_plus by apply Q2_neq_0.
      replace (e1 - e - 1 + e) with (emin prec emax - 1) by lia.
      apply Qle_refl.
    + left.
      assert (Hn : e1 - e = d - prec) by (unfold e1, fexp in *; lia).
      pose proof (digits2_pos_bounds m) as [Dlo _]. fold d in Dlo.
      assert (Hrel : Z.abs (N - Z.pos m) * 2 ^ prec <= Z.pos m).
      { assert (2 ^ (d - 1) = 2 ^ (e1 - e - 1) * 2 ^ prec).
        { rewrite <- Z.pow_add_r by lia. f_equal. lia. }
        assert (0 < 2 ^ prec) by (apply Z.pow_pos_nonneg; lia).
        nia. }
      rewrite SF2Q_finite, Qabs_signed. cbn [Z.abs].
      assert (Hunit : (inject_Z (Z.abs (N - Z.pos m))
                       == inject_Z (Z.abs (N - Z.pos m) * 2 ^ prec) * 2 ^ (- prec))%Q).
      { rewrite Qscaled_shift by lia.
        replace (- prec + prec) with 0 by lia. cbn. ring. }
      rewrite Hunit.
      rewrite <- !Qmult_assoc, (Qmult_comm (2 ^ (- prec)) (2 ^ e)), !Qmult_assoc.
      apply Qmult_le_compat_r; [|apply Qlt_le_weak, Q2_pow_pos].
      now apply Qscaled_le.
Qed.

End RoundError.

(** ** The round trip of a record *)

Lemma finish_not_nan prec emax s q e :
  0 <= q -> is_finite (finish prec emax s q e) = negb (is_infinite (finish prec emax s q e)).
Proof.
  intros Hq. unfold finish. destruct q as [|p|p]; [reflexivity | | lia].
  destruct (e <=? emax - prec); reflexivity.
Qed.

Lemma round_to_finite_or_infinite prec emax s m e :
  0 < prec ->
  is_finite (round_to prec emax s m e) = negb (is_infinite (round_to prec emax s m e)).
Proof.
  intros Hp. unfold round_to.
  set (e1 := fexp prec emax (Z.pos (digits2_pos m) + e)).
  destruct (Z.leb_spec e1 e) as [Hle | Hlt].
  - apply finish_not_nan. apply Z.mul_nonneg_nonneg; [lia | apply Z.pow_nonneg; lia].
  - destruct (Z.eqb_spec (round_mantissa (Z.pos m) (e1 - e)) (2 ^ prec)).
    + apply finish_not_nan. apply Z.pow_nonneg; lia.
    + apply finish_not_nan.
      pose proof (round_mantissa_le_pow prec emax Hp m e Hlt) as H.
      cbv zeta in H. fold e1 in H. lia.
Qed.

Lemma to_f32_valid x : valid32 (to_f32 x) = true.
Proof.
  destruct x as [s | s | | s m e]; try reflexivity.
  unfold valid32, to_f32. rewrite binary_round_round_to by lia.
  apply round_to_valid. lia.
Qed.

(** What ['f'] stores is within the binary32 tolerance of the double. *)
Lemma to_f32_tolerance x :
  packs_f32 x = true -> within_f32_tolerance x (to_f32 x).
Proof.
  destruct x as [s | s | | s m e]; try reflexivity.
  unfold packs_f32, within_f32_tolerance, to_f32. cbn [is_finite andb].
  rewrite binary_round_round_to by lia. intros Hp.
  assert (Hfin : is_finite (round_to 24 128 s m e) = true).
  { rewrite round_to_finite_or_infinite by lia. exact Hp. }
  split; [exact Hfin|].
  exact (round_to_error 24 128 ltac:(lia) s m e Hfin).
Qed.

Lemma bits32_roundtrip y :
  valid32 y = true -> of_bits32 (be_decode (be_bytes 4 (bits32 y))) = y.
Proof.
  intros Hv. rewrite be_decode_be_bytes_small.
  - apply SF_of_bits_of_SF; [lia | lia | exact Hv].
  - pose proof (bits_of_SF_range 24 128 ltac:(lia) ltac:(lia) y Hv) as H.
    exact H.
Qed.

Lemma bits64_roundtrip x :
  valid64 x = true -> of_bits64 (be_decode (be_bytes 8 (bits64 x))) = x.
Proof.
  intros Hv. rewrite be_decode_be_bytes_small.
  - apply SF_of_bits_of_SF; [lia | lia | exact Hv].
  - pose proof (bits_of_SF_range 53 1024 ltac:(lia) ltac:(lia) x Hv) as H.
    exact H.
Qed.

Lemma decode_record_bytes ident lat lon alt dop ts :
  0 <= ident < 2 ^ 32 -> valid64 ts = true ->
  BinaryCodec.decode (record_bytes ident lat lon alt dop ts)
  = Ok (BinaryCodec.mkPacket ident (to_f32 lat) (to_f32 lon) (to_f32 alt)
          (to_f32 dop) ts).
Proof.
  intros Hid Hts. unfold BinaryCodec.decode.
  rewrite length_record_bytes. cbn [Nat.eqb]. f_equal.
  unfold record_bytes.
  set (b0 := be_bytes 4 ident). set (b1 := be_bytes 4 (bits32 (to_f32 lat))).
  set (b2 := be_bytes 4 (bits32 (to_f32 lon))). set (b3 := be_bytes 4 (bits32 (to_f32 alt))).
  set (b4 := be_bytes 4 (bits32 (to_f32 dop))). set (b5 := be_bytes 8 (bits64 ts)).
  assert (L0 : length b0 = 4%nat) by apply length_be_bytes.
  assert (L1 : length b1 = 4%nat) by apply length_be_bytes.
  assert (L2 : length b2 = 4%nat) by apply length_be_bytes.
  assert (L3 : length b3 = 4%nat) by apply length_be_bytes.
  assert (L4 : length b4 = 4%nat) by apply length_be_bytes.
  assert (L5 : length b5 = 8%nat) by apply length_be_bytes.
  assert (S0 : slice 0 4 (b0 ++ b1 ++ b2 ++ b3 ++ b4 ++ b5) = b0).
  { apply (slice_app_at [] b0 _ 4 L0). }
  assert (S1 : slice 4 4 (b0 ++ b1 ++ b2 ++ b3 ++ b4 ++ b5) = b1).
  { rewrite <- L0 at 1. apply (slice_app_at b0 b1 _ 4 L1). }
  assert (S2 : slice 8 4 (b0 ++ b1 ++ b2 ++ b3 ++ b4 ++ b5) = b2).
  { replace 8%nat with (length (b0 ++ b1)) by (rewrite length_app; lia).
    rewrite (app_assoc b0 b1). apply (slice_app_at _ b2 _ 4 L2). }
  assert (S3 : slice 12 4 (b0 ++ b1 ++ b2 ++ b3 ++ b4 ++ b5) = b3).
  { replace 12%nat with (length (b0 ++ b1 ++ b2)) by (rewrite !length_app; lia).
    replace (b0 ++ b1 ++ b2 ++ b3 ++ b4 ++ b5) with ((b0 ++ b1 ++ b2) ++ b3 ++ b4 ++ b5)
      by (now rewrite <- !app_assoc).
    apply (slice_app_at _ b3 _ 4 L3). }
  assert (S4 : slice 16 4 (b0 ++ b1 ++ b2 ++ b3 ++ b4 ++ b5) = b4).
  { replace 16%nat with (length (b0 ++ b1 ++ b2 ++ b3)) by (rewrite !length_app; lia).
    replace (b0 ++ b1 ++ b2 ++ b3 ++ b4 ++ b5) with ((b0 ++ b1 ++ b2 ++ b3) ++ b4 ++ b5)
      by (now rewrite <- !app_assoc).
    apply (slice_app_at _ b4 _ 4 L4). }
  assert (S5 : slice 20 8 (b0 ++ b1 ++ b2 ++ b3 ++ b4 ++ b5) = b5).
  { replace 20%nat with (length (b0 ++ b1 ++ b2 ++ b3 ++ b4)) by (rewrite !length_app; lia).
    replace (b0 ++ b1 ++ b2 ++ b3 ++ b4 ++ b5)
      with ((b0 ++ b1 ++ b2 ++ b3 ++ b4) ++ b5 ++ []).
    2:{ rewrite app_nil_r. now rewrite <- !app_assoc. }
    apply (slice_app_at _ b5 _ 8 L5). }
  rewrite S0, S1, S2, S3, S4, S5. unfold b0, b1, b2, b3, b4, b5.
  rewrite be_decode_be_bytes_small by exact Hid.
  rewrite !bits32_roundtrip by apply to_f32_valid.
  rewrite bits64_roundtrip by exact Hts.
  reflexivity.
Qed.

(** C4. For every sample whose identifier is a uint32 and whose four
    measurements fit binary32, [encode_binary_packet] returns a record
    and decoding it gives back the identifier and the timestamp exactly,
    and for latitude, longitude, altitude and doppler the binary32
    rounding of the sample's value, which is within the binary32
    tolerance of it (relative error at most [2^-24], or absolute error at
    most [2^-150] in the subnormal range). *)
Theorem decode_encode_roundtrip
    (sat_id : Z) (lat lon alt doppler time_time : pyfloat) :
  0 <= sat_id < 2 ^ 32 ->
  packs_f32 lat = true -> packs_f32 lon = true ->
  packs_f32 alt = true -> packs_f32 doppler = true ->
  valid64 time_time = true ->
  exists bs r,
    Satlen.encode_binary_packet sat_id lat lon alt doppler time_time = Ok bs /\
    BinaryCodec.decode bs = Ok r /\
    BinaryCodec.identifier r = sat_id /\
    BinaryCodec.timestamp r = time_time /\
    BinaryCodec.latitude r = to_f32 lat /\
    BinaryCodec.longitude r = to_f32 lon /\
    BinaryCodec.altitude r = to_f32 alt /\
    BinaryCodec.doppler r = to_f32 doppler /\
    within_f32_tolerance lat (BinaryCodec.latitude r) /\
    within_f32_tolerance lon (BinaryCodec.longitude r) /\
    within_f32_tolerance alt (BinaryCodec.altitude r) /\
    within_f32_tolerance doppler (BinaryCodec.doppler r).
Proof.
  intros Hid Hlat Hlon Halt Hdop Hts.
  eexists _, _. split.
  { unfold Satlen.encode_binary_packet. now apply pack_Iffffd. }
  split; [now apply decode_record_bytes|].
  cbn [BinaryCodec.identifier BinaryCodec.timestamp BinaryCodec.latitude
       BinaryCodec.longitude BinaryCodec.altitude BinaryCodec.doppler].
  repeat split; auto using to_f32_tolerance.
Qed.

Lemma decode_encode_roundtrip_witness :
  exists bs r,
    Satlen.encode_binary_packet 25544 (literal 1242 100) (literal 14412 100)
      (of_Z 410) (Satlen.doppler_shift (literal 45 10)) Scenario.clock0 = Ok bs /\
    BinaryCodec.decode bs = Ok r /\
    BinaryCodec.identifier r = 25544 /\
    BinaryCodec.timestamp r = Scenario.clock0.
Proof.
  destruct (decode_encode_roundtrip 25544 (literal 1242 100) (literal 14412 100)
              (of_Z 410) (Satlen.doppler_shift (literal 45 10)) Scenario.clock0)
    as (bs & r & H1 & H2 & H3 & H4 & _);
    [ split; [discriminate | reflexivity] | vm_compute; reflexivity ..| ].
  exists bs, r. auto.
Defined.

(** * Further properties of the two scripts *)

(** ** The two threads, continued *)

Module PipelineMore.
Import Pipeline.

Section More.
Context {T K F : Type}.
Variable swarm_of : K -> list EarthSatellite.
Variable measure : K -> EarthSatellite -> Time -> pyfloat -> result (T * K).
Variable prologue : F -> F.
Variable persist : pyfloat -> T -> F -> result F.

Abbreviation step := (step swarm_of measure prologue persist).
Abbreviation run := (run swarm_of measure prologue persist).
Abbreviation persisted := (persisted swarm_of measure prologue persist).
Abbreviation accepted := (accepted swarm_of measure prologue persist).

(** The event is never cleared. *)
Lemma step_event_set a st : event st = true -> event (step a st) = true.
Proof. PipelineFacts.step_cases st a; intros H; cbn in *; congruence. Qed.

(** Once the event is set the harvester starts no new cycle: it makes at
    most the [put]s that are left in the cycle it is in. *)
Lemma accepted_after_event sched st :
  event st = true ->
  (length (accepted sched st) <= Cycle.pending (harvester st))%nat.
Proof.
  revert st. induction sched as [|a sched IH]; intros st Hev; [cbn; lia|].
  specialize (IH (step a st) (step_event_set a st Hev)).
  cbn [Pipeline.accepted].
  destruct st as [[ms its] ev k f h s]. cbn [event harvester bus] in *. subst ev.
  destruct a as [now clock | clock | |].
  - destruct h as [| t [|sat rest] | t item rest | |];
      cbn in IH |- *; unfold harvest_step in IH; cbn in IH; try lia.
    + destruct (measure k sat t clock) as [[item k']|e]; cbn in IH; lia.
    + unfold Queue.put, Queue.full, Queue.qsize in IH |- *. cbn in IH |- *.
      destruct ((0 <? ms) && (ms <=? Z.of_nat (length its))); cbn in IH |- *; lia.
  - assert (Hh : harvester (step (Store clock) (mkSystem (Queue.mk ms its) true k f h s)) = h).
    { cbn. unfold store_step, Queue.get; cbn.
      repeat (PipelineFacts.case_inner; cbn); reflexivity. }
    rewrite Hh in IH. destruct h; exact IH.
  - assert (Hh : harvester (step Timeout (mkSystem (Queue.mk ms its) true k f h s)) = h).
    { cbn. unfold timeout_step, Queue.get; cbn.
      repeat (PipelineFacts.case_inner; cbn); reflexivity. }
    rewrite Hh in IH. destruct h; exact IH.
  - destruct h; exact IH.
Qed.

(** The prologue runs once: a storage thread that has started never is
    at its start again. *)
Lemma step_storage_started a st : storage st <> SStart -> storage (step a st) <> SStart.
Proof. PipelineFacts.step_cases st a; intros H; cbn in *; congruence. Qed.

Lemma run_storage_started sched st :
  storage st <> SStart -> storage (run sched st) <> SStart.
Proof.
  apply (PipelineFacts.run_invariant swarm_of measure prologue persist
           (fun s => storage s <> SStart)).
  intros a s. apply step_storage_started.
Qed.

(** What one step hands to the storage code. *)
Lemma persisted_cons a sched st :
  persisted (a :: sched) st
  = match a, storage st, Queue.get (bus st) with
    | Store _, SGet, Some (item, _) => [item]
    | _, _, _ => []
    end ++ persisted sched (step a st).
Proof.
  cbn [Pipeline.persisted]. destruct a; try reflexivity.
  destruct (storage st); try reflexivity.
  destruct (Queue.get (bus st)) as [[item q]|]; reflexivity.
Qed.

(** Nothing is taken from the bus before the prologue has run. *)
Lemma persisted_before_start sched : forall st,
  storage (run sched st) = SStart -> persisted sched st = [].
Proof.
  induction sched as [|a sched IH]; intros st Hfinal; [reflexivity|].
  rewrite PipelineFacts.run_cons in Hfinal.
  rewrite persisted_cons, (IH _ Hfinal), app_nil_r.
  destruct (storage st) eqn:Es;
    try (exfalso; apply (run_storage_started (a :: sched) st);
         [rewrite Es; discriminate | exact Hfinal]).
  destruct a; reflexivity.
Qed.

Section Content.
Context {X : Type}.
Variables (content : F -> list X) (opened : list X -> list X) (record : T -> list X).
Variable good : T -> Prop.
Hypothesis prologue_opened : forall f, content (prologue f) = opened (content f).
Hypothesis persist_record : forall c item f, good item ->
  exists f', persist c item f = Ok f' /\ content f' = content f ++ record item.

Lemma step_content_start a st :
  storage st = SStart ->
  Queue.get (bus st) = Queue.get (bus st) ->
  (storage (step a st) = SStart /\ files (step a st) = files st) \/
  (storage (step a st) = STest /\ content (files (step a st)) = opened (content (files st))).
Proof using prologue_opened.
  destruct st as [[ms its] ev k f h s]. cbn [storage]. intros -> _.
  destruct a as [now clock | clock | |].
  - left. cbn. unfold harvest_step; cbn.
    repeat (PipelineFacts.case_inner; cbn); auto.
  - right. cbn. auto.
  - left. cbn. unfold timeout_step, Queue.get; cbn. auto.
  - left. cbn. auto.
Qed.

Lemma step_content_started a st :
  storage st <> SStart ->
  Forall good match a, storage st, Queue.get (bus st) with
              | Store _, SGet, Some (item, _) => [item]
              | _, _, _ => []
              end ->
  content (files (step a st))
  = content (files st)
    ++ flat_map record match a, storage st, Queue.get (bus st) with
                       | Store _, SGet, Some (item, _) => [item]
                       | _, _, _ => []
                       end.
Proof using persist_record.
  destruct st as [[ms its] ev k f h s]. cbn [storage files bus]. intros Hs Hgood.
  destruct a as [now clock | clock | |].
  - cbn. rewrite app_nil_r. unfold harvest_step; cbn.
    repeat (PipelineFacts.case_inner; cbn); reflexivity.
  - destruct s; try congruence.
    + cbn. rewrite app_nil_r. unfold store_step; cbn. destruct ev; reflexivity.
    + unfold Queue.get in *. cbn [Queue.items] in *.
      destruct its as [|x its].
      * cbn. now rewrite app_nil_r.
      * inversion Hgood as [|? ? Hx _]; subst.
        destruct (persist_record clock x f Hx) as (f' & Hf' & Hc).
        cbn. unfold store_step, Queue.get; cbn. rewrite Hf'. cbn.
        rewrite Hc, app_nil_r. reflexivity.
    + cbn. now rewrite app_nil_r.
    + cbn. now rewrite app_nil_r.
  - cbn. rewrite app_nil_r. unfold timeout_step, Queue.get; cbn.
    destruct s, its; reflexivity.
  - cbn. now rewrite app_nil_r.
Qed.

(** A view [content] of the files that the prologue changes by
    [opened] and to which every good item adds [record item] is, once
    the storage thread has started, what the prologue made of the
    initial content followed by the records of the items taken from the
    bus, once each and in order. *)
Lemma files_with_header sched : forall st,
  Forall good (persisted sched st) ->
  content (files (run sched st))
  = match storage st, storage (run sched st) with
    | SStart, SStart => content (files st)
    | SStart, _ => opened (content (files st))
    | _, _ => content (files st)
    end ++ flat_map record (persisted sched st).
Proof using prologue_opened persist_record.
  induction sched as [|a sched IH]; intros st Hgood.
  - cbn. rewrite app_nil_r. destruct (storage st); reflexivity.
  - rewrite PipelineFacts.run_cons.
    rewrite persisted_cons in Hgood |- *.
    apply Forall_app in Hgood as [Hhead Htail].
    rewrite (IH _ Htail), flat_map_app, app_assoc. f_equal.
    pose proof (run_storage_started sched (step a st)) as Hstarted.
    destruct (storage st) eqn:Es.
    + replace (flat_map record match a with
                               | Store _ => []
                               | _ => []
                               end) with (@nil X) by (destruct a; reflexivity).
      rewrite app_nil_r.
      destruct (step_content_start a st Es eq_refl) as [[E1 Ef] | [E1 Ec]].
      * rewrite E1, Ef. reflexivity.
      * rewrite E1.
        destruct (storage (run sched (step a st))) eqn:E2; try exact Ec.
        exfalso. apply Hstarted; [rewrite E1; discriminate | reflexivity].
    + pose proof (step_content_started a st ltac:(rewrite Es; discriminate)) as Hc.
      rewrite Es in Hc. rewrite <- Hc by exact Hhead.
      pose proof (step_storage_started a st ltac:(rewrite Es; discriminate)) as Hn.
      destruct (storage (step a st)); [congruence | reflexivity ..].
    + pose proof (step_content_started a st ltac:(rewrite Es; discriminate)) as Hc.
      rewrite Es in Hc. rewrite <- Hc by exact Hhead.
      pose proof (step_storage_started a st ltac:(rewrite Es; discriminate)) as Hn.
      destruct (storage (step a st)); [congruence | reflexivity ..].
    + pose proof (step_content_started a st ltac:(rewrite Es; discriminate)) as Hc.
      rewrite Es in Hc. rewrite <- Hc by exact Hhead.
      pose proof (step_storage_started a st ltac:(rewrite Es; discriminate)) as Hn.
      destruct (storage (step a st)); [congruence | reflexivity ..].
    + pose proof (step_content_started a st ltac:(rewrite Es; discriminate)) as Hc.
      rewrite Es in Hc. rewrite <- Hc by exact Hhead.
      pose proof (step_storage_started a st ltac:(rewrite Es; discriminate)) as Hn.
      destruct (storage (step a st)); [congruence | reflexivity ..].
Qed.

End Content.

Section Safe.
Variable swarm0 : list EarthSatellite.
Variable from_swarm : T -> Prop.
Variable files_ok : F -> Prop.
Hypothesis measure_ok : forall k sat now clock item k',
  sat ∈ swarm0 -> swarm_of k = swarm0 ->
  measure k sat now clock = Ok (item, k') ->
  from_swarm item /\ swarm_of k' = swarm0.
Hypothesis prologue_ok : forall f, files_ok f -> files_ok (prologue f).
Hypothesis persist_ok : forall c item f f',
  from_swarm item -> files_ok f -> persist c item f = Ok f' -> files_ok f'.
Hypothesis persist_total : forall c item f,
  from_swarm item -> exists f', persist c item f = Ok f'.

(** When the writes succeed for every item that comes from the swarm,
    the storage thread never ends with an exception. *)
Lemma run_storage_never_raises sched st :
  provenance swarm_of swarm0 from_swarm files_ok st ->
  (forall e, storage st <> SRaised e) ->
  forall e, storage (run sched st) <> SRaised e.
Proof using measure_ok prologue_ok persist_ok persist_total.
  intros Hp Hs.
  enough (Hinv : provenance swarm_of swarm0 from_swarm files_ok (run sched st) /\
                 forall e, storage (run sched st) <> SRaised e) by tauto.
  apply (PipelineFacts.run_invariant swarm_of measure prologue persist
           (fun s => provenance swarm_of swarm0 from_swarm files_ok s /\
                     forall e, storage s <> SRaised e)); [|auto].
  clear st Hp Hs. intros a st [Hp Hs].
  split; [now apply PipelineFacts.step_provenance|].
  destruct Hp as (_ & Hbus & _).
  destruct st as [[ms its] ev k f h s]. cbn [storage bus Queue.items] in *.
  destruct a as [now clock | clock | |]; intros e.
  - cbn. unfold harvest_step; cbn.
    repeat (PipelineFacts.case_inner; cbn); apply Hs.
  - cbn. unfold store_step, Queue.get; cbn.
    destruct s; cbn; try discriminate; try apply Hs.
    + destruct ev; discriminate.
    + destruct its as [|x its]; cbn; [discriminate|].
      inversion Hbus as [|? ? Hx _]; subst.
      destruct (persist_total clock x f Hx) as [f' ->]. cbn. discriminate.
  - cbn. unfold timeout_step, Queue.get; cbn.
    destruct s, its; cbn; try discriminate; apply Hs.
  - cbn. apply Hs.
Qed.

End Safe.

(** With the storage thread ended and the bus full, a harvester inside
    [put] stays there in every continuation. *)
Lemma put_blocked_forever sched st t item rest :
  storage_ended st ->
  harvester st = HPut t item rest ->
  Queue.full (bus st) = true ->
  harvester (run sched st) = HPut t item rest /\ bus (run sched st) = bus st.
Proof.
  intros Hs Hh Hfull.
  enough (Hinv : (storage_ended (run sched st) /\ harvester (run sched st) = HPut t item rest)
                 /\ bus (run sched st) = bus st) by tauto.
  apply (PipelineFacts.run_invariant swarm_of measure prologue persist
           (fun s => (storage_ended s /\ harvester s = HPut t item rest)
                     /\ bus s = bus st)); [|auto].
  clear Hs Hh. intros a s [[Hs Hh] Hb].
  assert (Hfull' : Queue.full (bus s) = true) by (now rewrite Hb).
  destruct a as [now clock | clock | |].
  - rewrite (PipelineFacts.put_blocks_when_full swarm_of measure prologue persist
               now clock s t item rest Hh Hfull'). auto.
  - destruct s as [q ev k f h sp]. unfold storage_ended in *. cbn in *.
    unfold store_step. cbn. destruct sp; try contradiction; auto.
  - destruct s as [q ev k f h sp]. unfold storage_ended in *. cbn in *.
    unfold timeout_step. cbn. destruct sp; try contradiction; auto.
  - cbn. unfold interrupt_step, storage_ended in *. cbn. auto.
Qed.

(** A cycle in which every measurement succeeds and the bus has room
    puts one item per object, in the order of the swarm. *)
Lemma cycle_completes now clock t rest : forall st items k',
  harvester st = HFor t rest ->
  Cycle.measure_all measure (kernel st) rest t clock = Ok (items, k') ->
  (Queue.maxsize (bus st) <= 0 \/
   Z.of_nat (Queue.qsize (bus st) + length rest) <= Queue.maxsize (bus st)) ->
  run (repeat (Harvest now clock) (2 * length rest)) st
  = mkSystem (Queue.mk (Queue.maxsize (bus st)) (Queue.items (bus st) ++ items))
      (event st) k' (files st) (HFor t []) (storage st).
Proof.
  induction rest as [|sat rest IH]; intros st items k' Hh Hm Hroom.
  - cbn in Hm. injection Hm as <- <-. cbn. rewrite app_nil_r.
    destruct st as [[ms its] ev k f h s]. cbn in *. now subst h.
  - cbn [Cycle.measure_all] in Hm.
    destruct (measure (kernel st) sat t clock) as [[item k1]|e] eqn:E1; [|discriminate].
    destruct (Cycle.measure_all measure k1 rest t clock) as [[items1 k2]|e] eqn:E2;
      [|discriminate].
    injection Hm as <- <-.
    replace (2 * length (sat :: rest))%nat with (S (S (2 * length rest))) by (cbn; lia).
    cbn [repeat]. rewrite !PipelineFacts.run_cons.
    destruct st as [[ms its] ev k f h s]. cbn [harvester kernel bus event files storage] in *.
    subst h. cbn [Pipeline.step]. unfold harvest_step at 2. cbn [harvester kernel].
    rewrite E1. cbn [bus event files storage].
    unfold harvest_step. cbn [harvester bus]. unfold Queue.put, Queue.full, Queue.qsize.
    cbn [Queue.maxsize Queue.items] in *.
    assert (Hnf : (0 <? ms) && (ms <=? Z.of_nat (length its)) = false).
    { unfold Queue.qsize in Hroom. cbn in Hroom.
      destruct (Z.ltb_spec 0 ms); [|reflexivity].
      destruct (Z.leb_spec ms (Z.of_nat (length its))); [lia | reflexivity]. }
    rewrite Hnf. cbn [event kernel files storage].
    rewrite (IH _ items1 k2); cbn [harvester kernel bus event files storage
                                    Queue.maxsize Queue.items].
    + now rewrite <- app_assoc.
    + reflexivity.
    + exact E2.
    + unfold Queue.qsize in *. cbn [Queue.items] in *. rewrite length_app.
      cbn [length] in *. lia.
Qed.

End More.
End PipelineMore.

(** ** [bytes.hex] then [bytes.fromhex] *)

Lemma hex_digits_of_byte (b : byte) :
  Hex.value (Hex.digit (Z_of_byte b / 16)) = Some (Z_of_byte b / 16) /\
  Hex.value (Hex.digit (Z_of_byte b mod 16)) = Some (Z_of_byte b mod 16) /\
  byte_of_Z (16 * (Z_of_byte b / 16) + Z_of_byte b mod 16) = b.
Proof. destruct b; vm_compute; auto. Qed.

Lemma fromhex_hex (bs : list byte) : Hex.fromhex (Hex.hex bs) = Ok bs.
Proof.
  induction bs as [|b bs IH]; [reflexivity|].
  cbn [Hex.hex Hex.fromhex].
  destruct (hex_digits_of_byte b) as (-> & -> & Hb).
  rewrite IH. cbn [mbind result_bind Py.bind]. now rewrite Hb.
Qed.

(** ** What the samples carry *)

(** A sample of satlen.py carries the identifier of its object and the
    28-byte record of its own fields. *)
Lemma perform_handshake_blob log10 observe sat now clock data :
  Satlen.perform_handshake log10 observe sat now clock = Ok data ->
  Satlen.node_id data = satnum sat /\
  Satlen.node_name data = name sat /\
  Satlen.binary_blob data
  = record_bytes (Satlen.node_id data) (fst (Satlen.coords data))
      (snd (Satlen.coords data)) (Satlen.altitude data) (Satlen.doppler data) clock /\
  length (Satlen.binary_blob data) = 28%nat.
Proof.
  unfold Satlen.perform_handshake.
  destruct (observe sat now) as [fx|]; cbn [mbind result_bind Py.bind]; [|discriminate].
  destruct (Satlen.calculate_path_loss _ _ _) as [pl|];
    cbn [mbind result_bind Py.bind]; [|discriminate].
  destruct (Satlen.encode_binary_packet _ _ _ _ _ _) as [blob|] eqn:E;
    cbn [mbind result_bind Py.bind]; [|discriminate].
  apply pack_Iffffd_inv in E as (_ & _ & _ & _ & _ & ->).
  intros [= <-]. cbn [Satlen.node_id Satlen.node_name Satlen.binary_blob Satlen.coords
                      Satlen.altitude Satlen.doppler fst snd].
  repeat split.
Qed.

(** A sample of satyo.py carries, in hexadecimal, the 28-byte record of
    its own fields with a zero doppler. *)
Lemma calculate_quantum_metrics_payload observe self sat now clock item self' :
  Satyo.calculate_quantum_metrics observe self sat now clock = Ok (item, self') ->
  Satyo.id item = satnum sat /\
  Satyo.node item = name sat /\
  Satyo.binary_payload item
  = Hex.hex (record_bytes (Satyo.id item) (Satyo.lat item) (Satyo.lon item)
               (Satyo.alt item) (S754_zero false) clock).
Proof.
  unfold Satyo.calculate_quantum_metrics.
  destruct (observe sat now) as [fx|]; cbn [mbind result_bind Py.bind]; [|discriminate].
  destruct (Satyo.binary_packet sat fx clock) as [packet|] eqn:E;
    cbn [mbind result_bind Py.bind]; [|discriminate].
  apply pack_Iffffd_inv in E as (_ & _ & _ & _ & _ & ->).
  intros [= <- _]. cbn [Satyo.id Satyo.node Satyo.binary_payload Satyo.lat Satyo.lon
                        Satyo.alt].
  repeat split.
Qed.

Lemma satyo_raw_tracked observe sats item :
  Satyo.tracked observe sats item ->
  exists clock,
    Views.satyo_raw item
    = record_bytes (Satyo.id item) (Satyo.lat item) (Satyo.lon item)
        (Satyo.alt item) (S754_zero false) clock.
Proof.
  intros (i & sat & now & clock & self & self' & _ & _ & Hm).
  apply calculate_quantum_metrics_payload in Hm as (_ & _ & Hp).
  exists clock. unfold Views.satyo_raw. now rewrite Hp, fromhex_hex.
Qed.

Lemma satyo_persist_tracked_Ok observe sats (c : pyfloat) item f :
  Satyo.tracked observe sats item ->
  Satyo.persist c item f
  = Ok (Satyo.mkDisk (Satyo.BINARY_CORE_FILE f ++ Views.satyo_raw item)
          (Satyo.DATA_MATRIX_FILE f ++ [item])).
Proof.
  intros Ht. destruct (satyo_raw_tracked observe sats item Ht) as [clock Hraw].
  destruct Ht as (i & sat & now & clock' & self & self' & _ & _ & Hm).
  apply calculate_quantum_metrics_payload in Hm as (_ & _ & Hp).
  unfold Satyo.persist, Views.satyo_raw. rewrite Hp, fromhex_hex. reflexivity.
Qed.

Lemma length_flat_map_const {A B} (f : A -> list B) (n : nat) (l : list A) :
  Forall (fun x => length (f x) = n) l ->
  length (flat_map f l) = (n * length l)%nat.
Proof.
  induction 1 as [|x l Hx _ IH]; cbn [flat_map length]; [lia|].
  rewrite length_app, Hx, IH. lia.
Qed.

Lemma satlen_taken_tracked log10 observe sats sched :
  Forall (Satlen.tracked log10 observe sats)
    (Pipeline.persisted Satlen.swarm (Satlen.measure log10 observe)
       Satlen.prologue Satlen.persist sched (Satlen.start sats)).
Proof.
  exact (PipelineFacts.persisted_provenance _ _ _ _ _ _ _
           (satlen_measure_tracked log10 observe sats)
           (satlen_prologue_tracked log10 observe sats)
           (satlen_persist_tracked log10 observe sats) sched _
           (satlen_start_provenance log10 observe sats)).
Qed.

Lemma satyo_taken_tracked observe debug ghost sats sched :
  Forall (Satyo.tracked observe sats)
    (Pipeline.persisted Satyo.active_swarm (Satyo.calculate_quantum_metrics observe)
       Satyo.prologue Satyo.persist sched (Satyo.start debug ghost sats)).
Proof.
  exact (PipelineFacts.persisted_provenance _ _ _ _ _ _ _
           (satyo_measure_tracked observe sats)
           (satyo_prologue_tracked observe sats)
           (satyo_persist_tracked observe sats) sched _
           (satyo_start_provenance observe debug ghost sats)).
Qed.

(** ** The files of satlen.py *)

(** X1. In every execution of satlen.py: the binary log is the
    concatenation of the 28-byte packets of the samples the storage
    thread has taken from the bus, in that order; the JSON file is
    empty before the storage thread starts and then the opening bracket
    followed, for each sample taken, by its dump and a comma, never a
    closing bracket; the audit log names, in order, exactly the samples
    taken whose SNR is below 20. *)
Theorem satlen_files_hold_the_samples_taken
    (log10 : pyfloat -> result pyfloat)
    (observe : EarthSatellite -> Time -> result Fix)
    (sats : list EarthSatellite) (sched : list Pipeline.action) :
  let st := Satlen.run log10 observe sched (Satlen.start sats) in
  let taken := Pipeline.persisted Satlen.swarm (Satlen.measure log10 observe)
                 Satlen.prologue Satlen.persist sched (Satlen.start sats) in
  Satlen.BINARY_LOG (Pipeline.files st) = flat_map Satlen.binary_blob taken /\
  length (Satlen.BINARY_LOG (Pipeline.files st)) = (28 * length taken)%nat /\
  Satlen.JSON_STREAM (Pipeline.files st)
  = match Pipeline.storage st with
    | Pipeline.SStart => []
    | _ => Views.satlen_json taken
    end /\
  Views.warned (Satlen.RECOVERY_LOG (Pipeline.files st)) = Views.weak taken.
Proof.
  intros st taken.
  assert (Hall : Forall (fun _ : Satlen.telemetry => True) taken)
    by (apply Forall_forall; auto).
  assert (Hbin : Satlen.BINARY_LOG (Pipeline.files st) = flat_map Satlen.binary_blob taken).
  { unfold st, taken, Satlen.run.
    rewrite (PipelineMore.files_with_header Satlen.swarm (Satlen.measure log10 observe)
               Satlen.prologue Satlen.persist Satlen.BINARY_LOG (fun l => l)
               Satlen.binary_blob (fun _ => True)); try assumption.
    - cbn [Pipeline.storage Satlen.start Pipeline.boot Pipeline.files].
      destruct (Pipeline.storage _); reflexivity.
    - reflexivity.
    - intros c item f _. unfold Satlen.persist.
      destruct (flt _ _); eexists; split; reflexivity. }
  split; [exact Hbin|]. split.
  { rewrite Hbin. apply length_flat_map_const.
    eapply Forall_impl; [apply satlen_taken_tracked|].
    intros data (i & sat & now & clock & _ & _ & Hm).
    now apply perform_handshake_blob in Hm. }
  split.
  - unfold st, taken, Satlen.run.
    rewrite (PipelineMore.files_with_header Satlen.swarm (Satlen.measure log10 observe)
               Satlen.prologue Satlen.persist Satlen.JSON_STREAM
               (fun _ => [Satlen.Text ("[" +:+ newline)])
               (fun data => [Satlen.Dump data; Satlen.Text ("," +:+ newline)])
               (fun _ => True)); try assumption.
    + cbn [Pipeline.storage Satlen.start Pipeline.boot Pipeline.files].
      destruct (Pipeline.storage _) eqn:E; try reflexivity.
      cbn. 
      now rewrite (PipelineMore.persisted_before_start _ _ _ _ sched _ E).
    + reflexivity.
    + intros c item f _. unfold Satlen.persist.
      destruct (flt _ _); eexists; split; reflexivity.
  - unfold st, taken, Satlen.run.
    rewrite (PipelineMore.files_with_header Satlen.swarm (Satlen.measure log10 observe)
               Satlen.prologue Satlen.persist
               (fun d => Views.warned (Satlen.RECOVERY_LOG d)) (fun l => l)
               (fun data => if flt (Satlen.snr data) (of_Z 20)
                            then [(Satlen.node_id data, Satlen.snr data)] else [])
               (fun _ => True)); try assumption.
    + cbn [Pipeline.storage Satlen.start Pipeline.boot Pipeline.files].
      destruct (Pipeline.storage _); reflexivity.
    + reflexivity.
    + intros c item f _. unfold Satlen.persist, Views.warned.
      destruct (flt _ _); eexists; (split; [reflexivity|]); cbn.
      * now rewrite map_app.
      * now rewrite app_nil_r.
Qed.

(** ** The files of satyo.py *)


(** ** Shutdown and idle runs *)

Module PipelineShutdown.
Import Pipeline.

Section Shutdown.
Context {T K F : Type}.
Variable swarm_of : K -> list EarthSatellite.
Variable measure : K -> EarthSatellite -> Time -> pyfloat -> result (T * K).
Variable prologue : F -> F.
Variable persist : pyfloat -> T -> F -> result F.

Abbreviation step := (step swarm_of measure prologue persist).
Abbreviation run := (run swarm_of measure prologue persist).
Abbreviation persisted := (persisted swarm_of measure prologue persist).
Abbreviation accepted := (accepted swarm_of measure prologue persist).

(** Once the event is set the storage thread takes at most one more
    item, and only when it is already inside [get]. *)
Lemma persisted_after_event sched st :
  event st = true ->
  (length (persisted sched st) <= match storage st with SGet => 1 | _ => 0 end)%nat.
Proof.
  revert st. induction sched as [|a sched IH]; intros st Hev.
  { cbn. destruct (storage st); lia. }
  specialize (IH (step a st) (PipelineMore.step_event_set _ _ _ _ a st Hev)).
  rewrite PipelineMore.persisted_cons, length_app.
  destruct st as [[ms its] ev k f h s]. cbn [event storage bus] in *. subst ev.
  destruct a as [now clock | clock | |].
  - assert (Hs : storage (step (Harvest now clock)
                   (mkSystem (Queue.mk ms its) true k f h s)) = s).
    { cbn. unfold harvest_step; cbn.
      repeat (PipelineFacts.case_inner; cbn); reflexivity. }
    rewrite Hs in IH. cbn [length]. lia.
  - destruct s; cbn in IH |- *; unfold store_step in IH; cbn in IH; try lia.
    unfold Queue.get in *. cbn in *.
    destruct its as [|x its]; cbn in *; [exact IH|].
    destruct (persist clock x f); cbn in IH |- *; apply le_n_S; exact IH.
  - cbn [length Nat.add]. revert IH. cbn. unfold timeout_step, Queue.get. cbn.
    destruct s, its; cbn; intros IH; first [exact IH | apply le_S; exact IH].
  - cbn [length]. exact IH.
Qed.

(** The event is set by the interrupt and by nothing else. *)
Lemma event_iff_interrupt sched : forall st,
  event (run sched st) = true <-> event st = true \/ Interrupt ∈ sched.
Proof.
  induction sched as [|a sched IH]; intros st.
  - cbn. split; [auto | intros [H|H]; [exact H | inversion H]].
  - rewrite PipelineFacts.run_cons, IH. rewrite elem_of_cons.
    assert (Hstep : event (step a st) = true <-> event st = true \/ Interrupt = a).
    { PipelineFacts.step_cases st a; cbn; split; auto; intros [H|H]; congruence. }
    rewrite Hstep. tauto.
Qed.

(** A thread leaves its loop only when it finds the event set. *)
Lemma returned_only_after_event sched st :
  (harvester st = HReturned -> event st = true) ->
  (storage st = SReturned -> event st = true) ->
  (harvester (run sched st) = HReturned -> event (run sched st) = true) /\
  (storage (run sched st) = SReturned -> event (run sched st) = true).
Proof.
  intros Hh Hs.
  apply (PipelineFacts.run_invariant swarm_of measure prologue persist
           (fun s => (harvester s = HReturned -> event s = true) /\
                     (storage s = SReturned -> event s = true))); [|auto].
  clear. intros a st. PipelineFacts.step_cases st a; cbn; intros [H1 H2];
    split; intros; auto; congruence.
Qed.

(** With an empty swarm the harvester only goes round its outer loop:
    nothing is measured, put on the bus or taken from it, and the files
    are touched by the prologue only. *)
Lemma empty_swarm_idle sched : forall st,
  swarm_of (kernel st) = [] -> Queue.items (bus st) = [] ->
  match harvester st with HTest | HFor _ [] | HReturned => True | _ => False end ->
  kernel (run sched st) = kernel st /\
  Queue.items (bus (run sched st)) = [] /\
  match harvester (run sched st) with
  | HTest | HFor _ [] | HReturned => True
  | _ => False
  end /\
  persisted sched st = [] /\
  accepted sched st = [] /\
  files (run sched st) = match storage st, storage (run sched st) with
                         | SStart, SStart => files st
                         | SStart, _ => prologue (files st)
                         | _, _ => files st
                         end.
Proof.
  induction sched as [|a sched IH]; intros st Hsw Hbus Hh.
  - cbn. repeat split; auto. destruct (storage st); reflexivity.
  - rewrite PipelineFacts.run_cons.
    assert (Hstep : kernel (step a st) = kernel st /\
                    Queue.items (bus (step a st)) = [] /\
                    match harvester (step a st) with
                    | HTest | HFor _ [] | HReturned => True
                    | _ => False
                    end /\
                    persisted [a] st = [] /\ accepted [a] st = [] /\
                    files (step a st) = match storage st, storage (step a st) with
                                        | SStart, SStart => files st
                                        | SStart, _ => prologue (files st)
                                        | _, _ => files st
                                        end /\
                    (storage st <> SStart -> storage (step a st) <> SStart)).
    { clear IH. destruct st as [[ms its] ev k f h s]. cbn in Hsw, Hbus, Hh. subst its.
      destruct a as [now clock | clock | |]; cbn;
        unfold harvest_step, store_step, timeout_step, Queue.get; cbn.
      - destruct h as [| t [|sat rest] | t item rest | |]; try contradiction; cbn.
        + destruct ev; cbn; rewrite ?Hsw; repeat split; auto; destruct s; auto.
        + repeat split; auto; destruct s; auto.
        + repeat split; auto; destruct s; auto.
      - destruct s; cbn; try (destruct ev; cbn); repeat split; auto; congruence.
      - destruct s; cbn; repeat split; auto; congruence.
      - repeat split; auto; destruct s; auto. }
    destruct Hstep as (Hk & Hb & Hh' & Hp & Ha & Hf & Hst).
    destruct (IH (step a st)) as (IHk & IHb & IHh & IHp & IHa & IHf);
      [congruence | exact Hb | exact Hh' |].
    split; [congruence|]. split; [exact IHb|]. split; [exact IHh|].
    split.
    { rewrite PipelineMore.persisted_cons, IHp, app_nil_r.
      rewrite PipelineMore.persisted_cons in Hp. cbn in Hp.
      now rewrite app_nil_r in Hp. }
    split.
    { revert Ha. cbn [Pipeline.accepted]. rewrite IHa.
      destruct a; auto. }
    rewrite IHf, Hf.
    pose proof (PipelineMore.run_storage_started swarm_of measure prologue persist
                  sched (step a st)) as Hrun.
    destruct (storage st) eqn:E0; destruct (storage (step a st)) eqn:E1;
      try reflexivity;
      try (exfalso; apply Hst; [discriminate | reflexivity]);
      destruct (storage (run sched (step a st))) eqn:E2; try reflexivity;
      (exfalso; apply Hrun; [discriminate | first [exact E2 | reflexivity]]).
Qed.

Section Kernel.
Variable Kinv : K -> Prop.
Variable good : T -> Prop.
Hypothesis measure_good : forall k sat now clock item k',
  Kinv k -> measure k sat now clock = Ok (item, k') -> good item /\ Kinv k'.

Lemma step_good a st :
  Kinv (kernel st) /\ Forall good (Queue.items (bus st)) /\
  match harvester st with HPut _ item _ => good item | _ => True end ->
  (Kinv (kernel (step a st)) /\ Forall good (Queue.items (bus (step a st))) /\
   match harvester (step a st) with HPut _ item _ => good item | _ => True end) /\
  Forall good (persisted [a] st).
Proof using measure_good.
  destruct st as [[ms its] ev k f h s]. cbn [kernel bus harvester Queue.items].
  intros (Hk & Hb & Hh).
  destruct a as [now clock | clock | |]; cbn;
    unfold harvest_step, store_step, timeout_step, Queue.get, Queue.put; cbn.
  - split; [|constructor].
    destruct h as [| t [|sat rest] | t item rest | |]; cbn; auto.
    + destruct ev; cbn; auto.
    + destruct (measure k sat t clock) as [[item k']|e] eqn:E; cbn; auto.
      destruct (measure_good _ _ _ _ _ _ Hk E); auto.
    + destruct (Queue.full _); cbn; auto.
      repeat split; auto. apply Forall_app; split; auto.
  - destruct s; cbn; try (split; [auto | constructor]).
    + destruct ev; cbn; auto.
    + destruct its as [|x its]; cbn; [split; [auto | constructor]|].
      inversion Hb; subst.
      destruct (persist clock x f); cbn; repeat split; auto.
  - split; [|constructor]. destruct s, its; cbn; auto.
  - split; [auto | constructor].
Qed.

(** When every measurement made in a state of the harvester that
    satisfies [Kinv] gives a [good] item and keeps [Kinv], every item on
    the bus and every item handed to the storage code is [good]. *)
Lemma run_good sched : forall st,
  Kinv (kernel st) -> Forall good (Queue.items (bus st)) ->
  match harvester st with HPut _ item _ => good item | _ => True end ->
  Kinv (kernel (run sched st)) /\
  Forall good (Queue.items (bus (run sched st))) /\
  Forall good (persisted sched st).
Proof using measure_good.
  induction sched as [|a sched IH]; intros st Hk Hb Hh.
  - cbn. repeat split; auto.
  - rewrite PipelineFacts.run_cons, PipelineMore.persisted_cons.
    destruct (step_good a st) as ((Hk' & Hb' & Hh') & Hp); [auto|].
    destruct (IH (step a st) Hk' Hb' Hh') as (IHk & IHb & IHp).
    repeat split; auto. apply Forall_app. split; [|exact IHp].
    rewrite PipelineMore.persisted_cons in Hp. cbn [Pipeline.persisted] in Hp.
    now rewrite app_nil_r in Hp.
Qed.

End Kernel.

End Shutdown.
End PipelineShutdown.

(** ** Whole executions of the two scripts *)

Lemma satyo_json_is_taken observe debug ghost_trace sats sched :
  Satyo.DATA_MATRIX_FILE
    (Pipeline.files (Satyo.run observe sched (Satyo.start debug ghost_trace sats)))
  = Pipeline.persisted Satyo.active_swarm (Satyo.calculate_quantum_metrics observe)
      Satyo.prologue Satyo.persist sched (Satyo.start debug ghost_trace sats).
Proof.
  unfold Satyo.run.
  rewrite (PipelineMore.files_with_header Satyo.active_swarm
             (Satyo.calculate_quantum_metrics observe)
             Satyo.prologue Satyo.persist Satyo.DATA_MATRIX_FILE
             (fun l => l) (fun item => [item])
             (Satyo.tracked observe sats)).
  - cbn [Pipeline.storage Satyo.start Pipeline.boot Pipeline.files].
    assert (Hid : forall l : list Satyo.telemetry, flat_map (fun item => [item]) l = l).
    { induction l as [|x l IH]; cbn; congruence. }
    rewrite Hid. destruct (Pipeline.storage _); reflexivity.
  - reflexivity.
  - intros c item f Hitem. eexists. split.
    + apply (satyo_persist_tracked_Ok observe sats c item f Hitem).
    + reflexivity.
  - apply satyo_taken_tracked.
Qed.


(** X4. In both scripts, whatever the state in which the shutdown event
    is set: the harvester starts no new cycle, it makes at most the puts
    left in the cycle it is in; the storage thread takes at most one
    more sample from the bus, and none unless it is already waiting in
    [get]. *)
Theorem shutdown_bounds_further_work
    (log10 : pyfloat -> result pyfloat)
    (observe : EarthSatellite -> Time -> result Fix)
    (q : Queue.t Satlen.telemetry) (k : Satlen.SatelliteKernel) (f : Satlen.disk)
    (h : Pipeline.hpc Satlen.telemetry) (s : Pipeline.spc)
    (q' : Queue.t Satyo.telemetry) (k' : Satyo.IntelligenceKernel) (f' : Satyo.disk)
    (h' : Pipeline.hpc Satyo.telemetry) (s' : Pipeline.spc)
    (sched : list Pipeline.action) :
  let st := Pipeline.mkSystem q true k f h s in
  let st' := Pipeline.mkSystem q' true k' f' h' s' in
  ((length (Pipeline.accepted Satlen.swarm (Satlen.measure log10 observe)
              Satlen.prologue Satlen.persist sched st) <= Cycle.pending h)%nat /\
   (length (Pipeline.persisted Satlen.swarm (Satlen.measure log10 observe)
              Satlen.prologue Satlen.persist sched st)
    <= match s with Pipeline.SGet => 1 | _ => 0 end)%nat) /\
  ((length (Pipeline.accepted Satyo.active_swarm
              (Satyo.calculate_quantum_metrics observe)
              Satyo.prologue Satyo.persist sched st') <= Cycle.pending h')%nat /\
   (length (Pipeline.persisted Satyo.active_swarm
              (Satyo.calculate_quantum_metrics observe)
              Satyo.prologue Satyo.persist sched st')
    <= match s' with Pipeline.SGet => 1 | _ => 0 end)%nat).
Proof.
  intros st st'. repeat split.
  - exact (PipelineMore.accepted_after_event _ _ _ _ sched st eq_refl).
  - exact (PipelineShutdown.persisted_after_event _ _ _ _ sched st eq_refl).
  - exact (PipelineMore.accepted_after_event _ _ _ _ sched st' eq_refl).
  - exact (PipelineShutdown.persisted_after_event _ _ _ _ sched st' eq_refl).
Qed.


(** X6. With an empty catalog both scripts still launch their threads,
    and in every execution nothing is measured, put on the bus or taken
    from it: the harvester only goes round its outer loop and the files
    hold what the prologue wrote, the opening bracket in satlen.py and
    the header in satyo.py; the ghost vault stays empty. *)
Theorem empty_catalog_samples_nothing
    (log10 : pyfloat -> result pyfloat)
    (observe : EarthSatellite -> Time -> result Fix)
    (debug ghost_trace : bool) (sched : list Pipeline.action) :
  let st := Satlen.run log10 observe sched (Satlen.start []) in
  let st' := Satyo.run observe sched (Satyo.start debug ghost_trace []) in
  (Satlen.main (Ok []) = Launched (Satlen.start []) /\
   Queue.items (Pipeline.bus st) = [] /\
   match Pipeline.harvester st with
   | Pipeline.HTest | Pipeline.HFor _ [] | Pipeline.HReturned => True
   | _ => False
   end /\
   Pipeline.files st = match Pipeline.storage st with
                       | Pipeline.SStart => Satlen.clean_disk
                       | _ => Satlen.mkDisk [] [Satlen.Text ("[" +:+ newline)] []
                       end) /\
  (Satyo.main debug ghost_trace (Ok []) = Launched (Satyo.start debug ghost_trace []) /\
   Queue.items (Pipeline.bus st') = [] /\
   match Pipeline.harvester st' with
   | Pipeline.HTest | Pipeline.HFor _ [] | Pipeline.HReturned => True
   | _ => False
   end /\
   Pipeline.files st' = match Pipeline.storage st' with
                        | Pipeline.SStart => Satyo.clean_disk
                        | _ => Satyo.mkDisk Views.satyo_header []
                        end /\
   Satyo.ghost_vault (Pipeline.kernel st') = ∅).
Proof.
  intros st st'. split.
  - destruct (PipelineShutdown.empty_swarm_idle Satlen.swarm
                (Satlen.measure log10 observe) Satlen.prologue Satlen.persist
                sched (Satlen.start [])) as (_ & Hb & Hh & _ & _ & Hf);
      [reflexivity | reflexivity | exact I |].
    split; [reflexivity|]. split; [exact Hb|]. split; [exact Hh|].
    unfold st, Satlen.run. rewrite Hf. cbn [Pipeline.storage Satlen.start Pipeline.boot].
    destruct (Pipeline.storage _); reflexivity.
  - destruct (PipelineShutdown.empty_swarm_idle Satyo.active_swarm
                (Satyo.calculate_quantum_metrics observe) Satyo.prologue Satyo.persist
                sched (Satyo.start debug ghost_trace [])) as (Hk & Hb & Hh & _ & _ & Hf);
      [reflexivity | reflexivity | exact I |].
    split; [reflexivity|]. split; [exact Hb|]. split; [exact Hh|]. split.
    + unfold st', Satyo.run. rewrite Hf.
      cbn [Pipeline.storage Satyo.start Pipeline.boot].
      destruct (Pipeline.storage _); reflexivity.
    + unfold st', Satyo.run. rewrite Hk. reflexivity.
Qed.

(** ** A producer left alone *)

(** X7. In satlen.py, once the storage thread has ended, a harvester
    that is inside [put] on the full bus never leaves it: in every
    continuation it is still there with the same sample, the bus and the
    files are unchanged.  (The bus of satyo.py has no bound and is never
    full.) *)
Theorem full_bus_strands_the_harvester
    (log10 : pyfloat -> result pyfloat)
    (observe : EarthSatellite -> Time -> result Fix)
    (st : Satlen.system) (t : Time) (item : Satlen.telemetry)
    (rest : list EarthSatellite) (sched : list Pipeline.action) :
  Pipeline.storage_ended st ->
  Pipeline.harvester st = Pipeline.HPut t item rest ->
  Queue.full (Pipeline.bus st) = true ->
  let st1 := Satlen.run log10 observe sched st in
  Pipeline.harvester st1 = Pipeline.HPut t item rest /\
  Pipeline.bus st1 = Pipeline.bus st /\
  Pipeline.files st1 = Pipeline.files st /\
  Pipeline.storage st1 = Pipeline.storage st.
Proof.
  intros Hs Hh Hfull st1.
  destruct (PipelineMore.put_blocked_forever Satlen.swarm (Satlen.measure log10 observe)
              Satlen.prologue Satlen.persist sched st t item rest Hs Hh Hfull)
    as [H1 H2].
  destruct (PipelineFacts.run_storage_ended Satlen.swarm (Satlen.measure log10 observe)
              Satlen.prologue Satlen.persist sched st Hs) as (H3 & H4 & _).
  repeat split; assumption.
Qed.

Lemma full_bus_strands_the_harvester_witness :
  let st := Satlen.run Scenario.log10 Scenario.observe
              (Scenario.harvest_only 4002
               ++ [Pipeline.Interrupt; Pipeline.Store Scenario.clock0;
                   Pipeline.Store Scenario.clock0])
              (Satlen.start [Scenario.iss]) in
  let st1 := Satlen.run Scenario.log10 Scenario.observe
               (Scenario.harvest_only 5 ++ [Pipeline.Timeout; Pipeline.Store Scenario.clock0])
               st in
  Queue.qsize (Pipeline.bus st) = 1000%nat /\
  Pipeline.storage st = Pipeline.SReturned /\
  Pipeline.bus st1 = Pipeline.bus st /\
  Pipeline.files st1 = Pipeline.files st.
Proof.
  intros st st1.
  assert (Hput : exists item, Pipeline.harvester st = Pipeline.HPut Scenario.t0 item []).
  { eexists. vm_compute. reflexivity. }
  destruct Hput as [item Hput].
  assert (Hs : Pipeline.storage st = Pipeline.SReturned) by (vm_compute; reflexivity).
  destruct (full_bus_strands_the_harvester Scenario.log10 Scenario.observe st
              Scenario.t0 item []
              (Scenario.harvest_only 5 ++ [Pipeline.Timeout; Pipeline.Store Scenario.clock0]))
    as (_ & H2 & H3 & _).
  - unfold Pipeline.storage_ended. rewrite Hs. exact I.
  - exact Hput.
  - vm_compute. reflexivity.
  - split; [vm_compute; reflexivity|]. split; [exact Hs|]. split; [exact H2 | exact H3].
Defined.

(** ** One cycle of the harvester *)

Lemma satlen_measure_all_ids log10 observe now clock rest : forall k items k',
  Cycle.measure_all (Satlen.measure log10 observe) k rest now clock = Ok (items, k') ->
  k' = k /\
  map Satlen.node_id items = map satnum rest /\
  map Satlen.node_name items = map name rest.
Proof.
  induction rest as [|sat rest IH]; intros k items k' H; cbn in H.
  - injection H as <- <-. auto.
  - unfold Satlen.measure at 1 in H.
    destruct (Satlen.perform_handshake log10 observe sat now clock) as [data|] eqn:E;
      cbn [mbind result_bind Py.bind] in H; [|discriminate].
    destruct (Cycle.measure_all _ k rest now clock) as [[items1 k1]|] eqn:E1;
      [|discriminate].
    injection H as <- <-.
    destruct (IH _ _ _ E1) as (-> & Hid & Hname).
    apply perform_handshake_blob in E as (Ei & En & _).
    cbn [map]. rewrite Ei, En, Hid, Hname. auto.
Qed.

Lemma satyo_measure_all_ids observe now clock rest : forall k items k',
  Cycle.measure_all (Satyo.calculate_quantum_metrics observe) k rest now clock
  = Ok (items, k') ->
  map Satyo.id items = map satnum rest /\
  map Satyo.node items = map name rest.
Proof.
  induction rest as [|sat rest IH]; intros k items k' H; cbn in H.
  - injection H as <- <-. auto.
  - destruct (Satyo.calculate_quantum_metrics observe k sat now clock)
      as [[item k1]|] eqn:E; [|discriminate].
    destruct (Cycle.measure_all _ k1 rest now clock) as [[items1 k2]|] eqn:E1;
      [|discriminate].
    injection H as <- <-.
    destruct (IH _ _ _ E1) as (Hid & Hname).
    apply calculate_quantum_metrics_payload in E as (Ei & En & _).
    cbn [map]. rewrite Ei, En, Hid, Hname. auto.
Qed.

(** X8. In satlen.py, a harvester at its loop test with the event clear,
    whose measurements all succeed and for whose swarm the bus has room,
    completes the cycle in one step per loop test, measurement and put:
    the bus gains one sample per object of the swarm, in the order of
    the swarm and with its identifier and name, and nothing else
    changes. *)
Theorem satlen_cycle_puts_the_swarm_in_order
    (log10 : pyfloat -> result pyfloat)
    (observe : EarthSatellite -> Time -> result Fix)
    (st : Satlen.system) (now : Time) (clock : pyfloat)
    (items : list Satlen.telemetry) (k' : Satlen.SatelliteKernel) :
  Pipeline.harvester st = Pipeline.HTest ->
  Pipeline.event st = false ->
  Cycle.measure_all (Satlen.measure log10 observe) (Pipeline.kernel st)
    (Satlen.swarm (Pipeline.kernel st)) now clock = Ok (items, k') ->
  Queue.maxsize (Pipeline.bus st) = Satlen.telemetry_bus_maxsize ->
  (Queue.qsize (Pipeline.bus st) + length (Satlen.swarm (Pipeline.kernel st)) <= 1000)%nat ->
  Satlen.run log10 observe
    (repeat (Pipeline.Harvest now clock)
       (1 + 2 * length (Satlen.swarm (Pipeline.kernel st)))) st
  = Pipeline.mkSystem
      (Queue.mk 1000 (Queue.items (Pipeline.bus st) ++ items))
      false (Pipeline.kernel st) (Pipeline.files st) (Pipeline.HFor now [])
      (Pipeline.storage st) /\
  map Satlen.node_id items = map satnum (Satlen.swarm (Pipeline.kernel st)) /\
  map Satlen.node_name items = map name (Satlen.swarm (Pipeline.kernel st)).
Proof.
  intros Hh Hev Hm Hmax Hroom.
  destruct (satlen_measure_all_ids _ _ _ _ _ _ _ _ Hm) as (-> & Hid & Hname).
  split; [|auto].
  cbn [Nat.add repeat]. unfold Satlen.run. rewrite PipelineFacts.run_cons.
  assert (E : Pipeline.step Satlen.swarm (Satlen.measure log10 observe) Satlen.prologue
                Satlen.persist (Pipeline.Harvest now clock) st
              = Pipeline.mkSystem (Pipeline.bus st) false (Pipeline.kernel st)
                  (Pipeline.files st)
                  (Pipeline.HFor now (Satlen.swarm (Pipeline.kernel st)))
                  (Pipeline.storage st)).
  { cbn. unfold Pipeline.harvest_step. now rewrite Hh, Hev. }
  rewrite E.
  rewrite (PipelineMore.cycle_completes Satlen.swarm (Satlen.measure log10 observe)
             Satlen.prologue Satlen.persist now clock now
             (Satlen.swarm (Pipeline.kernel st)) _ items (Pipeline.kernel st));
    cbn [Pipeline.harvester Pipeline.kernel Pipeline.bus Pipeline.event Pipeline.files
         Pipeline.storage].
  - now rewrite Hmax.
  - reflexivity.
  - exact Hm.
  - right. rewrite Hmax. unfold Satlen.telemetry_bus_maxsize. lia.
Qed.

Lemma satlen_cycle_puts_the_swarm_in_order_witness :
  map Satlen.node_id
    (Queue.items (Pipeline.bus
       (Satlen.run Scenario.log10 Scenario.observe
          (repeat (Pipeline.Harvest Scenario.t0 Scenario.clock0) 5)
          (Satlen.start [Scenario.iss; Scenario.hubble]))))
  = [25544; 20580].
Proof.
  assert (Hm : exists items,
             Cycle.measure_all (Satlen.measure Scenario.log10 Scenario.observe)
               (Pipeline.kernel (Satlen.start [Scenario.iss; Scenario.hubble]))
               (Satlen.swarm (Pipeline.kernel (Satlen.start [Scenario.iss; Scenario.hubble])))
               Scenario.t0 Scenario.clock0
             = Ok (items, Pipeline.kernel (Satlen.start [Scenario.iss; Scenario.hubble]))).
  { eexists. vm_compute. reflexivity. }
  destruct Hm as [items Hm].
  destruct (satlen_cycle_puts_the_swarm_in_order Scenario.log10 Scenario.observe
              (Satlen.start [Scenario.iss; Scenario.hubble]) Scenario.t0 Scenario.clock0
              items _ eq_refl eq_refl Hm eq_refl) as (Hrun & Hid & _).
  - cbn. lia.
  - change (1 + 2 * length (Satlen.swarm
              (Pipeline.kernel (Satlen.start [Scenario.iss; Scenario.hubble]))))%nat
      with 5%nat in Hrun.
    rewrite Hrun. cbn [Pipeline.bus Queue.items Satlen.start Pipeline.boot Queue.new app].
    exact Hid.
Defined.

(** X9. In satyo.py, whose bus has no bound, a harvester at its loop
    test with the event clear and whose measurements all succeed
    completes the cycle whatever the bus holds: the bus gains one sample
    per object of the swarm, in the order of the swarm and with its
    identifier and name, and the kernel is the one the measurements
    leave. *)
Theorem satyo_cycle_puts_the_swarm_in_order
    (observe : EarthSatellite -> Time -> result Fix)
    (st : Satyo.system) (now : Time) (clock : pyfloat)
    (items : list Satyo.telemetry) (k' : Satyo.IntelligenceKernel) :
  Pipeline.harvester st = Pipeline.HTest ->
  Pipeline.event st = false ->
  Cycle.measure_all (Satyo.calculate_quantum_metrics observe) (Pipeline.kernel st)
    (Satyo.active_swarm (Pipeline.kernel st)) now clock = Ok (items, k') ->
  Queue.maxsize (Pipeline.bus st) = Satyo.telemetry_queue_maxsize ->
  Satyo.run observe
    (repeat (Pipeline.Harvest now clock)
       (1 + 2 * length (Satyo.active_swarm (Pipeline.kernel st)))) st
  = Pipeline.mkSystem
      (Queue.mk 0 (Queue.items (Pipeline.bus st) ++ items))
      false k' (Pipeline.files st) (Pipeline.HFor now [])
      (Pipeline.storage st) /\
  map Satyo.id items = map satnum (Satyo.active_swarm (Pipeline.kernel st)) /\
  map Satyo.node items = map name (Satyo.active_swarm (Pipeline.kernel st)).
Proof.
  intros Hh Hev Hm Hmax.
  destruct (satyo_measure_all_ids _ _ _ _ _ _ _ Hm) as (Hid & Hname).
  split; [|auto].
  cbn [Nat.add repeat]. unfold Satyo.run. rewrite PipelineFacts.run_cons.
  assert (E : Pipeline.step Satyo.active_swarm (Satyo.calculate_quantum_metrics observe)
                Satyo.prologue Satyo.persist (Pipeline.Harvest now clock) st
              = Pipeline.mkSystem (Pipeline.bus st) false (Pipeline.kernel st)
                  (Pipeline.files st)
                  (Pipeline.HFor now (Satyo.active_swarm (Pipeline.kernel st)))
                  (Pipeline.storage st)).
  { cbn. unfold Pipeline.harvest_step. now rewrite Hh, Hev. }
  rewrite E.
  rewrite (PipelineMore.cycle_completes Satyo.active_swarm
             (Satyo.calculate_quantum_metrics observe)
             Satyo.prologue Satyo.persist now clock now
             (Satyo.active_swarm (Pipeline.kernel st)) _ items k');
    cbn [Pipeline.harvester Pipeline.kernel Pipeline.bus Pipeline.event Pipeline.files
         Pipeline.storage].
  - now rewrite Hmax.
  - reflexivity.
  - exact Hm.
  - left. rewrite Hmax. unfold Satyo.telemetry_queue_maxsize. lia.
Qed.

Lemma satyo_cycle_puts_the_swarm_in_order_witness :
  map Satyo.id
    (Queue.items (Pipeline.bus
       (Satyo.run Scenario.observe
          (repeat (Pipeline.Harvest Scenario.t0 Scenario.clock0) 5)
          (Satyo.start false true [Scenario.iss; Scenario.hubble]))))
  = [25544; 20580].
Proof.
  assert (Hm : exists items k',
             Cycle.measure_all (Satyo.calculate_quantum_metrics Scenario.observe)
               (Pipeline.kernel (Satyo.start false true [Scenario.iss; Scenario.hubble]))
               (Satyo.active_swarm
                  (Pipeline.kernel (Satyo.start false true [Scenario.iss; Scenario.hubble])))
               Scenario.t0 Scenario.clock0
             = Ok (items, k')).
  { eexists _, _. vm_compute. reflexivity. }
  destruct Hm as (items & k' & Hm).
  destruct (satyo_cycle_puts_the_swarm_in_order Scenario.observe
              (Satyo.start false true [Scenario.iss; Scenario.hubble])
              Scenario.t0 Scenario.clock0
              items k' eq_refl eq_refl Hm eq_refl) as (Hrun & Hid & _).
  change (1 + 2 * length (Satyo.active_swarm
            (Pipeline.kernel (Satyo.start false true [Scenario.iss; Scenario.hubble]))))%nat
    with 5%nat in Hrun.
  rewrite Hrun. cbn [Pipeline.bus Queue.items Satyo.start Pipeline.boot Queue.new app].
  exact Hid.
Defined.

(** ** The ghost trace as a window *)

Lemma last_n_app_last_n {A} (n : nat) (l l' : list A) :
  Views.last_n n (Views.last_n n l ++ l') = Views.last_n n (l ++ l').
Proof.
  unfold Views.last_n. rewrite !length_app, length_drop.
  destruct (Nat.le_gt_cases (length l) n) as [Hle|Hgt].
  - replace (length l - n)%nat with 0%nat by lia. cbn [drop].
    now rewrite Nat.sub_0_r.
  - rewrite <- (drop_app_le l l' (length l - n)) by lia.
    rewrite drop_drop. f_equal. lia.
Qed.

Lemma ghost_append_trace vault key point :
  (length (default [] (vault !! key)) <= Satyo.GHOST_TRACE_BUFFER)%nat ->
  default [] (Satyo.ghost_append vault key point !! key)
  = Views.last_n Satyo.GHOST_TRACE_BUFFER (default [] (vault !! key) ++ [point]).
Proof.
  intros Hb. rewrite ghost_append_lookup.
  destruct (decide (key = key)) as [_|Hne]; [|congruence].
  cbn [default]. cbv zeta. unfold Views.last_n.
  set (old := default [] (vault !! key)) in *.
  rewrite length_app. cbn [length].
  destruct (Nat.ltb_spec Satyo.GHOST_TRACE_BUFFER (length old + 1)) as [Hlt|Hge].
  - replace (length old + 1 - Satyo.GHOST_TRACE_BUFFER)%nat with 1%nat by lia.
    reflexivity.
  - replace (length old + 1 - Satyo.GHOST_TRACE_BUFFER)%nat with 0%nat by lia.
    reflexivity.
Qed.

(** X10. The ghost trace of an object is a sliding window: after any
    number of appends for that object, starting from a trace of at most
    [GHOST_TRACE_BUFFER] = 50 points, the trace holds the last 50 of the
    old points followed by the appended ones, oldest first; the traces
    of the other objects are untouched. *)
Theorem ghost_trace_is_a_sliding_window
    (vault : gmap string (list (pyfloat * pyfloat))) (key : string)
    (points : list (pyfloat * pyfloat)) :
  (length (default [] (vault !! key)) <= Satyo.GHOST_TRACE_BUFFER)%nat ->
  let vault' := fold_left (fun v p => Satyo.ghost_append v key p) points vault in
  default [] (vault' !! key)
  = Views.last_n Satyo.GHOST_TRACE_BUFFER (default [] (vault !! key) ++ points) /\
  forall k, k <> key -> vault' !! k = vault !! k.
Proof.
  revert vault. induction points as [|p points IH]; intros vault Hb vault'.
  - cbn in vault'. subst vault'. split; [|reflexivity].
    rewrite app_nil_r. unfold Views.last_n.
    replace (length (default [] (vault !! key)) - Satyo.GHOST_TRACE_BUFFER)%nat
      with 0%nat by lia.
    reflexivity.
  - cbn [fold_left] in vault'.
    assert (Hb' : (length (default [] (Satyo.ghost_append vault key p !! key))
                   <= Satyo.GHOST_TRACE_BUFFER)%nat).
    { rewrite ghost_append_trace by exact Hb. unfold Views.last_n.
      rewrite length_drop, length_app. cbn [length]. lia. }
    destruct (IH (Satyo.ghost_append vault key p) Hb') as [Ht Ho].
    fold vault' in Ht, Ho. split.
    + rewrite Ht, ghost_append_trace by exact Hb.
      rewrite last_n_app_last_n, <- app_assoc. reflexivity.
    + intros k Hk. rewrite (Ho k Hk), ghost_append_lookup.
      destruct (decide (k = key)); [contradiction | reflexivity].
Qed.

Lemma ghost_trace_is_a_sliding_window_witness :
  default [] (fold_left (fun v p => Satyo.ghost_append v "ISS (ZARYA)" p)
                [(of_Z 1, of_Z 2); (of_Z 3, of_Z 4)] ∅ !! "ISS (ZARYA)"%string)
  = [(of_Z 1, of_Z 2); (of_Z 3, of_Z 4)].
Proof.
  destruct (ghost_trace_is_a_sliding_window ∅ "ISS (ZARYA)"
              [(of_Z 1, of_Z 2); (of_Z 3, of_Z 4)]) as [H _].
  - vm_compute. lia.
  - rewrite H. vm_compute. reflexivity.
Defined.

(** ** The ghost points of a sample *)

Lemma calculate_quantum_metrics_ghost observe self sat now clock item self' :
  Satyo.calculate_quantum_metrics observe self sat now clock = Ok (item, self') ->
  Satyo.debug self' = Satyo.debug self /\
  Satyo.ghost_enabled self' = Satyo.ghost_enabled self /\
  Satyo.active_swarm self' = Satyo.active_swarm self /\
  Satyo.ghost_points item = length (default [] (Satyo.ghost_vault self' !! name sat)) /\
  Satyo.ghost_vault self'
  = if Satyo.ghost_enabled self
    then Satyo.ghost_append (Satyo.ghost_vault self) (name sat)
           (Satyo.lat item, Satyo.lon item)
    else Satyo.ghost_vault self.
Proof.
  unfold Satyo.calculate_quantum_metrics.
  destruct (observe sat now) as [fx|]; cbn [mbind result_bind Py.bind]; [|discriminate].
  destruct (Satyo.binary_packet sat fx clock) as [packet|];
    cbn [mbind result_bind Py.bind]; [|discriminate].
  intros [= <- <-]. cbn. auto.
Qed.

(** X11. After a call of [calculate_quantum_metrics] that returns, the
    flags and the swarm of the kernel are as before and [ghost_points]
    is the length of the object's trace after the call.  With ghost
    tracing on and the trace within its bound, the trace is the last 50
    points of the old trace followed by the subpoint of the sample, which
    is its last point, so [ghost_points] is between 1 and 50, and the
    other traces are untouched; with ghost tracing off the vault is
    untouched. *)
Theorem calculate_quantum_metrics_extends_one_trace
    (observe : EarthSatellite -> Time -> result Fix)
    (self self' : Satyo.IntelligenceKernel) (sat : EarthSatellite)
    (now : Time) (clock : pyfloat) (item : Satyo.telemetry) :
  Satyo.calculate_quantum_metrics observe self sat now clock = Ok (item, self') ->
  (length (default [] (Satyo.ghost_vault self !! name sat))
   <= Satyo.GHOST_TRACE_BUFFER)%nat ->
  let old := default [] (Satyo.ghost_vault self !! name sat) in
  let new := default [] (Satyo.ghost_vault self' !! name sat) in
  Satyo.debug self' = Satyo.debug self /\
  Satyo.ghost_enabled self' = Satyo.ghost_enabled self /\
  Satyo.active_swarm self' = Satyo.active_swarm self /\
  Satyo.ghost_points item = length new /\
  if Satyo.ghost_enabled self
  then new = Views.last_n Satyo.GHOST_TRACE_BUFFER (old ++ [(Satyo.lat item, Satyo.lon item)])
       /\ last new = Some (Satyo.lat item, Satyo.lon item)
       /\ (1 <= Satyo.ghost_points item <= Satyo.GHOST_TRACE_BUFFER)%nat
       /\ (forall k, k <> name sat ->
             Satyo.ghost_vault self' !! k = Satyo.ghost_vault self !! k)
  else Satyo.ghost_vault self' = Satyo.ghost_vault self.
Proof.
  intros Hm Hb old new.
  apply calculate_quantum_metrics_ghost in Hm as (Hd & He & Hs & Hg & Hv).
  repeat (split; [assumption|]).
  destruct (Satyo.ghost_enabled self); [|exact Hv].
  assert (Hnew : new = Views.last_n Satyo.GHOST_TRACE_BUFFER
                         (old ++ [(Satyo.lat item, Satyo.lon item)])).
  { unfold new. rewrite Hv. now apply ghost_append_trace. }
  assert (Hlen : (1 <= length new <= Satyo.GHOST_TRACE_BUFFER)%nat).
  { rewrite Hnew. unfold Views.last_n. rewrite length_drop, length_app. cbn [length].
    fold old in Hb. unfold Satyo.GHOST_TRACE_BUFFER in *. lia. }
  split; [exact Hnew|]. split; [|split].
  - rewrite Hnew. unfold Views.last_n.
    rewrite drop_app_le
      by (rewrite length_app; cbn [length]; fold old in Hb;
          unfold Satyo.GHOST_TRACE_BUFFER in *; lia).
    apply last_snoc.
  - rewrite Hg. exact Hlen.
  - intros k Hk. rewrite Hv, ghost_append_lookup.
    destruct (decide (k = name sat)); [contradiction | reflexivity].
Qed.

Lemma calculate_quantum_metrics_extends_one_trace_witness :
  exists item self',
    Satyo.calculate_quantum_metrics Scenario.observe
      (Satyo.mkKernel false true ∅ [Scenario.iss]) Scenario.iss Scenario.t0 Scenario.clock0
    = Ok (item, self') /\
    Satyo.ghost_points item = 1%nat /\
    last (default [] (Satyo.ghost_vault self' !! "ISS (ZARYA)"%string))
    = Some (Satyo.lat item, Satyo.lon item).
Proof.
  assert (Hm : exists item self',
             Satyo.calculate_quantum_metrics Scenario.observe
               (Satyo.mkKernel false true ∅ [Scenario.iss]) Scenario.iss
               Scenario.t0 Scenario.clock0 = Ok (item, self')).
  { eexists _, _. vm_compute. reflexivity. }
  destruct Hm as (item & self' & Hm).
  exists item, self'. split; [exact Hm|].
  destruct (calculate_quantum_metrics_extends_one_trace Scenario.observe
              (Satyo.mkKernel false true ∅ [Scenario.iss]) self' Scenario.iss
              Scenario.t0 Scenario.clock0 item Hm) as (_ & _ & _ & Hg & Hon).
  - vm_compute. lia.
  - cbn [Satyo.ghost_enabled] in Hon. destruct Hon as (Hnew & Hlast & _ & _).
    split; [|exact Hlast].
    rewrite Hg. cbn [name Scenario.iss] in Hnew |- *. rewrite Hnew. reflexivity.
Defined.

(** X12. In every execution of satyo.py the flags of the kernel are
    those of the command line; with ghost tracing off the vault stays
    empty and every sample, on the bus or in the JSON file, has
    [ghost_points] 0; with ghost tracing on every sample has between 1
    and 50 ghost points. *)
Theorem ghost_points_of_every_sample
    (observe : EarthSatellite -> Time -> result Fix)
    (debug ghost_trace : bool)
    (sats : list EarthSatellite) (sched : list Pipeline.action) :
  let st := Satyo.run observe sched (Satyo.start debug ghost_trace sats) in
  let in_range (item : Satyo.telemetry) :=
    if ghost_trace
    then (1 <= Satyo.ghost_points item <= Satyo.GHOST_TRACE_BUFFER)%nat
    else Satyo.ghost_points item = 0%nat in
  Satyo.debug (Pipeline.kernel st) = debug /\
  Satyo.ghost_enabled (Pipeline.kernel st) = ghost_trace /\
  (if ghost_trace then True else Satyo.ghost_vault (Pipeline.kernel st) = ∅) /\
  Forall in_range (Queue.items (Pipeline.bus st)) /\
  Forall in_range (Satyo.DATA_MATRIX_FILE (Pipeline.files st)).
Proof.
  intros st in_range.
  destruct (PipelineShutdown.run_good Satyo.active_swarm
              (Satyo.calculate_quantum_metrics observe) Satyo.prologue Satyo.persist
              (fun k => Satyo.debug k = debug /\ Satyo.ghost_enabled k = ghost_trace /\
                        (forall key, (length (default [] (Satyo.ghost_vault k !! key))
                                      <= Satyo.GHOST_TRACE_BUFFER)%nat) /\
                        (if ghost_trace then True else Satyo.ghost_vault k = ∅))
              in_range) with (sched := sched) (st := Satyo.start debug ghost_trace sats)
    as ((Hd & He & _ & Hv) & Hbus & Htaken).
  - intros k sat now clock item k' (Hd & He & Hb & Hv) Hm.
    pose proof (calculate_quantum_metrics_bounded _ _ _ _ _ _ _ Hb Hm) as Hb'.
    apply calculate_quantum_metrics_ghost in Hm as (Hd' & He' & _ & Hg & Hv').
    split; [|repeat split; try congruence; try exact Hb'].
    + unfold in_range. rewrite Hg. rewrite He in Hv'. destruct ghost_trace.
      * split; [|apply Hb'].
        rewrite Hv', ghost_append_trace by apply Hb.
        unfold Views.last_n. rewrite length_drop, length_app. cbn [length].
        specialize (Hb (name sat)). unfold Satyo.GHOST_TRACE_BUFFER in *. lia.
      * rewrite Hv', Hv, lookup_empty. reflexivity.
    + rewrite He in Hv'. destruct ghost_trace; [exact I | congruence].
  - cbn. repeat split; auto.
    + intros key. rewrite lookup_empty. cbn. lia.
    + destruct ghost_trace; auto.
  - constructor.
  - exact I.
  - unfold st. rewrite satyo_json_is_taken. auto.
Qed.

(** ** When the encoder refuses a sample *)

Lemma pack_one_I_cases o z :
  pack_one o "I" (PyInt z)
  = if (0 <=? z) && (z <? 2 ^ 32) then Ok (emit o 4 z)
    else Raise (StructError "argument out of range").
Proof. reflexivity. Qed.

Lemma pack_one_f_cases o x :
  pack_one o "f" (PyFloat x)
  = if packs_f32 x then Ok (emit o 4 (bits32 (to_f32 x)))
    else Raise (OverflowError "float too large to pack with f format").
Proof.
  unfold packs_f32. cbn.
  destruct (is_finite x && is_infinite (to_f32 x)); reflexivity.
Qed.

(** X13. The outcomes of [encode_binary_packet]: it returns exactly
    when the identifier is a uint32 and each of the four measurements
    fits binary32, and then the result is the 28-byte record; an
    identifier out of range gives [struct.error] whatever the
    measurements; otherwise a measurement that does not fit gives
    [OverflowError]; nothing else is raised, whatever the timestamp.
    Zeros, infinities and NaN always fit. *)
Theorem encode_binary_packet_outcomes
    (sat_id : Z) (lat lon alt doppler time_time : pyfloat) :
  match Satlen.encode_binary_packet sat_id lat lon alt doppler time_time with
  | Ok bs =>
      0 <= sat_id < 2 ^ 32 /\
      packs_f32 lat && packs_f32 lon && packs_f32 alt && packs_f32 doppler = true /\
      bs = record_bytes sat_id lat lon alt doppler time_time
  | Raise (StructError _) => ~ 0 <= sat_id < 2 ^ 32
  | Raise (OverflowError _) =>
      0 <= sat_id < 2 ^ 32 /\
      packs_f32 lat && packs_f32 lon && packs_f32 alt && packs_f32 doppler = false
  | Raise _ => False
  end /\
  (forall s, packs_f32 (S754_zero s) = true) /\
  (forall s, packs_f32 (S754_infinity s) = true) /\
  packs_f32 S754_nan = true.
Proof.
  split; [|repeat split].
  unfold Satlen.encode_binary_packet, pack. cbn [parse_order pack_codes].
  rewrite pack_one_I_cases, !pack_one_f_cases, pack_one_d.
  destruct (Z.leb_spec 0 sat_id); destruct (Z.ltb_spec sat_id (2 ^ 32));
    cbn [andb mbind result_bind Py.bind]; try lia.
  destruct (packs_f32 lat); cbn [andb mbind result_bind Py.bind]; [|split; [lia | reflexivity]].
  destruct (packs_f32 lon); cbn [andb mbind result_bind Py.bind]; [|split; [lia | reflexivity]].
  destruct (packs_f32 alt); cbn [andb mbind result_bind Py.bind]; [|split; [lia | reflexivity]].
  destruct (packs_f32 doppler); cbn [andb mbind result_bind Py.bind];
    [|split; [lia | reflexivity]].
  split; [lia|]. split; [reflexivity|].
  cbn [emit]. unfold record_bytes. now rewrite app_nil_r.
Qed.

(** ** The doppler shift is odd in the range rate *)

Lemma binary_round_aux_opp prec emax s m e l :
  binary_round_aux prec emax (negb s) m e l
  = SFopp (binary_round_aux prec emax s m e l).
Proof.
  unfold binary_round_aux.
  destruct (shr_fexp prec emax m e l) as [mrs' e'].
  destruct (shr_fexp prec emax _ e' loc_Exact) as [mrs'' e''].
  destruct (shr_m mrs''); try reflexivity.
  destruct (e'' <=? emax - prec); reflexivity.
Qed.

Lemma xorb_negb_l a b : xorb (negb a) b = negb (xorb a b).
Proof. destruct a, b; reflexivity. Qed.

Lemma SFmul_opp_l prec emax x y :
  SFmul prec emax (SFopp x) y = SFopp (SFmul prec emax x y).
Proof.
  destruct x as [sx|sx| |sx mx ex], y as [sy|sy| |sy my ey];
    cbn [SFmul SFopp]; rewrite ?xorb_negb_l; try reflexivity.
  apply binary_round_aux_opp.
Qed.

Lemma SFdiv_opp_l prec emax x y :
  SFdiv prec emax (SFopp x) y = SFopp (SFdiv prec emax x y).
Proof.
  destruct x as [sx|sx| |sx mx ex], y as [sy|sy| |sy my ey];
    cbn [SFdiv SFopp]; rewrite ?xorb_negb_l; try reflexivity.
  destruct (SFdiv_core_binary prec emax (Z.pos mx) ex (Z.pos my) ey) as [[mz ez] lz].
  apply binary_round_aux_opp.
Qed.

(** X14. The doppler shift of satlen.py is an odd function of the range
    rate: an object that recedes at some speed gets exactly the opposite
    of the shift of one that approaches at that speed, rounding
    included; a zero range rate gives a zero shift and a NaN one gives
    NaN. *)
Theorem doppler_shift_is_odd (range_rate : pyfloat) :
  Satlen.doppler_shift (SFopp range_rate) = SFopp (Satlen.doppler_shift range_rate) /\
  (forall s, Satlen.doppler_shift (S754_zero s) = S754_zero s) /\
  (forall s, Satlen.doppler_shift (S754_infinity s) = S754_infinity s) /\
  Satlen.doppler_shift S754_nan = S754_nan.
Proof.
  split; [|split; [|split]].
  - unfold Satlen.doppler_shift, fmul, fdiv.
    now rewrite SFdiv_opp_l, SFmul_opp_l.
  - intros [|]; vm_compute; reflexivity.
  - intros [|]; vm_compute; reflexivity.
  - reflexivity.
Qed.

(** ** Signal quality: the two thresholds *)

Lemma perform_handshake_snr log10 observe sat now clock data :
  Satlen.perform_handshake log10 observe sat now clock = Ok data ->
  exists fx path_loss,
    observe sat now = Ok fx /\
    Satlen.calculate_path_loss log10 (distance_km fx) Satlen.BASE_FREQ_GHZ = Ok path_loss /\
    Satlen.range data = distance_km fx /\
    Satlen.altitude data = elevation_km fx /\
    Satlen.coords data = (latitude_degrees fx, longitude_degrees fx) /\
    Satlen.snr data = fsub (of_Z 100) (fdiv path_loss (of_Z 2)) /\
    Satlen.status data
    = if fgt (Satlen.snr data) (of_Z 15) then "ACTIVE"%string else "DEGRADED"%string.
Proof.
  unfold Satlen.perform_handshake.
  destruct (observe sat now) as [fx|]; cbn [mbind result_bind Py.bind]; [|discriminate].
  destruct (Satlen.calculate_path_loss _ _ _) as [pl|] eqn:Epl;
    cbn [mbind result_bind Py.bind]; [|discriminate].
  destruct (Satlen.encode_binary_packet _ _ _ _ _ _) as [blob|];
    cbn [mbind result_bind Py.bind]; [|discriminate].
  intros [= <-]. exists fx, pl. cbn. repeat split. exact Epl.
Qed.

(** X15. A sample whose range is zero gets path loss 0 without any call
    of [math.log10], so whatever that function would do: its SNR is
    exactly 100, its status is "ACTIVE" and it is not below the warning
    threshold. *)
Theorem zero_range_gives_full_signal
    (log10 : pyfloat -> result pyfloat)
    (observe : EarthSatellite -> Time -> result Fix)
    (sat : EarthSatellite) (now : Time) (clock : pyfloat) (data : Satlen.telemetry) :
  Satlen.perform_handshake log10 observe sat now clock = Ok data ->
  feq (Satlen.range data) (of_Z 0) = true ->
  Satlen.snr data = of_Z 100 /\
  Satlen.status data = "ACTIVE"%string /\
  flt (Satlen.snr data) (of_Z 20) = false.
Proof.
  intros Hm Hz.
  apply perform_handshake_snr in Hm as (fx & pl & _ & Hpl & Hr & _ & _ & Hsnr & Hst).
  rewrite Hr in Hz. unfold Satlen.calculate_path_loss in Hpl. rewrite Hz in Hpl.
  injection Hpl as <-.
  assert (E : Satlen.snr data = of_Z 100) by (rewrite Hsnr; vm_compute; reflexivity).
  rewrite Hst, E. repeat split; vm_compute; reflexivity.
Qed.

Lemma zero_range_gives_full_signal_witness :
  exists data,
    Satlen.perform_handshake (fun _ => Raise (ValueError "math domain error"))
      (fun _ _ => Ok (mkFix (literal 1242 100) (literal 14412 100) (of_Z 410)
                        (of_Z 0) (literal 45 10)))
      Scenario.iss Scenario.t0 Scenario.clock0 = Ok data /\
    Satlen.snr data = of_Z 100 /\ Satlen.status data = "ACTIVE"%string.
Proof.
  assert (Hm : exists data,
             Satlen.perform_handshake (fun _ => Raise (ValueError "math domain error"))
               (fun _ _ => Ok (mkFix (literal 1242 100) (literal 14412 100) (of_Z 410)
                                 (of_Z 0) (literal 45 10)))
               Scenario.iss Scenario.t0 Scenario.clock0 = Ok data /\
             feq (Satlen.range data) (of_Z 0) = true).
  { eexists. split; vm_compute; reflexivity. }
  destruct Hm as (data & Hm & Hz). exists data. split; [exact Hm|].
  destruct (zero_range_gives_full_signal _ _ _ _ _ _ Hm Hz) as (H1 & H2 & _).
  split; assumption.
Defined.

Lemma not_above_15_is_below_20 (x : pyfloat) :
  x <> S754_nan -> fgt x (of_Z 15) = false -> flt x (of_Z 20) = true.
Proof.
  unfold fgt, flt. set (c15 := of_Z 15). set (c20 := of_Z 20).
  vm_compute in c15, c20. subst c15 c20.
  destruct x as [s|s| |s m e]; intros Hn; try congruence.
  - reflexivity.
  - destruct s; [reflexivity | discriminate].
  - destruct s; [reflexivity|].
    unfold SFltb, SFcompare.
    destruct (Z.compare_spec (-49) e) as [<-|Hlt|Hgt].
    + intros _. reflexivity.
    + discriminate.
    + intros _. destruct (Z.compare_spec e (-48)) as [->|?|?]; first [lia | reflexivity].
Qed.

(** X16. The status of a sample and the audit log use two thresholds,
    15 and 20.  A sample of [perform_handshake] is "ACTIVE" exactly when
    its SNR is above 15 and "DEGRADED" otherwise; when the storage code
    handles it, a "DEGRADED" sample whose SNR is a number always gets a
    warning, and one whose SNR is NaN, which is "DEGRADED" too, gets
    none. *)
Theorem degraded_samples_are_warned
    (log10 : pyfloat -> result pyfloat)
    (observe : EarthSatellite -> Time -> result Fix)
    (sat : EarthSatellite) (now : Time) (clock datetime_now : pyfloat)
    (data : Satlen.telemetry) (d : Satlen.disk) :
  Satlen.perform_handshake log10 observe sat now clock = Ok data ->
  Satlen.status data
  = (if fgt (Satlen.snr data) (of_Z 15) then "ACTIVE" else "DEGRADED")%string /\
  exists d', Satlen.persist datetime_now data d = Ok d' /\
    Satlen.RECOVERY_LOG d'
    = Satlen.RECOVERY_LOG d ++
      match Satlen.snr data with
      | S754_nan => []
      | _ => if fgt (Satlen.snr data) (of_Z 15)
             then (if flt (Satlen.snr data) (of_Z 20)
                   then [Satlen.mkWarning datetime_now (Satlen.node_id data) (Satlen.snr data)]
                   else [])
             else [Satlen.mkWarning datetime_now (Satlen.node_id data) (Satlen.snr data)]
      end.
Proof.
  intros Hm.
  apply perform_handshake_snr in Hm as (fx & pl & _ & _ & _ & _ & _ & _ & Hst).
  split; [exact Hst|].
  unfold Satlen.persist. cbn [Satlen.BINARY_LOG Satlen.JSON_STREAM Satlen.RECOVERY_LOG].
  destruct (Satlen.snr data) as [s|s| |s m e] eqn:Es.
  - destruct (fgt _ _) eqn:E15.
    + destruct (flt _ _); eexists; split; try reflexivity. cbn. now rewrite app_nil_r.
    + rewrite not_above_15_is_below_20 by (congruence || exact E15).
      eexists; split; reflexivity.
  - destruct (fgt _ _) eqn:E15.
    + destruct (flt _ _); eexists; split; try reflexivity. cbn. now rewrite app_nil_r.
    + rewrite not_above_15_is_below_20 by (congruence || exact E15).
      eexists; split; reflexivity.
  - cbn. eexists; split; [reflexivity|]. cbn. now rewrite app_nil_r.
  - destruct (fgt _ _) eqn:E15.
    + destruct (flt _ _); eexists; split; try reflexivity. cbn. now rewrite app_nil_r.
    + rewrite not_above_15_is_below_20 by (congruence || exact E15).
      eexists; split; reflexivity.
Qed.

Lemma degraded_samples_are_warned_witness :
  exists data d',
    Satlen.perform_handshake Scenario.log10 Scenario.observe Scenario.iss
      Scenario.t0 Scenario.clock0 = Ok data /\
    Satlen.status data = "DEGRADED"%string /\
    Satlen.persist Scenario.clock0 data Satlen.clean_disk = Ok d' /\
    Views.warned (Satlen.RECOVERY_LOG d') = [(25544, Satlen.snr data)].
Proof.
  assert (Hm : exists data,
             Satlen.perform_handshake Scenario.log10 Scenario.observe Scenario.iss
               Scenario.t0 Scenario.clock0 = Ok data /\
             fgt (Satlen.snr data) (of_Z 15) = false /\
             Satlen.node_id data = 25544 /\
             (exists s m e, Satlen.snr data = S754_finite s m e)).
  { eexists. split; [vm_compute; reflexivity|].
    split; [vm_compute; reflexivity|]. split; [reflexivity|].
    eexists _, _, _. vm_compute. reflexivity. }
  destruct Hm as (data & Hm & H15 & Hid & s & m & e & Hsnr).
  destruct (degraded_samples_are_warned Scenario.log10 Scenario.observe Scenario.iss
              Scenario.t0 Scenario.clock0 Scenario.clock0 data Satlen.clean_disk Hm)
    as (Hst & d' & Hp & Hlog).
  exists data, d'. split; [exact Hm|]. split; [now rewrite Hst, H15|].
  split; [exact Hp|].
  rewrite Hlog, H15, Hsnr, Hid. reflexivity.
Defined.

(** ** Reading the binary files back *)

Lemma slice_flat_map_const {A} (f : A -> list byte) (n : nat) (l : list A) :
  Forall (fun x => length (f x) = n) l ->
  forall (pre : list byte) (i : nat) (x : A),
    l !! i = Some x ->
    slice (length pre + n * i) n (pre ++ flat_map f l) = f x.
Proof.
  induction 1 as [|a l Ha Hl IH]; intros pre i x Hi; [discriminate|].
  destruct i as [|i]; cbn [flat_map].
  - injection Hi as ->. rewrite Nat.mul_0_r, Nat.add_0_r.
    apply slice_app_at. congruence.
  - cbn in Hi. rewrite app_assoc.
    replace (length pre + n * S i)%nat with (length (pre ++ f a) + n * i)%nat
      by (rewrite length_app, Ha; lia).
    now apply IH.
Qed.

Lemma slice_slice_head (off n k : nat) (bs : list byte) :
  (k <= n)%nat -> slice off k bs = slice 0 k (slice off n bs).
Proof.
  intros Hk. unfold slice. rewrite drop_0, take_take.
  f_equal. lia.
Qed.

Lemma record_bytes_identifier ident lat lon alt doppler timestamp :
  0 <= ident < 2 ^ 32 ->
  be_decode (slice 0 4 (record_bytes ident lat lon alt doppler timestamp)) = ident.
Proof.
  intros Hid. unfold record_bytes.
  change 0%nat with (length (@nil byte)).
  rewrite <- (app_nil_l (be_bytes 4 ident ++ _)).
  rewrite slice_app_at by apply length_be_bytes.
  apply be_decode_be_bytes_small. exact Hid.
Qed.

Lemma perform_handshake_identifier log10 observe sat now clock data :
  Satlen.perform_handshake log10 observe sat now clock = Ok data ->
  0 <= Satlen.node_id data < 2 ^ 32.
Proof.
  unfold Satlen.perform_handshake.
  destruct (observe sat now) as [fx|]; cbn [mbind result_bind Py.bind]; [|discriminate].
  destruct (Satlen.calculate_path_loss _ _ _) as [pl|];
    cbn [mbind result_bind Py.bind]; [|discriminate].
  destruct (Satlen.encode_binary_packet _ _ _ _ _ _) as [blob|] eqn:E;
    cbn [mbind result_bind Py.bind]; [|discriminate].
  apply pack_Iffffd_inv in E as (Hid & _).
  intros [= <-]. exact Hid.
Qed.

Lemma calculate_quantum_metrics_identifier observe self sat now clock item self' :
  Satyo.calculate_quantum_metrics observe self sat now clock = Ok (item, self') ->
  0 <= Satyo.id item < 2 ^ 32.
Proof.
  unfold Satyo.calculate_quantum_metrics.
  destruct (observe sat now) as [fx|]; cbn [mbind result_bind Py.bind]; [|discriminate].
  destruct (Satyo.binary_packet sat fx clock) as [packet|] eqn:E;
    cbn [mbind result_bind Py.bind]; [|discriminate].
  apply pack_Iffffd_inv in E as (Hid & _).
  intros [= <- _]. exact Hid.
Qed.

Lemma satlen_binary_log_is_taken log10 observe sats sched :
  Satlen.BINARY_LOG
    (Pipeline.files (Satlen.run log10 observe sched (Satlen.start sats)))
  = flat_map Satlen.binary_blob
      (Pipeline.persisted Satlen.swarm (Satlen.measure log10 observe)
         Satlen.prologue Satlen.persist sched (Satlen.start sats)).
Proof.
  now destruct (satlen_one_record_per_sample_taken log10 observe sats sched) as (H & _).
Qed.

Lemma satyo_binary_core_is_taken observe debug ghost_trace sats sched :
  Pipeline.storage (Satyo.run observe sched (Satyo.start debug ghost_trace sats))
  <> Pipeline.SStart ->
  Satyo.BINARY_CORE_FILE
    (Pipeline.files (Satyo.run observe sched (Satyo.start debug ghost_trace sats)))
  = Views.satyo_header ++
    flat_map Views.satyo_raw
      (Pipeline.persisted Satyo.active_swarm (Satyo.calculate_quantum_metrics observe)
         Satyo.prologue Satyo.persist sched (Satyo.start debug ghost_trace sats)).
Proof.
  intros Hs. unfold Satyo.run in *.
  rewrite (PipelineMore.files_with_header Satyo.active_swarm
             (Satyo.calculate_quantum_metrics observe)
             Satyo.prologue Satyo.persist Satyo.BINARY_CORE_FILE
             (fun _ => Views.satyo_header) Views.satyo_raw
             (Satyo.tracked observe sats)).
  - cbn [Pipeline.storage Satyo.start Pipeline.boot Pipeline.files].
    destruct (Pipeline.storage _); [contradiction | reflexivity ..].
  - reflexivity.
  - intros c item f Hitem. eexists. split.
    + apply (satyo_persist_tracked_Ok observe sats c item f Hitem).
    + reflexivity.
  - apply satyo_taken_tracked.
Qed.

(** X17. In every execution of satlen.py the binary log can be read
    back record by record: the record of the [i]-th sample taken from
    the bus is the 28 bytes at offset [28 * i]; it encodes the fields of
    that very sample, the ones dumped in the JSON file, and its first
    four bytes read as a big-endian integer are the sample's node
    identifier. *)
Theorem satlen_binary_log_reads_back
    (log10 : pyfloat -> result pyfloat)
    (observe : EarthSatellite -> Time -> result Fix)
    (sats : list EarthSatellite) (sched : list Pipeline.action)
    (i : nat) (data : Satlen.telemetry) :
  let st := Satlen.run log10 observe sched (Satlen.start sats) in
  let taken := Pipeline.persisted Satlen.swarm (Satlen.measure log10 observe)
                 Satlen.prologue Satlen.persist sched (Satlen.start sats) in
  taken !! i = Some data ->
  slice (28 * i) 28 (Satlen.BINARY_LOG (Pipeline.files st)) = Satlen.binary_blob data /\
  (exists time_time,
     Satlen.binary_blob data
     = record_bytes (Satlen.node_id data) (fst (Satlen.coords data))
         (snd (Satlen.coords data)) (Satlen.altitude data) (Satlen.doppler data)
         time_time) /\
  be_decode (slice (28 * i) 4 (Satlen.BINARY_LOG (Pipeline.files st)))
  = Satlen.node_id data.
Proof.
  intros st taken Hi.
  pose proof (satlen_taken_tracked log10 observe sats sched) as Htracked.
  fold taken in Htracked.
  assert (Hdata : Satlen.tracked log10 observe sats data).
  { rewrite Forall_forall in Htracked. apply Htracked.
    apply list_elem_of_lookup. eauto. }
  destruct Hdata as (j & sat & now & clock & _ & _ & Hm).
  pose proof (perform_handshake_identifier _ _ _ _ _ _ Hm) as Hid.
  destruct (perform_handshake_blob _ _ _ _ _ _ Hm) as (_ & _ & Hblob & _).
  assert (Hslice : slice (28 * i) 28 (Satlen.BINARY_LOG (Pipeline.files st))
                   = Satlen.binary_blob data).
  { unfold st. rewrite satlen_binary_log_is_taken. fold taken.
    apply (slice_flat_map_const Satlen.binary_blob 28 taken) with (pre := []); [|exact Hi].
    eapply Forall_impl; [exact Htracked|].
    intros x (? & ? & ? & ? & _ & _ & Hx).
    now apply perform_handshake_blob in Hx. }
  split; [exact Hslice|]. split; [eauto|].
  rewrite (slice_slice_head (28 * i) 28 4) by lia.
  rewrite Hslice, Hblob. now apply record_bytes_identifier.
Qed.

Lemma satlen_binary_log_reads_back_witness :
  let sched := [Pipeline.Store Scenario.clock0;
                Pipeline.Harvest Scenario.t0 Scenario.clock0;
                Pipeline.Harvest Scenario.t0 Scenario.clock0;
                Pipeline.Harvest Scenario.t0 Scenario.clock0;
                Pipeline.Store Scenario.clock0; Pipeline.Store Scenario.clock0] in
  be_decode (slice 0 4 (Satlen.BINARY_LOG (Pipeline.files
    (Satlen.run Scenario.log10 Scenario.observe sched (Satlen.start [Scenario.iss])))))
  = 25544.
Proof.
  intros sched.
  assert (Hi : exists data,
             Pipeline.persisted Satlen.swarm
               (Satlen.measure Scenario.log10 Scenario.observe)
               Satlen.prologue Satlen.persist sched (Satlen.start [Scenario.iss]) !! 0%nat
             = Some data /\ Satlen.node_id data = 25544).
  { eexists. split; [vm_compute; reflexivity | reflexivity]. }
  destruct Hi as (data & Hi & Hid).
  destruct (satlen_binary_log_reads_back Scenario.log10 Scenario.observe [Scenario.iss]
              sched 0 data Hi) as (_ & _ & H).
  rewrite <- Hid. exact H.
Defined.

(** X18. In every execution of satyo.py in which the storage thread has
    started, the binary file can be read back record by record after
    its 20-byte header: the record of the [i]-th sample taken from the
    bus is the 28 bytes at offset [20 + 28 * i]; it is the packet the
    harvester built, which went through [hex] and [fromhex] unchanged,
    and its first four bytes read as a big-endian integer are the [id]
    of the [i]-th line of the JSON file. *)
Theorem satyo_binary_core_reads_back
    (observe : EarthSatellite -> Time -> result Fix)
    (debug ghost_trace : bool)
    (sats : list EarthSatellite) (sched : list Pipeline.action)
    (i : nat) (item : Satyo.telemetry) :
  let st := Satyo.run observe sched (Satyo.start debug ghost_trace sats) in
  Satyo.DATA_MATRIX_FILE (Pipeline.files st) !! i = Some item ->
  Pipeline.storage st <> Pipeline.SStart /\
  slice 0 20 (Satyo.BINARY_CORE_FILE (Pipeline.files st)) = Views.satyo_header /\
  (exists time_time,
     slice (20 + 28 * i) 28 (Satyo.BINARY_CORE_FILE (Pipeline.files st))
     = record_bytes (Satyo.id item) (Satyo.lat item) (Satyo.lon item) (Satyo.alt item)
         (S754_zero false) time_time /\
     Satyo.binary_payload item
     = Hex.hex (record_bytes (Satyo.id item) (Satyo.lat item) (Satyo.lon item)
                  (Satyo.alt item) (S754_zero false) time_time)) /\
  be_decode (slice (20 + 28 * i) 4 (Satyo.BINARY_CORE_FILE (Pipeline.files st)))
  = Satyo.id item.
Proof.
  intros st Hi. unfold st in Hi. rewrite satyo_json_is_taken in Hi.
  set (taken := Pipeline.persisted Satyo.active_swarm
                  (Satyo.calculate_quantum_metrics observe)
                  Satyo.prologue Satyo.persist sched
                  (Satyo.start debug ghost_trace sats)) in *.
  pose proof (satyo_taken_tracked observe debug ghost_trace sats sched) as Htracked.
  fold taken in Htracked.
  assert (Hstarted : Pipeline.storage st <> Pipeline.SStart).
  { intros E. unfold st, Satyo.run in E.
    apply PipelineMore.persisted_before_start in E. fold taken in E.
    rewrite E in Hi. discriminate. }
  assert (Hitem : Satyo.tracked observe sats item).
  { rewrite Forall_forall in Htracked. apply Htracked.
    apply list_elem_of_lookup. eauto. }
  destruct Hitem as (j & sat & now & clock & self & self' & _ & _ & Hm).
  pose proof (calculate_quantum_metrics_identifier _ _ _ _ _ _ _ Hm) as Hid.
  destruct (calculate_quantum_metrics_payload _ _ _ _ _ _ _ Hm) as (_ & _ & Hpay).
  assert (Hraw : Views.satyo_raw item
                 = record_bytes (Satyo.id item) (Satyo.lat item) (Satyo.lon item)
                     (Satyo.alt item) (S754_zero false) clock).
  { unfold Views.satyo_raw. now rewrite Hpay, fromhex_hex. }
  assert (Hfile : Satyo.BINARY_CORE_FILE (Pipeline.files st)
                  = Views.satyo_header ++ flat_map Views.satyo_raw taken)
    by (apply satyo_binary_core_is_taken; exact Hstarted).
  assert (Hslice : slice (20 + 28 * i) 28 (Satyo.BINARY_CORE_FILE (Pipeline.files st))
                   = Views.satyo_raw item).
  { rewrite Hfile.
    apply (slice_flat_map_const Views.satyo_raw 28 taken) with (pre := Views.satyo_header);
      [|exact Hi].
    eapply Forall_impl; [exact Htracked|].
    intros x Hx. destruct (satyo_raw_tracked observe sats x Hx) as [c ->].
    apply length_record_bytes. }
  split; [exact Hstarted|]. split.
  { rewrite Hfile. unfold slice. rewrite drop_0. now apply take_app_length'. }
  split.
  { exists clock. split; [now rewrite Hslice | exact Hpay]. }
  rewrite (slice_slice_head (20 + 28 * i) 28 4) by lia.
  rewrite Hslice, Hraw. now apply record_bytes_identifier.
Qed.

Lemma satyo_binary_core_reads_back_witness :
  let sched := [Pipeline.Store Scenario.clock0;
                Pipeline.Harvest Scenario.t0 Scenario.clock0;
                Pipeline.Harvest Scenario.t0 Scenario.clock0;
                Pipeline.Harvest Scenario.t0 Scenario.clock0;
                Pipeline.Store Scenario.clock0; Pipeline.Store Scenario.clock0] in
  be_decode (slice 20 4 (Satyo.BINARY_CORE_FILE (Pipeline.files
    (Satyo.run Scenario.observe sched (Satyo.start false false [Scenario.iss])))))
  = 25544.
Proof.
  intros sched.
  assert (Hi : exists item,
             Satyo.DATA_MATRIX_FILE (Pipeline.files
               (Satyo.run Scenario.observe sched (Satyo.start false false [Scenario.iss])))
             !! 0%nat = Some item /\ Satyo.id item = 25544).
  { eexists. split; [vm_compute; reflexivity | reflexivity]. }
  destruct Hi as (item & Hi & Hid).
  destruct (satyo_binary_core_reads_back Scenario.observe false false [Scenario.iss]
              sched 0 item Hi) as (_ & _ & _ & H).
  rewrite <- Hid. exact H.
Defined.

(** ** Which doubles fit binary32 *)

Lemma finish_fits prec emax s q e' :
  e' <= emax - prec -> is_infinite (finish prec emax s q e') = false.
Proof.
  intros He. unfold finish. destruct q as [|p|p]; try reflexivity.
  destruct (Z.leb_spec e' (emax - prec)); [reflexivity | lia].
Qed.

Lemma finish_overflows prec emax s q e' :
  0 < q -> emax - prec < e' -> is_infinite (finish prec emax s q e') = true.
Proof.
  intros Hq He. unfold finish. destruct q as [|p|p]; try lia.
  destruct (Z.leb_spec e' (emax - prec)); [lia | reflexivity].
Qed.

Lemma round_to_f32_small s m e :
  Z.pos (digits2_pos m) + e <= 127 -> is_infinite (round_to 24 128 s m e) = false.
Proof.
  intros Hd. unfold round_to.
  set (e1 := fexp 24 128 (Z.pos (digits2_pos m) + e)).
  assert (He1 : e1 <= 103) by (unfold e1, fexp, emin; lia).
  destruct (e1 <=? e); [apply finish_fits; lia|].
  destruct (_ =? _); apply finish_fits; lia.
Qed.

Lemma round_to_f32_large s m e :
  129 <= Z.pos (digits2_pos m) + e -> is_infinite (round_to 24 128 s m e) = true.
Proof.
  intros Hd. unfold round_to.
  set (e1 := fexp 24 128 (Z.pos (digits2_pos m) + e)).
  assert (He1 : 105 <= e1) by (unfold e1, fexp, emin; lia).
  destruct (Z.leb_spec e1 e) as [Hle|Hlt].
  - apply finish_overflows; [|lia].
    apply Z.mul_pos_pos; [lia | apply Z.pow_pos_nonneg; lia].
  - pose proof (round_mantissa_ge_pow 24 128 ltac:(lia) m e Hlt) as Hq.
    fold e1 in Hq. specialize (Hq ltac:(unfold emin; lia)).
    change (2 ^ (24 - 1)) with 8388608 in Hq.
    destruct (_ =? _); apply finish_overflows; lia.
Qed.

Lemma round_mantissa_carries (m : Z) :
  2 ^ 52 <= m < 2 ^ 53 ->
  (round_mantissa m 29 =? 2 ^ 24) = negb (m <? 2 ^ 53 - 2 ^ 28).
Proof.
  intros Hm. unfold round_mantissa.
  change (2 ^ (29 - 1)) with 268435456. change (2 ^ 29) with 536870912.
  change (2 ^ 24) with 16777216.
  change (2 ^ 53 - 2 ^ 28) with 9007198986305536.
  change (2 ^ 52) with 4503599627370496 in Hm.
  change (2 ^ 53) with 9007199254740992 in Hm.
  pose proof (Z.div_mod m 536870912 ltac:(lia)) as Hdm.
  pose proof (Z.mod_pos_bound m 536870912 ltac:(lia)) as Hr.
  set (q := m / 536870912) in *. set (r := m mod 536870912) in *.
  destruct (Z.ltb_spec m 9007198986305536) as [Hlt|Hge]; cbn [negb].
  - apply Z.eqb_neq.
    destruct (Z.compare_spec r 268435456) as [Heq|Hl|Hg]; try lia.
    destruct (Z.even q) eqn:Ev; [lia|].
    intros Hq. assert (q = 16777215) by lia. subst q.
    lia.
  - apply Z.eqb_eq.
    assert (Hq : q = 16777215) by lia.
    destruct (Z.compare_spec r 268435456) as [Heq|Hl|Hg]; try lia.
    rewrite Hq. cbn. reflexivity.
Qed.

(** X19. Which measurements make the encoders raise [OverflowError]: a
    finite double fits the ['f'] format exactly when its magnitude is
    below [2^128 - 2^103], the largest binary32 number plus half a unit
    in its last place; in terms of the double's own significand and
    exponent, when the exponent is below 75, or is 75 with a significand
    below [2^53 - 2^28]. *)
Theorem packs_f32_threshold (s : bool) (m : positive) (e : Z) :
  valid64 (S754_finite s m e) = true ->
  packs_f32 (S754_finite s m e)
  = (e <? 75) || ((e =? 75) && (Z.pos m <? 2 ^ 53 - 2 ^ 28)).
Proof.
  unfold valid64. cbn [valid_binary]. unfold bounded, canonical_mantissa.
  intros Hv. apply andb_prop in Hv as [Hc He].
  apply Z.eqb_eq in Hc. apply Z.leb_le in He.
  pose proof (digits2_pos_bounds m) as [Dlo Dhi].
  set (d := Z.pos (digits2_pos m)) in *.
  unfold packs_f32, to_f32. cbn [is_finite andb].
  rewrite binary_round_round_to by lia.
  unfold fexp, emin in Hc.
  destruct (Z.ltb_spec e 75) as [H75|H75]; cbn [orb].
  - rewrite round_to_f32_small by (fold d; lia). reflexivity.
  - assert (Hd : d = 53) by lia.
    destruct (Z.eqb_spec e 75) as [->|Hne]; cbn [andb].
    + unfold round_to. fold d. rewrite Hd.
      change (fexp 24 128 (53 + 75)) with 104.
      change (104 <=? 75) with false. cbv beta iota.
      change (104 - 75) with 29.
      rewrite Hd in Dlo, Dhi. change (53 - 1) with 52 in Dlo.
      rewrite (round_mantissa_carries (Z.pos m)) by lia.
      destruct (Z.ltb_spec (Z.pos m) (2 ^ 53 - 2 ^ 28)) as [Hlt|Hge]; cbn [negb].
      * rewrite finish_fits by lia. reflexivity.
      * reflexivity.
    + rewrite round_to_f32_large by (fold d; lia). reflexivity.
Qed.

Lemma packs_f32_threshold_witness :
  packs_f32 (S754_finite false 9007198986305535 75) = true /\
  packs_f32 (S754_finite false 9007198986305536 75) = false.
Proof.
  split.
  - rewrite (packs_f32_threshold false 9007198986305535 75) by (vm_compute; reflexivity).
    reflexivity.
  - rewrite (packs_f32_threshold false 9007198986305536 75) by (vm_compute; reflexivity).
    reflexivity.
Defined.
